(** * Pizza sales dashboard: the filtering and aggregation core

    A shallow embedding of [pizza_sales_app.py].  The script is a Streamlit
    application: it loads a table of pizza order line-items once and then
    runs one of three page functions, each of which filters the table,
    groups and sums it with pandas and hands the derived tables to chart
    widgets.

    Modelling choices, all taken from the way the script is written:

    - a [DataFrame] is the list of column labels it carries together with
      its rows; a row is the record of the six cells the script reads;
    - the number type of the two price columns is a parameter, with what
      pandas computes on it (the sum of a column, the sum of a group, the
      mean, the comparison): the script runs on [int64] columns, which
      wrap around, and on [float64] columns, which round, and both are
      given; a timestamp is its count of nanoseconds, and the text of a
      date becomes a timestamp through a parser that is a parameter too;
    - Python exceptions are values of [exn]; every operation that can raise
      returns a [result];
    - DataFrame objects live in a store ([gmap loc DataFrame]); boolean
      indexing allocates a new object, column assignment updates an object
      in place, and the page functions are written in a state-and-exception
      monad over that store and the list of widgets rendered so far. *)

From Stdlib Require Import ZArith List Bool Lia Sorted OrdersEx Permutation.
From Stdlib Require Import PrimFloat Uint63.
From stdpp Require Import gmap strings.
Import ListNotations.

Local Open Scope Z_scope.
#[local] Set Warnings "-inexact-float".

(** ** Exceptions and results *)

(** [KeyError key] carries the column label the message of the exception
    names. *)
Inductive exn : Type :=
| KeyError (key : string)
| ValueError (message : string)
| NameError (message : string).

Inductive result (A : Type) : Type :=
| Ok (a : A)
| Raise (e : exn).

Arguments Ok {A} a.
Arguments Raise {A} e.

Definition is_ok {A} (r : result A) : bool :=
  match r with Ok _ => true | Raise _ => false end.

(** A pandas scalar that may be the "not a number" marker. *)
Inductive scalar (A : Type) : Type :=
| Val (a : A)
| NaN.

Arguments Val {A} a.
Arguments NaN {A}.

(** ** Ordered keys

    [groupby] and [np.unique] sort their keys; the key types of the script
    are strings (category, name, size), compared as Python compares [str],
    and timestamps. *)

Class OrdKey (K : Type) : Type := {
  kcmp : K -> K -> comparison
}.

(** The comparison is a total order. *)
Class OrdKeyLaws (K : Type) `{OrdKey K} : Prop := {
  kcmp_eq : forall a b, kcmp a b = Eq <-> a = b;
  kcmp_antisym : forall a b, kcmp b a = CompOpp (kcmp a b);
  kcmp_trans : forall a b c, kcmp a b = Lt -> kcmp b c = Lt -> kcmp a c = Lt
}.

Definition klt {K} `{OrdKey K} (a b : K) : Prop := kcmp a b = Lt.
Definition kle {K} `{OrdKey K} (a b : K) : Prop := kcmp a b <> Gt.
Definition keqb {K} `{OrdKey K} (a b : K) : bool :=
  match kcmp a b with Eq => true | _ => false end.

#[export] Instance string_OrdKey : OrdKey string := {|
  kcmp := String_as_OT.compare
|}.

#[export] Instance Z_OrdKey : OrdKey Z := {|
  kcmp := Z.compare
|}.

(** ** Series

    A pandas [Series] is the list of its cells, in row order. *)

Definition Series (A : Type) : Type := list A.

(** ** Numbers

    [read_csv] gives a price column the dtype [int64] when every cell is
    an integer and [float64] otherwise.  What the script does with the
    prices it does through pandas: [num] is the type of a cell and the class
    gives the operations pandas offers on it.  How a sum orders its
    additions, and how it rounds or wraps around, belongs to the
    instance. *)

Class Number (num : Type) : Type := {
  (** the number 0 *)
  zero : num;
  (** [Series.sum()] *)
  Series_sum : Series num -> num;
  (** the sum of the cells of one group in [groupby(...).sum()] *)
  group_sum : Series num -> num;
  (** [Series.mean()] of a series that has a cell; always a [float64] *)
  mean_of : Series num -> float;
  (** [a < b] *)
  num_ltb : num -> num -> bool
}.

(** The sum of no cell is 0. *)
Class EmptySum (num : Type) `{Number num} : Prop := {
  Series_sum_nil : Series_sum [] = zero
}.

(** The sums do not depend on the order of the cells nor on how the cells
    are grouped: what holds of integers that wrap around, and of numbers
    that are added without rounding. *)
Class AdditiveNumber (num : Type) `{Number num} : Prop := {
  Series_sum_perm : forall s s', Permutation s s' -> Series_sum s = Series_sum s';
  Series_sum_groups : forall groups : list (Series num),
    Series_sum (map group_sum groups) = Series_sum (concat groups)
}.

(** ** Dates

    A timestamp ([datetime64[ns]]) counts the nanoseconds since the epoch;
    its calendar date is the day it falls on. *)

Definition ns_per_day : Z := 86400000000000.

Definition midnight (day : Z) : Z := day * ns_per_day.

Definition calendar_date (timestamp : Z) : Z := timestamp / ns_per_day.

(** The parser behind [pd.to_datetime]: the timestamp a text stands for,
    if pandas can read it as one. *)
Class DateParser : Type := {
  parse_datetime : string -> option Z
}.

Section Model.
Context {num : Type} `{Number num} `{DateParser}.

(** [Series.mean()]: pandas gives [nan], without raising, when there is no
    cell. *)
Definition Series_mean (s : Series num) : scalar float :=
  match s with
  | [] => NaN
  | _ :: _ => Val (mean_of s)
  end.

(** [series == value], cell by cell.  The value comes from a select box,
    which hands back [None] when it has no option to offer; no string cell
    equals [None]. *)
Definition Series_eq (s : Series string) (value : option string) : Series bool :=
  map (fun c => match value with
                | Some v => String.eqb c v
                | None => false
                end) s.

(** [series.isin(values)]. *)
Definition Series_isin (s : Series string) (values : list string) : Series bool :=
  map (fun c => existsb (String.eqb c) values) s.

(** [series.unique()]: the distinct cells, in order of first appearance. *)
Fixpoint Series_unique (s : Series string) : list string :=
  match s with
  | [] => []
  | c :: s' => c :: List.filter (fun d => negb (String.eqb d c)) (Series_unique s')
  end.

(** Insertion of a key into an ascending list without duplicates. *)
Fixpoint insert_key {K} `{OrdKey K} (k : K) (ks : list K) : list K :=
  match ks with
  | [] => [k]
  | k' :: ks' =>
      match kcmp k k' with
      | Lt => k :: ks
      | Eq => ks
      | Gt => k' :: insert_key k ks'
      end
  end.

(** [np.unique(series)]: the distinct cells in ascending order. *)
Definition np_unique {K} `{OrdKey K} (s : Series K) : list K :=
  fold_right insert_key [] s.

(** A series indexed by group keys, as [groupby(...)[col].sum()] returns:
    the pairs of an index label and a value, in index order. *)
Definition IndexedSeries (K : Type) : Type := list (K * num).

(** [idxmax()] scans the values once and keeps the label of the first
    maximum: a later value replaces the best one only when it is strictly
    greater. *)
Fixpoint argmax_from {K} (best : K * num) (s : IndexedSeries K) : K * num :=
  match s with
  | [] => best
  | (k, v) :: s' =>
      if num_ltb (snd best) v then argmax_from (k, v) s' else argmax_from best s'
  end.

Definition Series_idxmax {K} (s : IndexedSeries K) : result K :=
  match s with
  | [] => Raise (ValueError "attempt to get argmax of an empty sequence")
  | kv :: s' => Ok (fst (argmax_from kv s'))
  end.

(** The greater of two numbers, the first when neither is below the
    other. *)
Definition num_max (a b : num) : num := if num_ltb a b then b else a.

(** [max()] of an indexed series; [nan] when it is empty. *)
Definition Series_max {K} (s : IndexedSeries K) : scalar num :=
  match s with
  | [] => NaN
  | (_, v) :: s' => Val (fold_left num_max (map snd s') v)
  end.

(** [pd.to_datetime(series)] on a column that already holds timestamps
    (dtype [datetime64]) returns the same timestamps. *)
Definition pd_to_datetime (s : Series Z) : Series Z := s.

(** [pd.to_datetime(series)] on a column of text (dtype [object]), as
    [read_csv] leaves the dates: every cell is parsed, and the first cell
    pandas cannot read makes the call raise (a [DateParseError], which is
    a [ValueError]). *)
Fixpoint pd_to_datetime_object (s : Series string) : result (Series Z) :=
  match s with
  | [] => Ok []
  | c :: s' =>
      match parse_datetime c with
      | None => Raise (ValueError "Unknown datetime string format, unable to parse")
      | Some t =>
          match pd_to_datetime_object s' with
          | Ok ts => Ok (t :: ts)
          | Raise e => Raise e
          end
      end
  end.

(** ** Rows and frames

    The frames of the pages: [order_date], where a frame has the column,
    holds timestamps. *)

Record Row : Type := mkRow {
  pizza_category : string;
  pizza_name : string;
  pizza_size : string;
  unit_price : num;
  total_price : num;
  order_date : Z
}.

Record DataFrame : Type := mkDataFrame {
  columns : list string;
  rows : list Row
}.

(** A column of the schema: its label, how a row's cell is read and how it
    is replaced. *)
Record Column (A : Type) : Type := mkColumn {
  label : string;
  cell : Row -> A;
  set_cell : A -> Row -> Row
}.

Arguments label {A} c.
Arguments cell {A} c r.
Arguments set_cell {A} c a r.

Definition col_pizza_category : Column string :=
  mkColumn string "pizza_category" pizza_category
    (fun v r => mkRow v (pizza_name r) (pizza_size r) (unit_price r) (total_price r) (order_date r)).
Definition col_pizza_name : Column string :=
  mkColumn string "pizza_name" pizza_name
    (fun v r => mkRow (pizza_category r) v (pizza_size r) (unit_price r) (total_price r) (order_date r)).
Definition col_pizza_size : Column string :=
  mkColumn string "pizza_size" pizza_size
    (fun v r => mkRow (pizza_category r) (pizza_name r) v (unit_price r) (total_price r) (order_date r)).
Definition col_unit_price : Column num :=
  mkColumn num "unit_price" unit_price
    (fun v r => mkRow (pizza_category r) (pizza_name r) (pizza_size r) v (total_price r) (order_date r)).
Definition col_total_price : Column num :=
  mkColumn num "total_price" total_price
    (fun v r => mkRow (pizza_category r) (pizza_name r) (pizza_size r) (unit_price r) v (order_date r)).
Definition col_order_date : Column Z :=
  mkColumn Z "order_date" order_date
    (fun v r => mkRow (pizza_category r) (pizza_name r) (pizza_size r) (unit_price r) (total_price r) v).

(** The six labels the specification's schema lists. *)
Definition schema : list string :=
  ["pizza_category"; "pizza_name"; "pizza_size"; "unit_price"; "total_price"; "order_date"].

(** ['label' in df.columns] *)
Definition has_column (df : DataFrame) (l : string) : bool :=
  existsb (String.eqb l) (columns df).

(** [df[label]]: the column as a series, [KeyError] when the frame has no
    such column. *)
Definition getitem {A} (df : DataFrame) (c : Column A) : result (Series A) :=
  if has_column df (label c) then Ok (map (cell c) (rows df))
  else Raise (KeyError (label c)).

(** Selection of the rows whose mask cell is [True]. *)
Fixpoint select_rows {A} (rs : list A) (mask : list bool) : list A :=
  match rs, mask with
  | r :: rs', b :: mask' =>
      if b then r :: select_rows rs' mask' else select_rows rs' mask'
  | _, _ => []
  end.

(** [df[mask]]: boolean indexing.  The result is a new frame with the same
    columns; pandas refuses a mask of another length. *)
Definition getitem_mask (df : DataFrame) (mask : Series bool) : result DataFrame :=
  if Nat.eqb (length mask) (length (rows df))
  then Ok (mkDataFrame (columns df) (select_rows (rows df) mask))
  else Raise (ValueError "Item wrong length").

Fixpoint assign_cells {A} (c : Column A) (rs : list Row) (s : Series A) : list Row :=
  match rs, s with
  | r :: rs', v :: s' => set_cell c v r :: assign_cells c rs' s'
  | _, _ => []
  end.

(** [df[label] = series]: every row receives its new cell; a label the
    frame did not have is appended to its columns. *)
Definition setitem {A} (df : DataFrame) (c : Column A) (s : Series A) : result DataFrame :=
  if Nat.eqb (length s) (length (rows df))
  then Ok (mkDataFrame
             (if has_column df (label c) then columns df else columns df ++ [label c])
             (assign_cells c (rows df) s))
  else Raise (ValueError "Length of values does not match length of index").

(** ** Grouping

    [df.groupby(label)] with pandas' default [sort=True]: one group per
    distinct key, the groups in ascending key order, every group holding
    its rows in the order of the frame. *)

Fixpoint insert_group {K} `{OrdKey K} (k : K) (r : Row) (gs : list (K * list Row))
  : list (K * list Row) :=
  match gs with
  | [] => [(k, [r])]
  | (k', rs) :: gs' =>
      match kcmp k k' with
      | Lt => (k, [r]) :: gs
      | Eq => (k', r :: rs) :: gs'
      | Gt => (k', rs) :: insert_group k r gs'
      end
  end.

Definition group_rows {K} `{OrdKey K} (key : Row -> K) (rs : list Row)
  : list (K * list Row) :=
  fold_right (fun r gs => insert_group (key r) r gs) [] rs.

Record GroupBy (K : Type) : Type := mkGroupBy {
  gb_columns : list string;
  gb_groups : list (K * list Row)
}.

Arguments gb_columns {K} g.
Arguments gb_groups {K} g.

Definition groupby {K} `{OrdKey K} (df : DataFrame) (c : Column K) : result (GroupBy K) :=
  if has_column df (label c)
  then Ok (mkGroupBy K (columns df) (group_rows (cell c) (rows df)))
  else Raise (KeyError (label c)).

(** [grouped.agg({label: op})] and [grouped[label].op()]: the reduction
    [op] of the value column inside every group. *)
Definition agg {K} (g : GroupBy K) (c : Column num) (op : Series num -> num)
  : result (IndexedSeries K) :=
  if existsb (String.eqb (label c)) (gb_columns g)
  then Ok (map (fun kg => (fst kg, op (map (cell c) (snd kg)))) (gb_groups g))
  else Raise (KeyError (label c)).

(** [.reset_index()] turns the index into an ordinary column: the table of
    (key, value) rows, in the same order. *)
Definition reset_index {K} (s : IndexedSeries K) : list (K * num) := s.

(** ** The store and the widgets

    A Python variable bound to a DataFrame holds a reference; [loc] is the
    identity of the object. *)

Definition loc : Type := nat.

Inductive figure : Type :=
| Bar (points : list (string * num))
| Pie (slices : list (string * num))
| Line (points : list (Z * num)).

Inductive widget : Type :=
| Title (text : string)
| Markdown
| Image (caption : string)
| PlotlyChart (fig : figure)
| MetricMoney (name : string) (value : num)
| MetricMean (name : string) (value : scalar float)
| MetricMax (name : string) (value : scalar num)
| MetricText (name : string) (value : string)
| Dataframe (table : DataFrame)
| DownloadButton (table : DataFrame) (file_name : string).

Record state : Type := mkState {
  heap : gmap loc DataFrame;
  out : list widget
}.

(** A computation reads and updates the state and either returns or raises;
    the state reached when it raises is kept (what was rendered stays on the
    page, what was assigned stays assigned). *)
Definition St (A : Type) : Type := state -> result A * state.

Definition ret {A} (a : A) : St A := fun s => (Ok a, s).

Definition raise {A} (e : exn) : St A := fun s => (Raise e, s).

Definition bind {A B} (m : St A) (k : A -> St B) : St B :=
  fun s => match m s with
           | (Ok a, s') => k a s'
           | (Raise e, s') => (Raise e, s')
           end.

Definition lift {A} (r : result A) : St A := fun s => (r, s).

Notation "'let*' x ':=' m 'in' k" := (bind m (fun x => k))
  (at level 10, x name, m at level 100, k at level 200).
Notation "m ';;' k" := (bind m (fun _ => k))
  (at level 100, k at level 200, right associativity).

(** Rendering a widget appends it to the page. *)
Definition emit (w : widget) : St unit :=
  fun s => (Ok tt, mkState (heap s) (out s ++ [w])).

(** Reading the object a variable refers to. *)
Definition deref (l : loc) : St DataFrame :=
  fun s => match heap s !! l with
           | Some df => (Ok df, s)
           | None => (Raise (NameError "name is not defined"), s)
           end.

(** A new object, at an identity no live object has. *)
Definition new (df : DataFrame) : St loc :=
  fun s => let l := fresh (dom (heap s)) in
           (Ok l, mkState (<[l := df]> (heap s)) (out s)).

(** [obj[label] = series], in place. *)
Definition store_setitem {A} (l : loc) (c : Column A) (values : Series A) : St unit :=
  fun s => match heap s !! l with
           | Some df =>
               match setitem df c values with
               | Ok df' => (Ok tt, mkState (<[l := df']> (heap s)) (out s))
               | Raise e => (Raise e, s)
               end
           | None => (Raise (NameError "name is not defined"), s)
           end.

(** What the user does on the page: the entry picked in the category select
    box (an index into its options), whether the "Show Data Table" box is
    ticked, what is ticked in the comparison multi-select, and the page
    chosen in the side bar. *)
Inductive page : Type := Home | DataVisualization | DataAnalysis.

Record UI : Type := mkUI {
  ui_page : page;
  ui_category : nat;
  ui_show_table : bool;
  ui_compare : list string
}.

(** [st.selectbox(options)] returns one of its options, the one the user
    picked (the first one before any click), and [None] when it has no
    option. *)
Definition st_selectbox (options : list string) (pick : nat) : option string :=
  nth_error options (Nat.min pick (Nat.pred (length options))).

(** [st.multiselect(options)] returns the ticked options, and nothing but
    options. *)
Definition st_multiselect (options : list string) (ticked : list string) : list string :=
  List.filter (fun t => existsb (String.eqb t) options) ticked.

(** [str(x)] inside an f-string. *)
Definition str (x : option string) : string :=
  match x with Some v => v | None => "None" end.

(** ** The expressions of the page functions

    Each definition below is one right-hand side of the script, as a
    function of the frame value it reads. *)

Definition rbind {A B} (r : result A) (k : A -> result B) : result B :=
  match r with
  | Ok a => k a
  | Raise e => Raise e
  end.

Notation "'let?' x ':=' r 'in' k" := (rbind r (fun x => k))
  (at level 10, x name, r at level 100, k at level 200).

(** [np.unique(data['pizza_category'])] (lines 81 and 134) *)
Definition category_options (data : DataFrame) : result (list string) :=
  let? categories := getitem data col_pizza_category in
  Ok (np_unique categories).

(** [data[data['pizza_category'] == value]] (lines 84 and 135) *)
Definition filter_category (data : DataFrame) (value : option string) : result DataFrame :=
  let? categories := getitem data col_pizza_category in
  getitem_mask data (Series_eq categories value).

(** [df.groupby(key).agg({'total_price': 'sum'}).reset_index()] (lines 87,
    92, 99) and [df.groupby(key)['total_price'].sum().reset_index()]
    (line 157) *)
Definition groupby_agg {K} `{OrdKey K} (df : DataFrame) (key : Column K)
    (value : Column num) (op : Series num -> num) : result (IndexedSeries K) :=
  let? grouped := groupby df key in
  agg grouped value op.

Definition groupby_total_price {K} `{OrdKey K} (df : DataFrame) (key : Column K)
  : result (list (K * num)) :=
  let? sums := groupby_agg df key col_total_price group_sum in
  Ok (reset_index sums).

Definition total_sales_by_pizza (filtered_data : DataFrame) : result (list (string * num)) :=
  groupby_total_price filtered_data col_pizza_name.

Definition sales_by_size (filtered_data : DataFrame) : result (list (string * num)) :=
  groupby_total_price filtered_data col_pizza_size.

Definition sales_over_time (filtered_data : DataFrame) : result (list (Z * num)) :=
  groupby_total_price filtered_data col_order_date.

(** [filtered_data['total_price'].sum()] (line 138) *)
Definition total_sales (filtered_data : DataFrame) : result num :=
  let? prices := getitem filtered_data col_total_price in
  Ok (Series_sum prices).

(** [filtered_data['unit_price'].mean()] (line 139) *)
Definition average_price (filtered_data : DataFrame) : result (scalar float) :=
  let? prices := getitem filtered_data col_unit_price in
  Ok (Series_mean prices).

(** [filtered_data.groupby('pizza_name')['total_price'].sum()] *)
Definition sales_per_pizza (filtered_data : DataFrame) : result (IndexedSeries string) :=
  groupby_agg filtered_data col_pizza_name col_total_price group_sum.

(** [... .idxmax()] (line 140) *)
Definition top_selling_pizza (filtered_data : DataFrame) : result string :=
  let? sums := sales_per_pizza filtered_data in
  Series_idxmax sums.

(** [... .max()] (line 141) *)
Definition top_pizza_sales (filtered_data : DataFrame) : result (scalar num) :=
  let? sums := sales_per_pizza filtered_data in
  Ok (Series_max sums).

(** [data['pizza_name'].unique()] (line 163) *)
Definition compare_options (data : DataFrame) : result (list string) :=
  let? names := getitem data col_pizza_name in
  Ok (Series_unique names).

(** [data[data['pizza_name'].isin(compare)]] (line 165) *)
Definition comparison_data (data : DataFrame) (compare : list string) : result DataFrame :=
  let? names := getitem data col_pizza_name in
  getitem_mask data (Series_isin names compare).

(** [px.bar(frame, x='pizza_name', y='total_price', ...)] on a frame: one
    bar segment per row; plotly raises [ValueError] for a column the frame
    does not have. *)
Definition px_bar_frame (df : DataFrame) : result figure :=
  if has_column df "pizza_name" then
    if has_column df "total_price" then
      Ok (Bar (map (fun r => (pizza_name r, total_price r)) (rows df)))
    else Raise (ValueError "Value of 'y' is not the name of a column in 'data_frame'")
  else Raise (ValueError "Value of 'x' is not the name of a column in 'data_frame'").

(** ** The script *)

(** What [pd.read_csv] makes of the file: the columns of its header line
    and its rows, the dates still as the text of the file. *)
Record CsvRow : Type := mkCsvRow {
  csv_pizza_category : string;
  csv_pizza_name : string;
  csv_pizza_size : string;
  csv_unit_price : num;
  csv_total_price : num;
  csv_order_date : string
}.

Record CsvFrame : Type := mkCsvFrame {
  csv_columns : list string;
  csv_rows : list CsvRow
}.

(** ['label' in data.columns], on the frame as it is read. *)
Definition csv_has_column (csv : CsvFrame) (l : string) : bool :=
  existsb (String.eqb l) (csv_columns csv).

(** The row of the loaded frame, with the timestamp of its date. *)
Definition with_date (r : CsvRow) (t : Z) : Row :=
  mkRow (csv_pizza_category r) (csv_pizza_name r) (csv_pizza_size r)
        (csv_unit_price r) (csv_total_price r) t.

Fixpoint with_dates (rs : list CsvRow) (ts : Series Z) : list Row :=
  match rs, ts with
  | r :: rs', t :: ts' => with_date r t :: with_dates rs' ts'
  | _, _ => []
  end.

(** Lines 9-14.  [csv] is the frame [pd.read_csv] produced.  When it has
    an [order_date] column, the column is replaced by its timestamps, and
    a date that cannot be parsed makes line 13 raise; otherwise the frame
    is returned as it was read (its rows have no date, and nothing reads
    the cell the model gives them).  Nothing but [data] refers to the
    frame before line 14, so the object enters the store as line 14
    returns it. *)
Definition load_data (csv : CsvFrame) : St loc :=
  if csv_has_column csv "order_date" then
    let* dates := lift (pd_to_datetime_object (map csv_order_date (csv_rows csv))) in
    new (mkDataFrame (csv_columns csv) (with_dates (csv_rows csv) dates))
  else
    new (mkDataFrame (csv_columns csv) (map (fun r => with_date r 0) (csv_rows csv))).

(** Lines 19-57. *)
Definition home_page : St unit :=
  emit (Title "Pizza Sales Dashboard") ;;
  emit Markdown ;;
  emit Markdown ;;
  emit (Image "Explore Pizza Data") ;;
  emit Markdown ;;
  emit Markdown.

(** Lines 81-84 and 134-135, the same in both data pages: the category
    select box over the categories of the dataset, and the filtered view,
    a new frame. *)
Definition select_category (data : loc) (ui : UI) : St (option string * loc) :=
  let* df := deref data in
  let* options := lift (category_options df) in
  let pizza_filter := st_selectbox options (ui_category ui) in
  let* df := deref data in
  let* view := lift (filter_category df pizza_filter) in
  let* filtered_data := new view in
  ret (pizza_filter, filtered_data).

(** Lines 86-94: the bar chart of the sales by pizza and the pie chart of
    the sales by size. *)
Definition sales_charts (filtered_data : loc) : St unit :=
  let* fd := deref filtered_data in
  let* by_pizza := lift (total_sales_by_pizza fd) in
  emit (PlotlyChart (Bar by_pizza)) ;;
  let* fd := deref filtered_data in
  let* by_size := lift (sales_by_size fd) in
  emit (PlotlyChart (Pie by_size)).

(** Lines 98-101 and 156-159: the dates of the view are converted in
    place, then the daily totals are charted. *)
Definition sales_trend (filtered_data : loc) : St unit :=
  let* fd := deref filtered_data in
  let* dates := lift (getitem fd col_order_date) in
  store_setitem filtered_data col_order_date (pd_to_datetime dates) ;;
  let* fd := deref filtered_data in
  let* over_time := lift (sales_over_time fd) in
  emit (PlotlyChart (Line over_time)).

(** Lines 60-121. *)
Definition data_visualization (data : loc) (ui : UI) : St unit :=
  emit (Title "Data Visualization") ;;
  emit Markdown ;;
  emit Markdown ;;
  let* selection := select_category data ui in
  let pizza_filter := fst selection in
  let filtered_data := snd selection in
  sales_charts filtered_data ;;
  let* df := deref data in
  (if has_column df "order_date" then sales_trend filtered_data else ret tt) ;;
  (if ui_show_table ui then
     let* fd := deref filtered_data in
     emit (Dataframe fd)
   else ret tt) ;;
  emit Markdown ;;
  let* fd := deref filtered_data in
  emit (DownloadButton fd (String.append (str pizza_filter) "_data.csv")).

(** Lines 137-151: the four metric cards. *)
Definition metric_cards (filtered_data : loc) : St unit :=
  let* fd := deref filtered_data in
  let* total := lift (total_sales fd) in
  let* fd := deref filtered_data in
  let* average := lift (average_price fd) in
  let* fd := deref filtered_data in
  let* top_name := lift (top_selling_pizza fd) in
  let* fd := deref filtered_data in
  let* top_sales := lift (top_pizza_sales fd) in
  emit (MetricMoney "Total Sales" total) ;;
  emit (MetricMean "Average Price" average) ;;
  emit (MetricText "Top Selling Pizza" top_name) ;;
  emit (MetricMax "Top Pizza Sales" top_sales).

(** Lines 161-168: the comparative analysis. *)
Definition comparative_analysis (data : loc) (ui : UI) : St unit :=
  emit Markdown ;;
  let* df := deref data in
  let* options := lift (compare_options df) in
  let compare := st_multiselect options (ui_compare ui) in
  match compare with
  | [] => ret tt
  | _ :: _ =>
      let* df := deref data in
      let* view := lift (comparison_data df compare) in
      let* comparison := new view in
      let* cd := deref comparison in
      let* fig_compare := lift (px_bar_frame cd) in
      emit (PlotlyChart fig_compare)
  end.

(** Lines 123-185. *)
Definition data_analysis (data : loc) (ui : UI) : St unit :=
  emit (Title "Data Analysis") ;;
  emit Markdown ;;
  let* selection := select_category data ui in
  let filtered_data := snd selection in
  metric_cards filtered_data ;;
  let* df := deref data in
  (if has_column df "order_date" then
     emit Markdown ;;
     sales_trend filtered_data
   else ret tt) ;;
  comparative_analysis data ui ;;
  emit Markdown ;;
  emit Markdown ;;
  let* fd := deref filtered_data in
  emit (DownloadButton fd "filtered_data.csv").

(** Lines 187-196: the side bar and the dispatch on the chosen page. *)
Definition run_page (data : loc) (ui : UI) : St unit :=
  emit (Title "Navigation") ;;
  match ui_page ui with
  | Home => home_page
  | DataVisualization => data_visualization data ui
  | DataAnalysis => data_analysis data ui
  end.

(** The whole script: line 16 binds [data], then the chosen page runs. *)
Definition script (csv : CsvFrame) (ui : UI) : St unit :=
  let* data := load_data csv in
  run_page data ui.

Definition empty_state : state := mkState ∅ [].

(** ** What the specification speaks of

    The derived quantities in the words of the specification, to compare
    the script's expressions with. *)

(** The rows of a view whose key is [k]. *)
Definition rows_with {K} `{OrdKey K} (key : Row -> K) (k : K) (rs : list Row) : list Row :=
  List.filter (fun r => keqb (key r) k) rs.

(** The summed [total_price] of the rows whose key is [k], as pandas sums
    a group. *)
Definition key_total {K} `{OrdKey K} (key : Row -> K) (k : K) (rs : list Row) : num :=
  group_sum (map total_price (rows_with key k rs)).

(** The row belongs to the category the select box returned. *)
Definition category_is (value : option string) (r : Row) : bool :=
  match value with
  | Some v => String.eqb (pizza_category r) v
  | None => false
  end.

(** The category the select box returns and the view filtered by it. *)
Definition selected_category (df : DataFrame) (ui : UI) : option string :=
  st_selectbox (np_unique (map pizza_category (rows df))) (ui_category ui).

Definition selected_view (df : DataFrame) (ui : UI) : DataFrame :=
  mkDataFrame (columns df) (List.filter (category_is (selected_category df ui)) (rows df)).

(** What the comparison multi-select returns, and the frame of the rows of
    the selected pizzas. *)
Definition selected_pizzas (df : DataFrame) (ui : UI) : list string :=
  st_multiselect (Series_unique (map pizza_name (rows df))) (ui_compare ui).

Definition comparison_view (df : DataFrame) (ui : UI) : DataFrame :=
  mkDataFrame (columns df)
    (List.filter (fun r => existsb (String.eqb (pizza_name r)) (selected_pizzas df ui))
                 (rows df)).

(** The comparison orders the numbers of [vs]: no two are each below the
    other, and a number that is not above a first one is below whatever the
    first one is below.  It does on [int64]; on [float64] it does unless a
    NaN is among them. *)
Definition ordered_on (vs : list num) : Prop :=
  forall a b c, In a vs -> In b vs -> In c vs ->
    (num_ltb a b = true -> num_ltb b a = false) /\
    (num_ltb a b = true -> num_ltb a c = false -> num_ltb c b = true).

(** Strictly ascending keys. *)
Definition ascending {K} `{OrdKey K} (ks : list K) : Prop := StronglySorted klt ks.

(** A frame that carries every column of the schema. *)
Definition has_schema (df : DataFrame) : bool :=
  forallb (has_column df) schema.

(** The first label of [labels] the frame lacks, if any. *)
Definition first_missing (df : DataFrame) (labels : list string) : option string :=
  List.find (fun l => negb (has_column df l)) labels.

(** The file carries every column of the schema. *)
Definition csv_has_schema (csv : CsvFrame) : bool :=
  forallb (csv_has_column csv) schema.

(** Every date of the file can be read. *)
Definition dates_parse (csv : CsvFrame) : bool :=
  forallb (fun r => match parse_datetime (csv_order_date r) with
                    | Some _ => true
                    | None => false
                    end) (csv_rows csv).

(** The frame the pages work on: the file, with its dates read when it has
    dates. *)
Definition loaded_frame (csv : CsvFrame) : result DataFrame :=
  if csv_has_column csv "order_date" then
    let? dates := pd_to_datetime_object (map csv_order_date (csv_rows csv)) in
    Ok (mkDataFrame (csv_columns csv) (with_dates (csv_rows csv) dates))
  else
    Ok (mkDataFrame (csv_columns csv) (map (fun r => with_date r 0) (csv_rows csv))).

(** The widgets that are line charts. *)
Definition is_line_chart (w : widget) : bool :=
  match w with PlotlyChart (Line _) => true | _ => false end.

Definition is_chart (w : widget) : bool :=
  match w with PlotlyChart _ => true | _ => false end.

(** A session: the script is run again at every interaction, on the store
    the previous run left, whether that run returned or raised. *)
Fixpoint session (data : loc) (uis : list UI) (s : state) : state :=
  match uis with
  | [] => s
  | ui :: uis' => session data uis' (snd (run_page data ui s))
  end.

(** [keeps h0 m post]: run from a store that contains the objects of [h0],
    [m] leaves every one of them as it is, whether it returns or raises, and
    a returned value satisfies [post]. *)
Definition keeps {A} (h0 : gmap loc DataFrame) (m : St A) (post : A -> Prop) : Prop :=
  forall s, h0 ⊆ heap s ->
    h0 ⊆ heap (snd (m s)) /\
    match fst (m s) with
    | Ok a => post a
    | Raise _ => True
    end.

(** ** What the pages render

    The tables behind the charts and the widgets of a page, as functions of
    the dataset and of what the user did. *)

(** The sums of [total_price] per key, by ascending distinct key. *)
Definition grouped_totals {K} `{OrdKey K} (key : Row -> K) (rs : list Row) : list (K * num) :=
  map (fun k => (k, key_total key k rs)) (np_unique (map key rs)).

(** The widgets of the visualization page, in the order of the page. *)
Definition visualization_widgets (df : DataFrame) (ui : UI) : list widget :=
  let view := selected_view df ui in
  [Title "Data Visualization"; Markdown; Markdown;
   PlotlyChart (Bar (grouped_totals pizza_name (rows view)));
   PlotlyChart (Pie (grouped_totals pizza_size (rows view)))]
  ++ (if has_column df "order_date"
      then [PlotlyChart (Line (grouped_totals order_date (rows view)))]
      else [])
  ++ (if ui_show_table ui then [Dataframe view] else [])
  ++ [Markdown;
      DownloadButton view (String.append (str (selected_category df ui)) "_data.csv")].

(** The widgets of the analysis page, given the two metrics of the top
    pizza. *)
Definition analysis_widgets (df : DataFrame) (ui : UI) (top : string) (sales : scalar num)
  : list widget :=
  let view := selected_view df ui in
  [Title "Data Analysis"; Markdown;
   MetricMoney "Total Sales" (Series_sum (map total_price (rows view)));
   MetricMean "Average Price" (Series_mean (map unit_price (rows view)));
   MetricText "Top Selling Pizza" top;
   MetricMax "Top Pizza Sales" sales]
  ++ (if has_column df "order_date"
      then [Markdown; PlotlyChart (Line (grouped_totals order_date (rows view)))]
      else [])
  ++ [Markdown]
  ++ match selected_pizzas df ui with
     | [] => []
     | _ :: _ =>
         [PlotlyChart (Bar (map (fun r => (pizza_name r, total_price r))
                                (rows (comparison_view df ui))))]
     end
  ++ [Markdown; Markdown; DownloadButton view "filtered_data.csv"].

(** The store the analysis page leaves: the filtered view is a new object,
    and so is the comparison frame when pizzas are selected. *)
Definition analysis_store (df : DataFrame) (ui : UI) (h : gmap loc DataFrame)
  : gmap loc DataFrame :=
  let h1 := <[fresh (dom h) := selected_view df ui]> h in
  match selected_pizzas df ui with
  | [] => h1
  | _ :: _ => <[fresh (dom h1) := comparison_view df ui]> h1
  end.

End Model.

Arguments label {num A} c.
Arguments cell {num A} c r.
Arguments set_cell {num A} c a r.
Arguments gb_columns {num K} g.
Arguments gb_groups {num K} g.

Notation "'let*' x ':=' m 'in' k" := (bind m (fun x => k))
  (at level 10, x name, m at level 100, k at level 200).
Notation "m ';;' k" := (bind m (fun _ => k))
  (at level 100, k at level 200, right associativity).
Notation "'let?' x ':=' r 'in' k" := (rbind r (fun x => k))
  (at level 10, x name, r at level 100, k at level 200).

(** ** [int64]

    Whole numbers of 64 bits: an addition that leaves the range wraps
    around, silently, in [Series.sum()] as in [groupby(...).sum()]; the
    mean is the [float64] sum of the cells converted to [float64],
    divided by their number. *)

Definition wrap64 (z : Z) : Z := (z + 2 ^ 63) mod 2 ^ 64 - 2 ^ 63.

Definition int64_add (a b : Z) : Z := wrap64 (a + b).

Definition int64_sum (s : Series Z) : Z := fold_left int64_add s 0.

(** The nearest [float64] of a 64-bit integer. *)
Definition Z_to_float (z : Z) : float :=
  let m := Z.abs z in
  let f := PrimFloat.add
             (PrimFloat.mul (of_uint63 (of_Z (m / 2 ^ 32))) 4294967296%float)
             (of_uint63 (of_Z (m mod 2 ^ 32))) in
  if z <? 0 then PrimFloat.opp f else f.

(** ** [float64]

    Every addition rounds to the nearest [float64], so that the order of
    the additions matters.  [Series.sum()] is numpy's [add.reduce], which
    adds pairwise: fewer than eight cells one after the other; up to 128
    cells on eight partial sums, the cell at position [i] on the partial
    sum [i mod 8], which are then added two by two, the cells past the
    last multiple of eight after them; more cells by halves.
    [groupby(...).sum()] adds the cells of a group in row order with a
    compensation term (Kahan's summation, as in pandas' [group_sum]). *)

Fixpoint add_lanes (r a : list float) : list float :=
  match r, a with
  | x :: r', y :: a' => PrimFloat.add x y :: add_lanes r' a'
  | _, _ => r
  end.

(** The eight partial sums after [blocks] more blocks of eight cells. *)
Fixpoint lanes (blocks : nat) (r a : list float) : list float :=
  match blocks with
  | O => r
  | S blocks' => lanes blocks' (add_lanes r (firstn 8 a)) (skipn 8 a)
  end.

Definition pairwise_block (a : list float) : float :=
  let n := length a in
  let full := (n - n mod 8)%nat in
  match lanes (full / 8 - 1) (firstn 8 a) (skipn 8 a) with
  | [r0; r1; r2; r3; r4; r5; r6; r7] =>
      fold_left PrimFloat.add (skipn full a)
        (PrimFloat.add
           (PrimFloat.add (PrimFloat.add r0 r1) (PrimFloat.add r2 r3))
           (PrimFloat.add (PrimFloat.add r4 r5) (PrimFloat.add r6 r7)))
  | _ => fold_left PrimFloat.add a (-0)%float
  end.

(** numpy's [pairwise_sum]; the depth of the halving is bounded by
    [fuel], and the number of cells is fuel enough. *)
Fixpoint pairwise_sum (fuel : nat) (a : list float) : float :=
  let n := length a in
  if (n <? 8)%nat then fold_left PrimFloat.add a (-0)%float
  else if (n <=? 128)%nat then pairwise_block a
  else match fuel with
       | O => pairwise_block a
       | S fuel' =>
           let n2 := (n / 2 - (n / 2) mod 8)%nat in
           PrimFloat.add (pairwise_sum fuel' (firstn n2 a))
                         (pairwise_sum fuel' (skipn n2 a))
       end.

(** The reduction starts from 0, the identity of the addition (a numpy
    that starts from -0 instead gives another result only when every cell
    is -0). *)
Definition float64_sum (s : Series float) : float :=
  PrimFloat.add 0%float (pairwise_sum (length s) s).

Definition kahan_add (acc : float * float) (val : float) : float * float :=
  let sumx := fst acc in
  let compensation := snd acc in
  let y := PrimFloat.sub val compensation in
  let t := PrimFloat.add sumx y in
  let c := PrimFloat.sub (PrimFloat.sub t sumx) y in
  (t, if PrimFloat.is_nan c then 0%float else c).

Definition float64_group_sum (s : Series float) : float :=
  fst (fold_left kahan_add s (0%float, 0%float)).

Definition float64_mean (s : Series float) : float :=
  PrimFloat.div (float64_sum s) (Z_to_float (Z.of_nat (length s))).

Definition int64_mean (s : Series Z) : float :=
  float64_mean (map Z_to_float s).

#[export] Instance int64 : Number Z := {|
  zero := 0;
  Series_sum := int64_sum;
  group_sum := int64_sum;
  mean_of := int64_mean;
  num_ltb := Z.ltb
|}.

#[export] Instance float64 : Number float := {|
  zero := 0%float;
  Series_sum := float64_sum;
  group_sum := float64_group_sum;
  mean_of := float64_mean;
  num_ltb := PrimFloat.ltb
|}.

(** ** Reading dates

    The dates of the scenarios are written [YYYY-MM-DD], alone or followed
    by a blank and a time of day [HH:MM:SS]; pandas reads both as the
    timestamp of that instant, and refuses a year its nanosecond
    timestamps cannot hold.  The parser below reads these two forms and
    nothing else. *)

Definition digit (c : Ascii.ascii) : option Z :=
  let n := Z.of_N (Ascii.N_of_ascii c) - 48 in
  if (0 <=? n) && (n <=? 9) then Some n else None.

Fixpoint digits (s : string) (acc : Z) : option Z :=
  match s with
  | EmptyString => Some acc
  | String c s' =>
      match digit c with
      | Some n => digits s' (10 * acc + n)
      | None => None
      end
  end.

(** The number written at [start] on [len] digits. *)
Definition field (s : string) (start len : nat) : option Z :=
  let text := String.substring start len s in
  if Nat.eqb (String.length text) len then digits text 0 else None.

Definition separator (s : string) (i : nat) (c : string) : bool :=
  String.eqb (String.substring i 1 s) c.

Definition is_leap (y : Z) : bool :=
  ((y mod 4 =? 0) && negb (y mod 100 =? 0)) || (y mod 400 =? 0).

Definition days_in_month (y m : Z) : Z :=
  if m =? 2 then (if is_leap y then 29 else 28)
  else if (m =? 4) || (m =? 6) || (m =? 9) || (m =? 11) then 30
  else 31.

(** The number of days from 1970-01-01 to the day [d] of the month [m] of
    the year [y]. *)
Definition days_from_civil (y m d : Z) : Z :=
  let y' := if m <=? 2 then y - 1 else y in
  let era := y' / 400 in
  let yoe := y' - era * 400 in
  let doy := (153 * (if 2 <? m then m - 3 else m + 9) + 2) / 5 + d - 1 in
  let doe := yoe * 365 + yoe / 4 - yoe / 100 + doy in
  era * 146097 + doe - 719468.

Definition iso_date (s : string) : option Z :=
  if separator s 4 "-" && separator s 7 "-" then
    match field s 0 4, field s 5 2, field s 8 2 with
    | Some y, Some m, Some d =>
        if (1678 <=? y) && (y <=? 2261) && (1 <=? m) && (m <=? 12)
           && (1 <=? d) && (d <=? days_in_month y m)
        then Some (days_from_civil y m d)
        else None
    | _, _, _ => None
    end
  else None.

(** The nanoseconds from midnight to the time of day. *)
Definition iso_time (s : string) : option Z :=
  if separator s 2 ":" && separator s 5 ":" then
    match field s 0 2, field s 3 2, field s 6 2 with
    | Some h, Some m, Some sec =>
        if (h <=? 23) && (m <=? 59) && (sec <=? 59)
        then Some (((h * 60 + m) * 60 + sec) * 1000000000)
        else None
    | _, _, _ => None
    end
  else None.

Definition iso_datetime (s : string) : option Z :=
  if Nat.eqb (String.length s) 10 then
    match iso_date s with
    | Some day => Some (midnight day)
    | None => None
    end
  else if Nat.eqb (String.length s) 19 && separator s 10 " " then
    match iso_date (String.substring 0 10 s), iso_time (String.substring 11 8 s) with
    | Some day, Some time => Some (midnight day + time)
    | _, _ => None
    end
  else None.

#[export] Instance iso_dates : DateParser := {|
  parse_datetime := iso_datetime
|}.

(** ** What the specification speaks of, on whole numbers *)

(** The sum of whole numbers, without bound. *)
Definition sum_list (l : list Z) : Z := fold_right Z.add 0 l.

(** ** The scenario of the specification

    Three order lines, two of a Classic pizza and one of a Veggie pizza, on
    2023-01-01 and 2023-01-02; the prices are whole numbers of cents, so
    that the price columns are [int64]. *)

Module Scenario.
Definition day_1 : Z := midnight 19358.
Definition day_2 : Z := midnight 19359.

Definition margherita_1 : Row := mkRow "Classic" "Margherita" "M" 1000 2000 day_1.
Definition margherita_2 : Row := mkRow "Classic" "Margherita" "M" 1000 1000 day_2.
Definition veggie_supreme : Row := mkRow "Veggie" "Veggie Supreme" "L" 1500 1500 day_1.

Definition dataset : DataFrame :=
  mkDataFrame schema [margherita_1; margherita_2; veggie_supreme].

(** The file with its header line only. *)
Definition no_rows : @DataFrame Z := mkDataFrame schema [].

(** The file without its [order_date] column. *)
Definition no_order_date : DataFrame :=
  mkDataFrame ["pizza_category"; "pizza_name"; "pizza_size"; "unit_price"; "total_price"]
              [margherita_1; margherita_2; veggie_supreme].

(** Two pizzas with equal sales, the later name first in the file. *)
Definition tie : DataFrame :=
  mkDataFrame schema
    [mkRow "Classic" "Pepperoni" "M" 1000 3000 day_1;
     mkRow "Classic" "Hawaiian" "L" 1500 1500 day_1;
     mkRow "Classic" "Hawaiian" "L" 1500 1500 day_2;
     mkRow "Classic" "Margherita" "S" 800 800 day_2].

Definition classic_view : DataFrame :=
  mkDataFrame schema [margherita_1; margherita_2].

Definition analysis_ui : UI := mkUI DataAnalysis 0 false ["Margherita"; "Veggie Supreme"].
Definition visualization_ui : UI := mkUI DataVisualization 0 true [].

(** The store once line 16 has bound [data] to the frame [df]. *)
Definition loaded {num : Type} (df : @DataFrame num) : @state num :=
  mkState (<[0%nat := df]> ∅) [].

(** The files, as [read_csv] hands them to line 12. *)
Definition csv : CsvFrame :=
  mkCsvFrame schema
    [mkCsvRow "Classic" "Margherita" "M" 1000 2000 "2023-01-01";
     mkCsvRow "Classic" "Margherita" "M" 1000 1000 "2023-01-02";
     mkCsvRow "Veggie" "Veggie Supreme" "L" 1500 1500 "2023-01-01"].

Definition csv_no_rows : @CsvFrame Z := mkCsvFrame schema [].

Definition csv_no_order_date : CsvFrame :=
  mkCsvFrame ["pizza_category"; "pizza_name"; "pizza_size"; "unit_price"; "total_price"]
    [mkCsvRow "Classic" "Margherita" "M" 1000 2000 "";
     mkCsvRow "Classic" "Margherita" "M" 1000 1000 "";
     mkCsvRow "Veggie" "Veggie Supreme" "L" 1500 1500 ""].

(** The file with a date pandas cannot read in its second line. *)
Definition csv_bad_date : CsvFrame :=
  mkCsvFrame schema
    [mkCsvRow "Classic" "Margherita" "M" 1000 2000 "2023-01-01";
     mkCsvRow "Classic" "Margherita" "M" 1000 1000 "soon";
     mkCsvRow "Veggie" "Veggie Supreme" "L" 1500 1500 "2023-01-01"].
End Scenario.

(** Further datasets. *)
Module Cases.
(** The scenario without its [pizza_size] and its later columns. *)
Definition no_pizza_size : DataFrame :=
  mkDataFrame ["pizza_category"; "pizza_name"; "total_price"] (rows Scenario.dataset).

(** Prices in dollars, a [float64] column: Alpha sold for 0.30, Beta for
    0.10 and for 0.20. *)
Definition dollars : DataFrame :=
  mkDataFrame schema
    [mkRow "Classic" "Alpha" "M" 0.3%float 0.3%float Scenario.day_1;
     mkRow "Classic" "Beta" "S" 0.1%float 0.1%float Scenario.day_1;
     mkRow "Classic" "Beta" "L" 0.2%float 0.2%float Scenario.day_2].

(** The same sales in cents, an [int64] column. *)
Definition cents : DataFrame :=
  mkDataFrame schema
    [mkRow "Classic" "Alpha" "M" 30 30 Scenario.day_1;
     mkRow "Classic" "Beta" "S" 10 10 Scenario.day_1;
     mkRow "Classic" "Beta" "L" 20 20 Scenario.day_2].

(** The rows of [dollars], by ascending size. *)
Definition dollars_by_size : DataFrame :=
  mkDataFrame schema
    [mkRow "Classic" "Beta" "L" 0.2%float 0.2%float Scenario.day_2;
     mkRow "Classic" "Alpha" "M" 0.3%float 0.3%float Scenario.day_1;
     mkRow "Classic" "Beta" "S" 0.1%float 0.1%float Scenario.day_1].

(** Three sales whose sum is beyond the 64 bits of the column. *)
Definition huge : DataFrame :=
  mkDataFrame schema
    [mkRow "Classic" "Alpha" "M" 1 9223372036854775807 Scenario.day_1;
     mkRow "Classic" "Alpha" "M" 1 9223372036854775807 Scenario.day_1;
     mkRow "Classic" "Beta" "S" 1 5 Scenario.day_1].

(** Two sales of one day, at 10:00 and at 18:30. *)
Definition evening : DataFrame :=
  mkDataFrame schema
    [mkRow "Classic" "Margherita" "M" 1000 2000 (Scenario.day_1 + 36000000000000);
     mkRow "Classic" "Margherita" "M" 1000 1000 (Scenario.day_1 + 66600000000000)].

Definition csv_evening : CsvFrame :=
  mkCsvFrame schema
    [mkCsvRow "Classic" "Margherita" "M" 1000 2000 "2023-01-01 10:00:00";
     mkCsvRow "Classic" "Margherita" "M" 1000 1000 "2023-01-01 18:30:00"].
End Cases.

(** ** The key orders are total orders *)

Lemma string_lt_irrefl (a : string) : ~ String_as_OT.lt a a.
Proof. exact (@StrictOrder_Irreflexive _ _ String_as_OT.lt_strorder a). Qed.

Lemma string_lt_trans (a b c : string) :
  String_as_OT.lt a b -> String_as_OT.lt b c -> String_as_OT.lt a c.
Proof. exact (@StrictOrder_Transitive _ _ String_as_OT.lt_strorder a b c). Qed.

Lemma string_cmp_eq (a b : string) : String_as_OT.compare a b = Eq <-> a = b.
Proof.
  destruct (String_as_OT.compare_spec a b) as [E | L | L]; split; intros Hx;
    try discriminate; try assumption; try reflexivity.
  - subst. destruct (string_lt_irrefl _ L).
  - subst. destruct (string_lt_irrefl _ L).
Qed.

Lemma string_cmp_antisym (a b : string) :
  String_as_OT.compare b a = CompOpp (String_as_OT.compare a b).
Proof.
  destruct (String_as_OT.compare_spec a b) as [E | L | L];
    destruct (String_as_OT.compare_spec b a) as [E' | L' | L'];
    cbn [CompOpp]; try reflexivity; exfalso;
    unfold String_as_OT.eq in *; subst.
  - exact (string_lt_irrefl _ L').
  - exact (string_lt_irrefl _ L').
  - exact (string_lt_irrefl _ L).
  - exact (string_lt_irrefl _ (string_lt_trans _ _ _ L L')).
  - exact (string_lt_irrefl _ L).
  - exact (string_lt_irrefl _ (string_lt_trans _ _ _ L L')).
Qed.

#[export] Instance string_OrdKeyLaws : OrdKeyLaws string.
Proof.
  constructor.
  - exact string_cmp_eq.
  - exact string_cmp_antisym.
  - exact string_lt_trans.
Qed.

Lemma Z_cmp_trans (a b c : Z) :
  Z.compare a b = Lt -> Z.compare b c = Lt -> Z.compare a c = Lt.
Proof. rewrite !Z.compare_lt_iff. lia. Qed.

#[export] Instance Z_OrdKeyLaws : OrdKeyLaws Z.
Proof.
  constructor.
  - exact Z.compare_eq_iff.
  - intros a b. exact (Z.compare_antisym a b).
  - exact Z_cmp_trans.
Qed.

(** ** Ordered keys: basic facts *)

Section Ordered.
Context {K : Type} `{OrdKey K} `{!OrdKeyLaws K}.

Lemma kcmp_refl (a : K) : kcmp a a = Eq.
Proof. apply kcmp_eq. reflexivity. Qed.

Lemma kcmp_gt_lt (a b : K) : kcmp a b = Gt -> klt b a.
Proof. intros E. unfold klt. rewrite kcmp_antisym, E. reflexivity. Qed.

Lemma klt_irrefl (a : K) : ~ klt a a.
Proof. unfold klt. rewrite kcmp_refl. discriminate. Qed.

Lemma klt_neq (a b : K) : klt a b -> a <> b.
Proof. intros L E. subst. exact (klt_irrefl _ L). Qed.

Lemma klt_trans (a b c : K) : klt a b -> klt b c -> klt a c.
Proof. apply kcmp_trans. Qed.

Lemma klt_kle (a b : K) : klt a b -> kle a b.
Proof. unfold klt, kle. intros E. rewrite E. discriminate. Qed.

Lemma kle_refl (a : K) : kle a a.
Proof. unfold kle. rewrite kcmp_refl. discriminate. Qed.

Lemma keqb_eq (a b : K) : keqb a b = true <-> a = b.
Proof.
  unfold keqb. rewrite <- kcmp_eq.
  destruct (kcmp a b); split; intros E; try reflexivity; discriminate.
Qed.

Lemma keqb_refl (a : K) : keqb a a = true.
Proof. apply keqb_eq. reflexivity. Qed.

Lemma keqb_neq (a b : K) : a <> b -> keqb a b = false.
Proof.
  intros N. destruct (keqb a b) eqn:E; [| reflexivity].
  apply keqb_eq in E. contradiction.
Qed.

Lemma In_insert_key (k x : K) (ks : list K) :
  In x (insert_key k ks) <-> x = k \/ In x ks.
Proof.
  induction ks as [| k' ks IH]; simpl.
  - intuition.
  - destruct (kcmp k k') eqn:E; simpl.
    + apply kcmp_eq in E. subst. intuition.
    + intuition.
    + rewrite IH. intuition.
Qed.

Lemma ascending_insert_key (k : K) (ks : list K) :
  ascending ks -> ascending (insert_key k ks).
Proof.
  unfold ascending. induction 1 as [| k' ks S IH F]; simpl.
  - constructor; constructor.
  - destruct (kcmp k k') eqn:E.
    + constructor; assumption.
    + constructor; [constructor; assumption |].
      constructor; [exact E |].
      eapply List.Forall_impl; [| exact F].
      intros a L. exact (klt_trans _ _ _ E L).
    + constructor; [exact IH |].
      apply List.Forall_forall. intros x Hx.
      apply In_insert_key in Hx. destruct Hx as [-> | Hx].
      * exact (kcmp_gt_lt _ _ E).
      * rewrite List.Forall_forall in F. exact (F x Hx).
Qed.

Lemma np_unique_ascending (s : Series K) : ascending (np_unique s).
Proof.
  induction s as [| c s IH]; simpl.
  - constructor.
  - apply ascending_insert_key. exact IH.
Qed.

Lemma np_unique_In (s : Series K) (x : K) : In x (np_unique s) <-> In x s.
Proof.
  induction s as [| c s IH]; simpl.
  - reflexivity.
  - rewrite In_insert_key, IH. intuition.
Qed.

Lemma ascending_NoDup (ks : list K) : ascending ks -> List.NoDup ks.
Proof.
  unfold ascending. induction 1 as [| k ks S IH F].
  - constructor.
  - constructor; [| exact IH].
    intros I. rewrite List.Forall_forall in F.
    exact (klt_irrefl _ (F k I)).
Qed.

Lemma ascending_head_lt (k : K) (ks : list K) (x : K) :
  ascending (k :: ks) -> In x ks -> klt k x.
Proof.
  intros S I. inversion S as [| ? ? ? F]; subst.
  rewrite List.Forall_forall in F. exact (F x I).
Qed.

Lemma ascending_tail (k : K) (ks : list K) : ascending (k :: ks) -> ascending ks.
Proof. intros S. inversion S; assumption. Qed.
End Ordered.


(** ** [int64] sums wrap around the exact sum *)

Lemma wrap64_add_l (a x : Z) : wrap64 (wrap64 a + x) = wrap64 (a + x).
Proof.
  unfold wrap64. f_equal.
  replace ((a + 2 ^ 63) mod 2 ^ 64 - 2 ^ 63 + x + 2 ^ 63)
    with ((a + 2 ^ 63) mod 2 ^ 64 + x) by lia.
  rewrite Z.add_mod_idemp_l by lia. f_equal. lia.
Qed.

Lemma wrap64_add_r (a x : Z) : wrap64 (a + wrap64 x) = wrap64 (a + x).
Proof. rewrite (Z.add_comm a), wrap64_add_l. f_equal. lia. Qed.

Lemma wrap64_range (z : Z) : - 2 ^ 63 <= wrap64 z < 2 ^ 63.
Proof.
  unfold wrap64. pose proof (Z.mod_pos_bound (z + 2 ^ 63) (2 ^ 64) ltac:(lia)). lia.
Qed.

Lemma wrap64_small (z : Z) : - 2 ^ 63 <= z < 2 ^ 63 -> wrap64 z = z.
Proof. intros R. unfold wrap64. rewrite Z.mod_small by lia. lia. Qed.

Lemma fold_left_int64_add (s : Series Z) (a : Z) :
  fold_left int64_add s (wrap64 a) = wrap64 (a + sum_list s).
Proof.
  revert a. induction s as [| x s IH]; intros a; cbn [fold_left sum_list fold_right].
  - f_equal. lia.
  - unfold int64_add at 2. rewrite wrap64_add_l, IH. unfold sum_list. f_equal. lia.
Qed.

(** The [int64] sum is the exact sum, wrapped once. *)
Lemma int64_sum_wrap (s : Series Z) : int64_sum s = wrap64 (sum_list s).
Proof.
  unfold int64_sum. change 0 with (wrap64 0) at 1.
  rewrite fold_left_int64_add. reflexivity.
Qed.

Lemma sum_list_app (l l' : list Z) : sum_list (l ++ l') = sum_list l + sum_list l'.
Proof. unfold sum_list. induction l as [| x l IH]; cbn [app fold_right] in *; lia. Qed.

Lemma sum_list_perm (l l' : list Z) : Permutation l l' -> sum_list l = sum_list l'.
Proof.
  unfold sum_list. induction 1; cbn [fold_right] in *; lia.
Qed.

Lemma wrap64_sum_groups (groups : list (Series Z)) :
  wrap64 (sum_list (map int64_sum groups)) = wrap64 (sum_list (concat groups)).
Proof.
  induction groups as [| g groups IH]; cbn [map concat sum_list fold_right].
  - reflexivity.
  - fold (sum_list (map int64_sum groups)).
    rewrite sum_list_app, int64_sum_wrap, wrap64_add_l.
    rewrite <- wrap64_add_r, IH, wrap64_add_r. reflexivity.
Qed.

#[export] Instance int64_EmptySum : EmptySum Z.
Proof. constructor. reflexivity. Qed.

#[export] Instance float64_EmptySum : EmptySum float.
Proof. constructor. reflexivity. Qed.

#[export] Instance int64_AdditiveNumber : AdditiveNumber Z.
Proof.
  constructor.
  - intros s s' P. cbn [Series_sum int64]. rewrite !int64_sum_wrap.
    f_equal. apply sum_list_perm. exact P.
  - intros groups. cbn [Series_sum group_sum int64].
    rewrite !int64_sum_wrap. apply wrap64_sum_groups.
Qed.

Lemma int64_ordered_on (vs : list Z) : ordered_on vs.
Proof.
  intros a b c _ _ _. cbn [num_ltb int64]. split.
  - intros L. apply Z.ltb_lt in L. apply Z.ltb_ge. lia.
  - intros L G. apply Z.ltb_lt in L. apply Z.ltb_ge in G. apply Z.ltb_lt. lia.
Qed.

(** ** The [float64] sum *)

(** The number of cells is fuel enough for the pairwise sum. *)
Lemma pairwise_sum_fuel (f1 f2 : nat) (a : list float) :
  (length a <= f1)%nat -> (length a <= f2)%nat ->
  pairwise_sum f1 a = pairwise_sum f2 a.
Proof.
  revert f2 a. induction f1 as [| f1 IH]; intros f2 a L1 L2.
  - destruct a; [| cbn in L1; lia]. destruct f2; reflexivity.
  - destruct f2 as [| f2].
    + destruct a; [| cbn in L2; lia]. reflexivity.
    + cbn [pairwise_sum].
      destruct (Nat.ltb_spec (length a) 8); [reflexivity |].
      destruct (Nat.leb_spec (length a) 128); [reflexivity |].
      assert (B : (1 <= length a / 2 - (length a / 2) mod 8 < length a)%nat).
      { pose proof (Nat.div_mod_eq (length a) 2).
        pose proof (Nat.mod_upper_bound (length a) 2 ltac:(lia)).
        pose proof (Nat.mod_upper_bound (length a / 2) 8 ltac:(lia)).
        lia. }
      f_equal.
      * apply IH; rewrite length_firstn; lia.
      * apply IH; rewrite length_skipn; lia.
Qed.

(** Fewer than eight cells are added one after the other, in row order. *)
Lemma float64_sum_short (s : Series float) :
  (length s < 8)%nat ->
  float64_sum s = PrimFloat.add 0%float (fold_left PrimFloat.add s (-0)%float).
Proof.
  intros L. unfold float64_sum. f_equal.
  destruct (length s) as [| n] eqn:E.
  - destruct s; [reflexivity | discriminate].
  - cbn [pairwise_sum]. rewrite E.
    destruct (Nat.ltb_spec (S n) 8); [reflexivity | lia].
Qed.

(** * Facts

    What follows holds whatever the number type [num] of the price columns
    and whatever the date parser; inside the section the frames, rows,
    widgets and states are the ones over [num]. *)

Section Facts.
Context {num : Type} `{Number num} `{DateParser}.

Local Abbreviation Row := (@Row num) (only parsing).
Local Abbreviation DataFrame := (@DataFrame num) (only parsing).
Local Abbreviation CsvFrame := (@CsvFrame num) (only parsing).
Local Abbreviation IndexedSeries := (@IndexedSeries num) (only parsing).
Local Abbreviation widget := (@widget num) (only parsing).
Local Abbreviation state := (@state num) (only parsing).
Local Abbreviation St := (@St num) (only parsing).

(** ** Grouping: the groups are the key classes of the rows *)

Section Grouping.
Context {K : Type} `{OrdKey K} `{!OrdKeyLaws K}.
Variable key : Row -> K.

Lemma insert_group_keys (k : K) (r : Row) (gs : list (K * list Row)) :
  map fst (insert_group k r gs) = insert_key k (map fst gs).
Proof.
  induction gs as [| [k' rs] gs IH]; simpl.
  - reflexivity.
  - destruct (kcmp k k') eqn:E; simpl.
    + reflexivity.
    + reflexivity.
    + rewrite IH. reflexivity.
Qed.

Lemma group_rows_keys (rs : list Row) :
  map fst (group_rows key rs) = np_unique (map key rs).
Proof.
  induction rs as [| r rs IH]; simpl.
  - reflexivity.
  - rewrite insert_group_keys, IH. reflexivity.
Qed.

Lemma rows_with_cons (k : K) (r : Row) (rs : list Row) :
  rows_with key k (r :: rs) =
  if keqb (key r) k then r :: rows_with key k rs else rows_with key k rs.
Proof. reflexivity. Qed.

Lemma rows_with_nil_iff (k : K) (rs : list Row) :
  rows_with key k rs = [] <-> ~ In k (map key rs).
Proof.
  induction rs as [| r rs IH]; cbn [map In].
  - cbn. intuition.
  - rewrite rows_with_cons. destruct (keqb (key r) k) eqn:E.
    + apply keqb_eq in E. split; [discriminate | intros N; destruct N; left; exact E].
    + rewrite IH. split.
      * intros N [E' | I]; [| exact (N I)].
        subst. rewrite keqb_refl in E. discriminate.
      * intros N I. apply N. right. exact I.
Qed.

Lemma rows_with_other (k : K) (r : Row) (rs : list Row) :
  k <> key r -> rows_with key k (r :: rs) = rows_with key k rs.
Proof.
  intros N. rewrite rows_with_cons, keqb_neq; [reflexivity |].
  intros E. apply N. symmetry. exact E.
Qed.

Lemma rows_with_same (r : Row) (rs : list Row) :
  rows_with key (key r) (r :: rs) = r :: rows_with key (key r) rs.
Proof. rewrite rows_with_cons, keqb_refl. reflexivity. Qed.

(** One more row: its class gains the row, in front; the other classes
    are as they were. *)
Lemma insert_group_classes (r : Row) (rs : list Row) (ks : list K) :
  ascending ks ->
  In (key r) ks \/ rows_with key (key r) rs = [] ->
  insert_group (key r) r (map (fun k => (k, rows_with key k rs)) ks) =
  map (fun k => (k, rows_with key k (r :: rs))) (insert_key (key r) ks).
Proof.
  intros S. induction ks as [| k' ks IH]; intros D.
  - cbn [map insert_group insert_key]. rewrite rows_with_same.
    destruct D as [[] | ->]. reflexivity.
  - cbn [map insert_group insert_key]. destruct (kcmp (key r) k') eqn:E.
    + apply kcmp_eq in E. subst k'.
      cbn [map]. rewrite rows_with_same. f_equal.
      apply map_ext_in. intros x I.
      rewrite rows_with_other; [reflexivity |].
      intros ->. exact (klt_irrefl _ (ascending_head_lt _ _ _ S I)).
    + assert (N : forall x, In x (k' :: ks) -> x <> key r).
      { intros x I ->. destruct I as [-> | I].
        - exact (klt_irrefl _ E).
        - exact (klt_irrefl _ (klt_trans _ _ _ E (ascending_head_lt _ _ _ S I))). }
      assert (T : map (fun k => (k, rows_with key k rs)) (k' :: ks) =
                  map (fun k => (k, rows_with key k (r :: rs))) (k' :: ks)).
      { apply map_ext_in. intros x I.
        rewrite rows_with_other; [reflexivity | apply N; exact I]. }
      cbn [map] in T |- *. rewrite <- T, rows_with_same.
      destruct D as [I | ->]; [destruct (N _ I eq_refl) |].
      reflexivity.
    + assert (N : k' <> key r).
      { intros ->. rewrite kcmp_refl in E. discriminate. }
      cbn [map]. rewrite (rows_with_other k' r rs N). f_equal.
      apply IH.
      * exact (ascending_tail _ _ S).
      * destruct D as [[E' | I] | D]; [destruct (N E') | left; exact I | right; exact D].
Qed.

(** The refinement: the groups built row by row are the key classes of
    the rows, listed by ascending distinct key. *)
Lemma group_rows_classes (rs : list Row) :
  group_rows key rs =
  map (fun k => (k, rows_with key k rs)) (np_unique (map key rs)).
Proof.
  induction rs as [| r rs IH].
  - reflexivity.
  - cbn [group_rows fold_right map np_unique].
    fold (group_rows key rs). fold (np_unique (map key rs)).
    rewrite IH. apply insert_group_classes.
    + apply np_unique_ascending.
    + destruct (rows_with key (key r) rs) as [| r0 l] eqn:E; [right; reflexivity | left].
      apply np_unique_In.
      assert (I : In r0 (rows_with key (key r) rs)) by (rewrite E; left; reflexivity).
      apply filter_In in I. destruct I as [I E0].
      apply keqb_eq in E0. rewrite <- E0. apply in_map. exact I.
Qed.
End Grouping.

(** ** Boolean indexing is a stable filter *)

Lemma select_rows_map {A} (p : A -> bool) (rs : list A) :
  select_rows rs (map p rs) = List.filter p rs.
Proof.
  induction rs as [| r rs IH]; simpl.
  - reflexivity.
  - rewrite IH. reflexivity.
Qed.

Lemma filter_sublist {A} (p : A -> bool) (rs : list A) :
  sublist (List.filter p rs) rs.
Proof.
  induction rs as [| r rs IH]; simpl.
  - constructor.
  - destruct (p r); constructor; exact IH.
Qed.

Lemma getitem_ok {A} (df : DataFrame) (c : Column A) :
  has_column df (label c) = true -> getitem df c = Ok (map (cell c) (rows df)).
Proof. intros E. unfold getitem. rewrite E. reflexivity. Qed.

Lemma getitem_missing {A} (df : DataFrame) (c : Column A) :
  has_column df (label c) = false -> getitem df c = Raise (KeyError (label c)).
Proof. intros E. unfold getitem. rewrite E. reflexivity. Qed.

Lemma getitem_mask_map (df : DataFrame) (p : Row -> bool) :
  getitem_mask df (map p (rows df)) =
  Ok (mkDataFrame (columns df) (List.filter p (rows df))).
Proof.
  unfold getitem_mask. rewrite length_map, Nat.eqb_refl, select_rows_map.
  reflexivity.
Qed.

Lemma filter_category_ok (data : DataFrame) (value : option string) :
  has_column data "pizza_category" = true ->
  filter_category data value =
  Ok (mkDataFrame (columns data) (List.filter (category_is value) (rows data))).
Proof.
  intros E. unfold filter_category.
  rewrite (getitem_ok data col_pizza_category E). cbn [rbind].
  unfold Series_eq. rewrite map_map.
  apply (getitem_mask_map data (category_is value)).
Qed.

Lemma comparison_data_ok (data : DataFrame) (compare : list string) :
  has_column data "pizza_name" = true ->
  comparison_data data compare =
  Ok (mkDataFrame (columns data)
        (List.filter (fun r => existsb (String.eqb (pizza_name r)) compare) (rows data))).
Proof.
  intros E. unfold comparison_data.
  rewrite (getitem_ok data col_pizza_name E). cbn [rbind].
  unfold Series_isin. rewrite map_map.
  apply (getitem_mask_map data (fun r => existsb (String.eqb (pizza_name r)) compare)).
Qed.

(** ** Aggregation over groups *)

Section Aggregation.
Context {K : Type} `{OrdKey K} `{!OrdKeyLaws K}.

Lemma groupby_agg_ok (df : DataFrame) (key : Column K) (value : Column num)
    (op : Series num -> num) :
  has_column df (label key) = true ->
  has_column df (label value) = true ->
  groupby_agg df key value op =
  Ok (map (fun k => (k, op (map (cell value) (rows_with (cell key) k (rows df)))))
          (np_unique (map (cell key) (rows df)))).
Proof.
  intros Ek Ev. unfold groupby_agg, groupby. rewrite Ek. cbn [rbind].
  unfold agg. cbn [gb_columns gb_groups].
  unfold has_column in Ev. rewrite Ev.
  rewrite group_rows_classes, map_map. reflexivity.
Qed.

Lemma groupby_agg_keys (df : DataFrame) (key : Column K) (value : Column num)
    (op : Series num -> num) (m : IndexedSeries K) :
  groupby_agg df key value op = Ok m ->
  map fst m = np_unique (map (cell key) (rows df)).
Proof.
  unfold groupby_agg, groupby.
  destruct (has_column df (label key)); [| discriminate].
  cbn [rbind]. unfold agg. cbn [gb_columns gb_groups].
  destruct (existsb _ _); [| discriminate].
  intros E. injection E as <-.
  rewrite map_map. cbn [fst]. apply group_rows_keys.
Qed.


(** The groups hold the rows of the frame, every row in one group. *)
Lemma insert_group_rows (k : K) (r : Row) (gs : list (K * list Row)) :
  Permutation (concat (map snd (insert_group k r gs))) (r :: concat (map snd gs)).
Proof.
  induction gs as [| [k' rs] gs IH]; cbn [insert_group].
  - reflexivity.
  - destruct (kcmp k k'); cbn [map concat snd app].
    + reflexivity.
    + reflexivity.
    + rewrite IH. symmetry. apply Permutation_middle.
Qed.

Lemma group_rows_partition (key : Row -> K) (rs : list Row) :
  Permutation (concat (map snd (group_rows key rs))) rs.
Proof.
  induction rs as [| r rs IH].
  - reflexivity.
  - cbn [group_rows fold_right]. fold (group_rows key rs).
    rewrite insert_group_rows. constructor. exact IH.
Qed.
End Aggregation.

(** ** The first maximum of an indexed series *)

Lemma ordered_on_incl (vs vs' : list num) :
  incl vs' vs -> ordered_on vs -> ordered_on vs'.
Proof. intros I O a b c Ia Ib Ic. apply O; apply I; assumption. Qed.

Lemma ordered_on_asym (vs : list num) (a b : num) :
  ordered_on vs -> In a vs -> In b vs -> num_ltb a b = true -> num_ltb b a = false.
Proof. intros O Ia Ib. exact (proj1 (O a b a Ia Ib Ia)). Qed.

Lemma ordered_on_below (vs : list num) (a b c : num) :
  ordered_on vs -> In a vs -> In b vs -> In c vs ->
  num_ltb a b = true -> num_ltb a c = false -> num_ltb c b = true.
Proof. intros O Ia Ib Ic. exact (proj2 (O a b c Ia Ib Ic)). Qed.

Lemma argmax_from_split {K} (s : IndexedSeries K) :
  forall (pre : IndexedSeries K) (best : K * num) (mid : IndexedSeries K),
    ordered_on (map snd (pre ++ best :: mid ++ s)) ->
    (forall p, In p pre -> num_ltb (snd p) (snd best) = true) ->
    (forall p, In p mid -> num_ltb (snd best) (snd p) = false) ->
    exists pre' post,
      pre ++ best :: mid ++ s = pre' ++ argmax_from best s :: post /\
      (forall p, In p pre' -> num_ltb (snd p) (snd (argmax_from best s)) = true) /\
      (forall p, In p post -> num_ltb (snd (argmax_from best s)) (snd p) = false).
Proof.
  induction s as [| [k v] s IH]; intros pre best mid O Hpre Hmid.
  - exists pre, mid. rewrite app_nil_r. cbn [argmax_from]. auto.
  - cbn [argmax_from].
    assert (Ib : In (snd best) (map snd (pre ++ best :: mid ++ (k, v) :: s))).
    { apply in_map, in_or_app. right. left. reflexivity. }
    assert (Iv : In v (map snd (pre ++ best :: mid ++ (k, v) :: s))).
    { apply (in_map snd _ (k, v)), in_or_app. right. right.
      apply in_or_app. right. left. reflexivity. }
    assert (Ipre : forall p, In p pre ->
                     In (snd p) (map snd (pre ++ best :: mid ++ (k, v) :: s))).
    { intros p I. apply in_map, in_or_app. left. exact I. }
    assert (Imid : forall p, In p mid ->
                     In (snd p) (map snd (pre ++ best :: mid ++ (k, v) :: s))).
    { intros p I. apply in_map, in_or_app. right. right.
      apply in_or_app. left. exact I. }
    destruct (num_ltb (snd best) v) eqn:L.
    + destruct (IH (pre ++ best :: mid) (k, v) []) as (pre' & post & E & Hp & Hq).
      * cbn [app]. rewrite <- app_assoc. exact O.
      * intros p I. cbn [snd]. apply in_app_or in I.
        destruct I as [I | [<- | I]].
        -- apply (ordered_on_below _ (snd best) v (snd p) O Ib Iv (Ipre p I) L).
           apply (ordered_on_asym _ (snd p) (snd best) O (Ipre p I) Ib (Hpre p I)).
        -- exact L.
        -- exact (ordered_on_below _ (snd best) v (snd p) O Ib Iv (Imid p I) L (Hmid p I)).
      * intros p [].
      * exists pre', post. split; [| auto].
        rewrite <- E. rewrite <- app_assoc. reflexivity.
    + destruct (IH pre best (mid ++ [(k, v)])) as (pre' & post & E & Hp & Hq).
      * rewrite <- app_assoc. exact O.
      * exact Hpre.
      * intros p I. apply in_app_or in I. destruct I as [I | [<- | []]].
        -- exact (Hmid p I).
        -- exact L.
      * exists pre', post. split; [| auto].
        rewrite <- E. rewrite <- app_assoc. reflexivity.
Qed.

Lemma Series_max_argmax {K} (s : IndexedSeries K) (best : K * num) :
  fold_left num_max (map snd s) (snd best) = snd (argmax_from best s).
Proof.
  revert best. induction s as [| [k v] s IH]; intros best; cbn [map fold_left argmax_from snd].
  - reflexivity.
  - unfold num_max at 2. destruct (num_ltb (snd best) v).
    + rewrite <- (IH (k, v)). reflexivity.
    + rewrite <- (IH best). reflexivity.
Qed.

Lemma ascending_app_after {K} `{OrdKey K} `{!OrdKeyLaws K} (l1 l2 : list K) (x y : K) :
  ascending (l1 ++ x :: l2) -> In y l2 -> klt x y.
Proof.
  induction l1 as [| a l1 IH]; cbn [app]; intros S I.
  - exact (ascending_head_lt _ _ _ S I).
  - apply IH; [exact (ascending_tail _ _ S) | exact I].
Qed.


(** ** The sales per pizza *)

Lemma sales_per_pizza_ok (fd : DataFrame) :
  has_column fd "pizza_name" = true ->
  has_column fd "total_price" = true ->
  sales_per_pizza fd =
  Ok (map (fun n => (n, key_total pizza_name n (rows fd)))
          (np_unique (map pizza_name (rows fd)))).
Proof.
  intros En Et. unfold sales_per_pizza.
  rewrite (groupby_agg_ok fd col_pizza_name col_total_price group_sum En Et).
  reflexivity.
Qed.

(** ** Running the monad *)

Lemma bind_ok_run {A B} (m : St A) (k : A -> St B) (s s' : state) (a : A) :
  m s = (Ok a, s') -> bind m k s = k a s'.
Proof. intros E. unfold bind. rewrite E. reflexivity. Qed.

Lemma bind_raise_run {A B} (m : St A) (k : A -> St B) (s s' : state) (e : exn) :
  m s = (Raise e, s') -> bind m k s = (Raise e, s').
Proof. intros E. unfold bind. rewrite E. reflexivity. Qed.

Lemma emit_run (w : widget) (s : state) :
  emit w s = (Ok tt, mkState (heap s) (out s ++ [w])).
Proof. reflexivity. Qed.

Lemma deref_run (l : loc) (df : DataFrame) (s : state) :
  heap s !! l = Some df -> deref l s = (Ok df, s).
Proof. intros E. unfold deref. rewrite E. reflexivity. Qed.

Lemma lift_run {A} (r : result A) (s : state) : lift r s = (r, s).
Proof. reflexivity. Qed.

Lemma new_run (df : DataFrame) (s : state) :
  new df s = (Ok (fresh (dom (heap s))),
              mkState (<[fresh (dom (heap s)) := df]> (heap s)) (out s)).
Proof. reflexivity. Qed.

Lemma store_setitem_run {A} (l : loc) (c : Column A) (values : Series A)
    (df df' : DataFrame) (s : state) :
  heap s !! l = Some df ->
  setitem df c values = Ok df' ->
  store_setitem l c values s = (Ok tt, mkState (<[l := df']> (heap s)) (out s)).
Proof. intros E E'. unfold store_setitem. rewrite E, E'. reflexivity. Qed.

Lemma fresh_lookup_ne (h : gmap loc DataFrame) (l : loc) (df : DataFrame) :
  h !! l = Some df -> fresh (dom h) <> l.
Proof.
  intros E F. apply (is_fresh (dom h)). rewrite F.
  apply elem_of_dom. exists df. exact E.
Qed.

Lemma fresh_lookup_None (h : gmap loc DataFrame) : h !! fresh (dom h) = None.
Proof. apply not_elem_of_dom. apply is_fresh. Qed.

(** Looking an object up in a store built by allocations and updates. *)
Ltac lookup :=
  cbn [heap];
  first
    [ eassumption
    | rewrite lookup_insert_eq; reflexivity
    | rewrite lookup_insert_ne by (eapply fresh_lookup_ne; lookup); lookup ].

(** One statement of a page: the run of [bind m k] continues with [k] on
    the value and the state [m] leaves. *)
Ltac run_with tac :=
  etransitivity; [ apply bind_ok_run; tac |]; cbv beta.

Ltac run_emit := run_with ltac:(apply emit_run).
Ltac run_deref := run_with ltac:(apply deref_run; lookup).
Ltac run_new := run_with ltac:(apply new_run).
Ltac run_lift E := run_with ltac:(rewrite lift_run; rewrite E; reflexivity).

Ltac run_raise E :=
  etransitivity;
  [ apply bind_raise_run; rewrite lift_run; rewrite E; reflexivity |].

(** ** Columns of a derived frame *)

Lemma has_column_same (a b : DataFrame) (l : string) :
  columns a = columns b -> has_column a l = has_column b l.
Proof. intros E. unfold has_column. rewrite E. reflexivity. Qed.

Lemma first_missing_same (a b : DataFrame) (labels : list string) :
  columns a = columns b -> first_missing a labels = first_missing b labels.
Proof.
  intros E. unfold first_missing.
  induction labels as [| l labels IH]; cbn [find].
  - reflexivity.
  - rewrite (has_column_same a b l E), IH. reflexivity.
Qed.

Lemma first_missing_cons (df : DataFrame) (l : string) (labels : list string) :
  first_missing df (l :: labels) =
  if has_column df l then first_missing df labels else Some l.
Proof. unfold first_missing. cbn [find]. destruct (has_column df l); reflexivity. Qed.

Lemma groupby_agg_no_key {K} `{OrdKey K} (df : DataFrame) (key : Column K)
    (value : Column num) (op : Series num -> num) :
  has_column df (label key) = false ->
  groupby_agg df key value op = Raise (KeyError (label key)).
Proof. intros E. unfold groupby_agg, groupby. rewrite E. reflexivity. Qed.

Lemma groupby_agg_no_value {K} `{OrdKey K} (df : DataFrame) (key : Column K)
    (value : Column num) (op : Series num -> num) :
  has_column df (label key) = true ->
  has_column df (label value) = false ->
  groupby_agg df key value op = Raise (KeyError (label value)).
Proof.
  intros Ek Ev. unfold groupby_agg, groupby. rewrite Ek. cbn [rbind].
  unfold agg. cbn [gb_columns]. unfold has_column in Ev. rewrite Ev. reflexivity.
Qed.

Lemma groupby_total_price_cases {K} `{OrdKey K} `{!OrdKeyLaws K} (df : DataFrame) (key : Column K) :
  groupby_total_price df key =
  if has_column df (label key) then
    if has_column df "total_price" then
      Ok (map (fun k => (k, group_sum (map total_price (rows_with (cell key) k (rows df)))))
              (np_unique (map (cell key) (rows df))))
    else Raise (KeyError "total_price")
  else Raise (KeyError (label key)).
Proof.
  unfold groupby_total_price.
  destruct (has_column df (label key)) eqn:Ek.
  - destruct (has_column df "total_price") eqn:Et.
    + rewrite (groupby_agg_ok df key col_total_price group_sum Ek Et). reflexivity.
    + rewrite (groupby_agg_no_value df key col_total_price group_sum Ek Et). reflexivity.
  - rewrite (groupby_agg_no_key df key col_total_price group_sum Ek). reflexivity.
Qed.

(** Converting the dates of a frame that holds timestamps leaves the frame
    as it is. *)
Lemma assign_order_date_id (rs : list Row) :
  assign_cells col_order_date rs (map order_date rs) = rs.
Proof.
  induction rs as [| r rs IH]; cbn [map assign_cells].
  - reflexivity.
  - rewrite IH. destruct r. reflexivity.
Qed.

Lemma setitem_to_datetime (fd : DataFrame) :
  has_column fd "order_date" = true ->
  setitem fd col_order_date (pd_to_datetime (map order_date (rows fd))) = Ok fd.
Proof.
  intros E. unfold setitem, pd_to_datetime.
  rewrite length_map, Nat.eqb_refl. cbn [label col_order_date]. rewrite E.
  rewrite assign_order_date_id. destruct fd. reflexivity.
Qed.

(** ** The blocks of the pages *)

Lemma category_options_ok (df : DataFrame) :
  has_column df "pizza_category" = true ->
  category_options df = Ok (np_unique (map pizza_category (rows df))).
Proof.
  intros E. unfold category_options.
  rewrite (getitem_ok df col_pizza_category E). reflexivity.
Qed.

Lemma category_options_missing (df : DataFrame) :
  has_column df "pizza_category" = false ->
  category_options df = Raise (KeyError "pizza_category").
Proof.
  intros E. unfold category_options.
  rewrite (getitem_missing df col_pizza_category E). reflexivity.
Qed.

Lemma select_category_run (data : loc) (ui : UI) (s : state) (df : DataFrame) :
  heap s !! data = Some df ->
  has_column df "pizza_category" = true ->
  select_category data ui s =
    (Ok (selected_category df ui, fresh (dom (heap s))),
     mkState (<[fresh (dom (heap s)) := selected_view df ui]> (heap s)) (out s)).
Proof.
  intros Hd Ec. unfold select_category.
  run_deref. run_lift (category_options_ok df Ec).
  run_deref.
  run_lift (filter_category_ok df
              (st_selectbox (np_unique (map pizza_category (rows df))) (ui_category ui)) Ec).
  run_new. reflexivity.
Qed.

Lemma select_category_missing (data : loc) (ui : UI) (s : state) (df : DataFrame) :
  heap s !! data = Some df ->
  has_column df "pizza_category" = false ->
  select_category data ui s = (Raise (KeyError "pizza_category"), s).
Proof.
  intros Hd Ec. unfold select_category.
  run_deref. run_raise (category_options_missing df Ec). reflexivity.
Qed.

Lemma sales_charts_run (l : loc) (fd : DataFrame) (s : state) :
  heap s !! l = Some fd ->
  match first_missing fd ["pizza_name"; "total_price"; "pizza_size"] with
  | Some c => exists s', sales_charts l s = (Raise (KeyError c), s')
  | None =>
      exists by_pizza by_size,
        sales_charts l s =
          (Ok tt,
           mkState (heap s)
                   ((out s ++ [PlotlyChart (Bar by_pizza)]) ++ [PlotlyChart (Pie by_size)]))
  end.
Proof.
  intros Hl. rewrite !first_missing_cons. unfold first_missing. cbn [find].
  pose proof (groupby_total_price_cases fd col_pizza_name) as Ep.
  pose proof (groupby_total_price_cases fd col_pizza_size) as Es.
  cbn [label col_pizza_name col_pizza_size] in Ep, Es.
  fold (total_sales_by_pizza fd) in Ep. fold (sales_by_size fd) in Es.
  unfold sales_charts.
  destruct (has_column fd "pizza_name").
  - destruct (has_column fd "total_price").
    + destruct (has_column fd "pizza_size").
      * eexists. eexists.
        run_deref. run_lift Ep. run_emit. run_deref. run_lift Es.
        reflexivity.
      * eexists.
        run_deref. run_lift Ep. run_emit. run_deref. run_raise Es.
        reflexivity.
    + eexists. run_deref. run_raise Ep. reflexivity.
  - eexists. run_deref. run_raise Ep. reflexivity.
Qed.

Lemma sales_trend_run (l : loc) (fd : DataFrame) (s : state) :
  heap s !! l = Some fd ->
  has_column fd "order_date" = true ->
  if has_column fd "total_price" then
    exists series,
      sales_trend l s = (Ok tt, mkState (heap s) (out s ++ [PlotlyChart (Line series)]))
  else
    exists s', sales_trend l s = (Raise (KeyError "total_price"), s').
Proof.
  intros Hl Ed.
  pose proof (groupby_total_price_cases fd col_order_date) as Eo.
  cbn [label col_order_date] in Eo. rewrite Ed in Eo.
  fold (sales_over_time fd) in Eo.
  assert (Hi : <[l := fd]> (heap s) = heap s) by (apply insert_id; exact Hl).
  unfold sales_trend.
  destruct (has_column fd "total_price").
  - eexists.
    run_deref. run_lift (getitem_ok fd col_order_date Ed).
    run_with ltac:(eapply store_setitem_run; [lookup | apply (setitem_to_datetime fd Ed)]).
    run_deref. run_lift Eo.
    rewrite emit_run. cbn [heap out]. rewrite Hi. reflexivity.
  - eexists.
    run_deref. run_lift (getitem_ok fd col_order_date Ed).
    run_with ltac:(eapply store_setitem_run; [lookup | apply (setitem_to_datetime fd Ed)]).
    run_deref. run_raise Eo.
    reflexivity.
Qed.

Lemma np_unique_nonempty {K} `{OrdKey K} `{!OrdKeyLaws K} (s : Series K) :
  s <> [] -> np_unique s <> [].
Proof.
  destruct s as [| c s]; [intros N; destruct (N eq_refl) |].
  intros _ E.
  assert (I : In c (np_unique (c :: s))) by (apply np_unique_In; left; reflexivity).
  rewrite E in I. destruct I.
Qed.

Lemma top_selling_pizza_defined (fd : DataFrame) :
  has_column fd "pizza_name" = true ->
  has_column fd "total_price" = true ->
  rows fd <> [] ->
  exists top, top_selling_pizza fd = Ok top.
Proof.
  intros En Et Hne. unfold top_selling_pizza.
  rewrite (sales_per_pizza_ok fd En Et). cbn [rbind].
  destruct (np_unique (map pizza_name (rows fd))) as [| k ks] eqn:U.
  - exfalso. apply (np_unique_nonempty (map pizza_name (rows fd))); [| exact U].
    destruct (rows fd); [destruct (Hne eq_refl) | discriminate].
  - cbn [map Series_idxmax]. eexists. reflexivity.
Qed.

Lemma top_selling_pizza_empty (fd : DataFrame) :
  has_column fd "pizza_name" = true ->
  has_column fd "total_price" = true ->
  rows fd = [] ->
  top_selling_pizza fd = Raise (ValueError "attempt to get argmax of an empty sequence").
Proof.
  intros En Et E. unfold top_selling_pizza.
  rewrite (sales_per_pizza_ok fd En Et), E. reflexivity.
Qed.

Lemma top_selling_pizza_missing (fd : DataFrame) :
  has_column fd "pizza_name" = false ->
  top_selling_pizza fd = Raise (KeyError "pizza_name").
Proof.
  intros En. unfold top_selling_pizza, sales_per_pizza.
  rewrite (groupby_agg_no_key fd col_pizza_name col_total_price group_sum En).
  reflexivity.
Qed.

Lemma top_pizza_sales_defined (fd : DataFrame) :
  has_column fd "pizza_name" = true ->
  has_column fd "total_price" = true ->
  exists sales, top_pizza_sales fd = Ok sales.
Proof.
  intros En Et. unfold top_pizza_sales.
  rewrite (sales_per_pizza_ok fd En Et). eexists. reflexivity.
Qed.

Lemma total_sales_ok (fd : DataFrame) :
  has_column fd "total_price" = true ->
  total_sales fd = Ok (Series_sum (map total_price (rows fd))).
Proof.
  intros E. unfold total_sales. rewrite (getitem_ok fd col_total_price E). reflexivity.
Qed.

Lemma total_sales_missing (fd : DataFrame) :
  has_column fd "total_price" = false ->
  total_sales fd = Raise (KeyError "total_price").
Proof.
  intros E. unfold total_sales. rewrite (getitem_missing fd col_total_price E). reflexivity.
Qed.

Lemma average_price_ok (fd : DataFrame) :
  has_column fd "unit_price" = true ->
  average_price fd = Ok (Series_mean (map unit_price (rows fd))).
Proof.
  intros E. unfold average_price. rewrite (getitem_ok fd col_unit_price E). reflexivity.
Qed.

Lemma average_price_missing (fd : DataFrame) :
  has_column fd "unit_price" = false ->
  average_price fd = Raise (KeyError "unit_price").
Proof.
  intros E. unfold average_price. rewrite (getitem_missing fd col_unit_price E). reflexivity.
Qed.

Lemma metric_cards_run (l : loc) (fd : DataFrame) (s : state) :
  heap s !! l = Some fd ->
  match first_missing fd ["total_price"; "unit_price"; "pizza_name"] with
  | Some c => metric_cards l s = (Raise (KeyError c), s)
  | None =>
      match rows fd with
      | [] =>
          metric_cards l s =
            (Raise (ValueError "attempt to get argmax of an empty sequence"), s)
      | _ :: _ =>
          exists top sales,
            top_selling_pizza fd = Ok top /\
            top_pizza_sales fd = Ok sales /\
            metric_cards l s =
              (Ok tt,
               mkState (heap s)
                 ((((out s
                     ++ [MetricMoney "Total Sales" (Series_sum (map total_price (rows fd)))])
                     ++ [MetricMean "Average Price" (Series_mean (map unit_price (rows fd)))])
                     ++ [MetricText "Top Selling Pizza" top])
                     ++ [MetricMax "Top Pizza Sales" sales]))
      end
  end.
Proof.
  intros Hl. rewrite !first_missing_cons. unfold first_missing. cbn [find].
  unfold metric_cards.
  destruct (has_column fd "total_price") eqn:Et.
  - destruct (has_column fd "unit_price") eqn:Eu.
    + destruct (has_column fd "pizza_name") eqn:En.
      * destruct (rows fd) as [| r rs] eqn:Er.
        -- run_deref. run_lift (total_sales_ok fd Et).
           run_deref. run_lift (average_price_ok fd Eu).
           run_deref. run_raise (top_selling_pizza_empty fd En Et Er).
           reflexivity.
        -- destruct (top_selling_pizza_defined fd En Et) as [top Etop].
           { rewrite Er. discriminate. }
           destruct (top_pizza_sales_defined fd En Et) as [sales Esales].
           exists top, sales. split; [exact Etop |]. split; [exact Esales |].
           run_deref. run_lift (total_sales_ok fd Et).
           run_deref. run_lift (average_price_ok fd Eu).
           run_deref. run_lift Etop.
           run_deref. run_lift Esales.
           run_emit. run_emit. run_emit. rewrite Er. reflexivity.
      * run_deref. run_lift (total_sales_ok fd Et).
        run_deref. run_lift (average_price_ok fd Eu).
        run_deref. run_raise (top_selling_pizza_missing fd En).
        reflexivity.
    + run_deref. run_lift (total_sales_ok fd Et).
      run_deref. run_raise (average_price_missing fd Eu).
      reflexivity.
  - run_deref. run_raise (total_sales_missing fd Et). reflexivity.
Qed.

Lemma compare_options_ok (df : DataFrame) :
  has_column df "pizza_name" = true ->
  compare_options df = Ok (Series_unique (map pizza_name (rows df))).
Proof.
  intros E. unfold compare_options.
  rewrite (getitem_ok df col_pizza_name E). reflexivity.
Qed.

Lemma px_bar_frame_ok (df : DataFrame) :
  has_column df "pizza_name" = true ->
  has_column df "total_price" = true ->
  px_bar_frame df = Ok (Bar (map (fun r => (pizza_name r, total_price r)) (rows df))).
Proof. intros En Et. unfold px_bar_frame. rewrite En, Et. reflexivity. Qed.

Lemma comparison_rows_selected (df : DataFrame) (compare : list string) (r : Row) :
  In r (List.filter (fun r => existsb (String.eqb (pizza_name r)) compare) (rows df)) ->
  In (pizza_name r) compare.
Proof.
  intros I. apply filter_In in I. destruct I as [_ I].
  apply existsb_exists in I. destruct I as (n & I & E).
  apply String.eqb_eq in E. rewrite E. exact I.
Qed.

Lemma comparative_analysis_skip (data : loc) (ui : UI) (s : state) (df : DataFrame) :
  heap s !! data = Some df ->
  has_column df "pizza_name" = true ->
  selected_pizzas df ui = [] ->
  comparative_analysis data ui s = (Ok tt, mkState (heap s) (out s ++ [Markdown])).
Proof.
  intros Hd En Hc. unfold comparative_analysis.
  run_emit. run_deref. run_lift (compare_options_ok df En).
  fold (selected_pizzas df ui). rewrite Hc. reflexivity.
Qed.

Lemma comparative_analysis_chart (data : loc) (ui : UI) (s : state) (df : DataFrame) :
  heap s !! data = Some df ->
  has_column df "pizza_name" = true ->
  has_column df "total_price" = true ->
  selected_pizzas df ui <> [] ->
  comparative_analysis data ui s =
    (Ok tt,
     mkState (<[fresh (dom (heap s)) := comparison_view df ui]> (heap s))
             ((out s ++ [Markdown]) ++
              [PlotlyChart
                 (Bar (map (fun r => (pizza_name r, total_price r))
                           (rows (comparison_view df ui))))])).
Proof.
  intros Hd En Et Hc. unfold comparative_analysis, comparison_view.
  run_emit. run_deref. run_lift (compare_options_ok df En).
  fold (selected_pizzas df ui).
  destruct (selected_pizzas df ui) as [| c cs] eqn:Ec; [destruct (Hc eq_refl) |].
  run_deref. run_lift (comparison_data_ok df (c :: cs) En).
  run_new. run_deref.
  run_lift (px_bar_frame_ok
              (mkDataFrame (columns df)
                 (List.filter (fun r => existsb (String.eqb (pizza_name r)) (c :: cs))
                              (rows df))) En Et).
  reflexivity.
Qed.

(** ** The select box offers what the dataset holds *)

Lemma st_selectbox_In (options : list string) (pick : nat) (c : string) :
  st_selectbox options pick = Some c -> In c options.
Proof. unfold st_selectbox. apply nth_error_In. Qed.

Lemma st_selectbox_nonempty (options : list string) (pick : nat) :
  options <> [] -> exists c, st_selectbox options pick = Some c.
Proof.
  intros N. unfold st_selectbox.
  destruct (nth_error options (Nat.min pick (Nat.pred (length options)))) as [c |] eqn:E.
  - exists c. reflexivity.
  - exfalso. apply nth_error_None in E.
    destruct options as [| o os]; [destruct (N eq_refl) |].
    cbn [length Nat.pred] in E. lia.
Qed.

Lemma selected_view_nonempty (df : DataFrame) (ui : UI) :
  rows df <> [] -> rows (selected_view df ui) <> [].
Proof.
  intros N.
  destruct (st_selectbox_nonempty (np_unique (map pizza_category (rows df))) (ui_category ui))
    as [c Ec].
  { apply np_unique_nonempty. destruct (rows df); [destruct (N eq_refl) | discriminate]. }
  pose proof (st_selectbox_In _ _ _ Ec) as I.
  apply (proj1 (np_unique_In _ _)) in I.
  apply in_map_iff in I. destruct I as (r & Er & Ir).
  unfold selected_view, selected_category. rewrite Ec. cbn [rows].
  intros E.
  assert (I : In r (List.filter (category_is (Some c)) (rows df))).
  { apply filter_In. split; [exact Ir |]. cbn [category_is].
    apply String.eqb_eq. exact Er. }
  rewrite E in I. destruct I.
Qed.

Lemma selected_view_empty (df : DataFrame) (ui : UI) :
  rows df = [] -> rows (selected_view df ui) = [].
Proof. intros E. unfold selected_view. cbn [rows]. rewrite E. reflexivity. Qed.

(** ** The pages *)

Lemma filter_line_chart_app (ws : list widget) (w : widget) :
  is_line_chart w = false ->
  List.filter is_line_chart (ws ++ [w]) = List.filter is_line_chart ws.
Proof.
  intros E. rewrite List.filter_app. cbn [List.filter]. rewrite E.
  apply app_nil_r.
Qed.

Lemma data_visualization_run (data : loc) (ui : UI) (s : state) (df : DataFrame) :
  heap s !! data = Some df ->
  match first_missing df ["pizza_category"; "pizza_name"; "total_price"; "pizza_size"] with
  | Some c => exists s', data_visualization data ui s = (Raise (KeyError c), s')
  | None =>
      exists s',
        data_visualization data ui s = (Ok tt, s') /\
        (has_column df "order_date" = false ->
         List.filter is_line_chart (out s') = List.filter is_line_chart (out s))
  end.
Proof.
  intros Hd. rewrite first_missing_cons.
  destruct (has_column df "pizza_category") eqn:Ec.
  - set (s0 := mkState (heap s) (((out s ++ [Title "Data Visualization"]) ++ [Markdown])
                                   ++ [Markdown])).
    set (l := fresh (dom (heap s))).
    set (s1 := mkState (<[l := selected_view df ui]> (heap s)) (out s0)).
    assert (Hsel : select_category data ui s0 = (Ok (selected_category df ui, l), s1)).
    { apply (select_category_run data ui s0 df); [exact Hd | exact Ec]. }
    assert (Hl : heap s1 !! l = Some (selected_view df ui)) by apply lookup_insert_eq.
    assert (Hd1 : heap s1 !! data = Some df) by (unfold s1, l; lookup).
    pose proof (sales_charts_run l (selected_view df ui) s1 Hl) as Hch.
    rewrite (first_missing_same (selected_view df ui) df) in Hch by reflexivity.
    destruct (first_missing df ["pizza_name"; "total_price"; "pizza_size"]) as [c |] eqn:Em.
    + destruct Hch as [s' Hch]. exists s'. unfold data_visualization.
      run_emit. run_emit. run_emit. run_with ltac:(exact Hsel).
      cbn [fst snd]. etransitivity; [apply bind_raise_run; exact Hch |]. reflexivity.
    + destruct Hch as (by_pizza & by_size & Hch).
      rewrite !first_missing_cons in Em.
      destruct (has_column df "pizza_name"); [| discriminate].
      destruct (has_column df "total_price") eqn:Et; [| discriminate].
      clear Em.
      destruct (has_column df "order_date") eqn:Ed.
      * pose proof (sales_trend_run l (selected_view df ui)
                      (mkState (heap s1) ((out s1 ++ [PlotlyChart (Bar by_pizza)])
                                            ++ [PlotlyChart (Pie by_size)])) Hl Ed) as Htr.
        change (has_column (selected_view df ui) "total_price")
          with (has_column df "total_price") in Htr.
        rewrite Et in Htr. destruct Htr as [series Htr].
        destruct (ui_show_table ui) eqn:Eshow.
        -- eexists. split; [| intros; discriminate].
           unfold data_visualization.
           run_emit. run_emit. run_emit. run_with ltac:(exact Hsel).
           cbn [fst snd]. run_with ltac:(exact Hch).
           run_deref. rewrite Ed. run_with ltac:(exact Htr).
           rewrite Eshow.
           run_with ltac:(run_deref; apply emit_run).
           run_emit. run_deref. apply emit_run.
        -- eexists. split; [| intros; discriminate].
           unfold data_visualization.
           run_emit. run_emit. run_emit. run_with ltac:(exact Hsel).
           cbn [fst snd]. run_with ltac:(exact Hch).
           run_deref. rewrite Ed. run_with ltac:(exact Htr).
           rewrite Eshow.
           run_with ltac:(reflexivity).
           run_emit. run_deref. apply emit_run.
      * destruct (ui_show_table ui) eqn:Eshow.
        -- eexists. split.
           ++ unfold data_visualization.
              run_emit. run_emit. run_emit. run_with ltac:(exact Hsel).
              cbn [fst snd]. run_with ltac:(exact Hch).
              run_deref. rewrite Ed. run_with ltac:(reflexivity).
              rewrite Eshow.
              run_with ltac:(run_deref; apply emit_run).
              run_emit. run_deref. apply emit_run.
           ++ intros _. cbn [out heap]. unfold s1, s0. cbn [out].
              rewrite !filter_line_chart_app by reflexivity. reflexivity.
        -- eexists. split.
           ++ unfold data_visualization.
              run_emit. run_emit. run_emit. run_with ltac:(exact Hsel).
              cbn [fst snd]. run_with ltac:(exact Hch).
              run_deref. rewrite Ed. run_with ltac:(reflexivity).
              rewrite Eshow.
              run_with ltac:(reflexivity).
              run_emit. run_deref. apply emit_run.
           ++ intros _. cbn [out heap]. unfold s1, s0. cbn [out].
              rewrite !filter_line_chart_app by reflexivity. reflexivity.
  - exists (mkState (heap s) (((out s ++ [Title "Data Visualization"]) ++ [Markdown])
                               ++ [Markdown])).
    unfold data_visualization.
    run_emit. run_emit. run_emit.
    etransitivity;
      [apply bind_raise_run; apply (select_category_missing data ui _ df); [exact Hd | exact Ec] |].
    reflexivity.
Qed.

Lemma In_app_left {A} (x : A) (l l' : list A) : In x l -> In x (l ++ l').
Proof. intros I. apply in_or_app. left. exact I. Qed.

Lemma In_app_last {A} (x : A) (l : list A) : In x (l ++ [x]).
Proof. apply in_or_app. right. left. reflexivity. Qed.

Ltac in_out := repeat first [ apply In_app_last | apply In_app_left ].

Lemma data_analysis_run (data : loc) (ui : UI) (s : state) (df : DataFrame) :
  heap s !! data = Some df ->
  match first_missing df ["pizza_category"; "total_price"; "unit_price"; "pizza_name"] with
  | Some c => exists s', data_analysis data ui s = (Raise (KeyError c), s')
  | None =>
      match rows (selected_view df ui) with
      | [] =>
          data_analysis data ui s =
            (Raise (ValueError "attempt to get argmax of an empty sequence"),
             mkState (<[fresh (dom (heap s)) := selected_view df ui]> (heap s))
                     ((out s ++ [Title "Data Analysis"]) ++ [Markdown]))
      | _ :: _ =>
          exists s',
            data_analysis data ui s = (Ok tt, s') /\
            In (MetricMoney "Total Sales"
                  (Series_sum (map total_price (rows (selected_view df ui))))) (out s') /\
            (has_column df "order_date" = false ->
             List.filter is_line_chart (out s') = List.filter is_line_chart (out s))
      end
  end.
Proof.
  intros Hd. rewrite first_missing_cons.
  destruct (has_column df "pizza_category") eqn:Ec.
  - set (s0 := mkState (heap s) ((out s ++ [Title "Data Analysis"]) ++ [Markdown])).
    set (l := fresh (dom (heap s))).
    set (s1 := mkState (<[l := selected_view df ui]> (heap s)) (out s0)).
    assert (Hsel : select_category data ui s0 = (Ok (selected_category df ui, l), s1)).
    { apply (select_category_run data ui s0 df); [exact Hd | exact Ec]. }
    assert (Hl : heap s1 !! l = Some (selected_view df ui)) by apply lookup_insert_eq.
    assert (Hd1 : heap s1 !! data = Some df) by (unfold s1, l; lookup).
    pose proof (metric_cards_run l (selected_view df ui) s1 Hl) as Hmc.
    rewrite (first_missing_same (selected_view df ui) df) in Hmc by reflexivity.
    destruct (first_missing df ["total_price"; "unit_price"; "pizza_name"]) as [c |] eqn:Em.
    + exists s1. unfold data_analysis.
      run_emit. run_emit. run_with ltac:(exact Hsel).
      cbn [fst snd]. etransitivity; [apply bind_raise_run; exact Hmc |]. reflexivity.
    + rewrite !first_missing_cons in Em.
      destruct (has_column df "total_price") eqn:Et; [| discriminate].
      destruct (has_column df "unit_price"); [| discriminate].
      destruct (has_column df "pizza_name") eqn:En; [| discriminate].
      clear Em.
      destruct (rows (selected_view df ui)) as [| r0 rs0] eqn:Er.
      * unfold data_analysis.
        run_emit. run_emit. run_with ltac:(exact Hsel).
        cbn [fst snd]. etransitivity; [apply bind_raise_run; exact Hmc |]. reflexivity.
      * destruct Hmc as (top & sales & _ & _ & Hmc).
        match type of Hmc with _ = (_, ?st) => set (s2 := st) in * end.
        assert (Hl2 : heap s2 !! l = Some (selected_view df ui)) by exact Hl.
        assert (Hd2 : heap s2 !! data = Some df) by exact Hd1.
        destruct (has_column df "order_date") eqn:Ed.
        -- pose proof (sales_trend_run l (selected_view df ui)
                         (mkState (heap s2) (out s2 ++ [Markdown])) Hl2 Ed) as Htr.
           change (has_column (selected_view df ui) "total_price")
             with (has_column df "total_price") in Htr.
           rewrite Et in Htr. destruct Htr as [series Htr]. cbn [heap out] in Htr.
           destruct (selected_pizzas df ui) as [| c cs] eqn:Esel.
           ++ eexists. split; [| split; [| intros; discriminate]].
              ** unfold data_analysis.
                 run_emit. run_emit. run_with ltac:(exact Hsel).
                 cbn [fst snd]. run_with ltac:(exact Hmc).
                 run_deref. rewrite Ed.
                 run_with ltac:(run_emit; exact Htr).
                 run_with ltac:(apply (comparative_analysis_skip data ui _ df);
                                [lookup | exact En | exact Esel]).
                 run_emit. run_emit. run_deref. apply emit_run.
              ** cbn [out heap]. unfold s2. cbn [out]. in_out.
           ++ eexists. split; [| split; [| intros; discriminate]].
              ** unfold data_analysis.
                 run_emit. run_emit. run_with ltac:(exact Hsel).
                 cbn [fst snd]. run_with ltac:(exact Hmc).
                 run_deref. rewrite Ed.
                 run_with ltac:(run_emit; exact Htr).
                 run_with ltac:(apply (comparative_analysis_chart data ui _ df);
                                [lookup | exact En | exact Et | rewrite Esel; discriminate]).
                 run_emit. run_emit. run_deref. apply emit_run.
              ** cbn [out heap]. unfold s2. cbn [out]. in_out.
        -- destruct (selected_pizzas df ui) as [| c cs] eqn:Esel.
           ++ eexists. split; [| split].
              ** unfold data_analysis.
                 run_emit. run_emit. run_with ltac:(exact Hsel).
                 cbn [fst snd]. run_with ltac:(exact Hmc).
                 run_deref. rewrite Ed.
                 run_with ltac:(reflexivity).
                 run_with ltac:(apply (comparative_analysis_skip data ui _ df);
                                [lookup | exact En | exact Esel]).
                 run_emit. run_emit. run_deref. apply emit_run.
              ** cbn [out heap]. unfold s2. cbn [out]. in_out.
              ** intros _. cbn [out heap]. unfold s2, s1, s0. cbn [out].
                 rewrite !filter_line_chart_app by reflexivity. reflexivity.
           ++ eexists. split; [| split].
              ** unfold data_analysis.
                 run_emit. run_emit. run_with ltac:(exact Hsel).
                 cbn [fst snd]. run_with ltac:(exact Hmc).
                 run_deref. rewrite Ed.
                 run_with ltac:(reflexivity).
                 run_with ltac:(apply (comparative_analysis_chart data ui _ df);
                                [lookup | exact En | exact Et | rewrite Esel; discriminate]).
                 run_emit. run_emit. run_deref. apply emit_run.
              ** cbn [out heap]. unfold s2. cbn [out]. in_out.
              ** intros _. cbn [out heap]. unfold s2, s1, s0. cbn [out].
                 rewrite !filter_line_chart_app by reflexivity. reflexivity.
  - exists (mkState (heap s) ((out s ++ [Title "Data Analysis"]) ++ [Markdown])).
    unfold data_analysis.
    run_emit. run_emit.
    etransitivity;
      [apply bind_raise_run; apply (select_category_missing data ui _ df); [exact Hd | exact Ec] |].
    reflexivity.
Qed.

(** ** What a page may write to

    The rules of [keeps]: a page writes only to the frames it has created
    itself. *)

Section Keeps.
Variable h0 : gmap loc DataFrame.

Lemma keeps_bind {A B} (m : St A) (k : A -> St B) (P : A -> Prop) (Q : B -> Prop) :
  keeps h0 m P -> (forall a, P a -> keeps h0 (k a) Q) -> keeps h0 (bind m k) Q.
Proof.
  intros Hm Hk s Hs. unfold bind.
  destruct (Hm s Hs) as [H1 H2].
  destruct (m s) as [[a | e] s']; cbn [fst snd] in *.
  - exact (Hk a H2 s' H1).
  - split; [exact H1 | exact I].
Qed.

Lemma keeps_ret {A} (a : A) (P : A -> Prop) : P a -> keeps h0 (ret a) P.
Proof. intros Ha s Hs. split; [exact Hs | exact Ha]. Qed.

Lemma keeps_emit (w : widget) : keeps h0 (emit w) (fun _ => True).
Proof. intros s Hs. split; [exact Hs | exact I]. Qed.

Lemma keeps_lift {A} (r : result A) : keeps h0 (lift r) (fun _ => True).
Proof. intros s Hs. split; [exact Hs |]. cbn. destruct r; exact I. Qed.

Lemma keeps_deref (l : loc) : keeps h0 (deref l) (fun _ => True).
Proof.
  intros s Hs. unfold deref. destruct (heap s !! l); split; solve [exact Hs | exact I].
Qed.

(** A new frame is none of the frames that were there. *)
Lemma keeps_new (df : DataFrame) : keeps h0 (new df) (fun l => h0 !! l = None).
Proof.
  intros s Hs. unfold new. cbn [fst snd heap].
  assert (N : h0 !! fresh (dom (heap s)) = None).
  { apply (lookup_weaken_None h0 (heap s)); [apply fresh_lookup_None | exact Hs]. }
  split; [| exact N].
  apply insert_subseteq_r; [exact N | exact Hs].
Qed.

(** An assignment into a frame created since does not touch the others. *)
Lemma keeps_store_setitem {A} (l : loc) (c : Column A) (values : Series A) :
  h0 !! l = None -> keeps h0 (store_setitem l c values) (fun _ => True).
Proof.
  intros N s Hs. unfold store_setitem.
  destruct (heap s !! l) as [df |]; [| split; [exact Hs | exact I]].
  destruct (setitem df c values) as [df' | e]; [| split; [exact Hs | exact I]].
  cbn [fst snd heap]. split; [| exact I].
  apply insert_subseteq_r; [exact N | exact Hs].
Qed.

Lemma keeps_weaken {A} (m : St A) (P Q : A -> Prop) :
  keeps h0 m P -> (forall a, P a -> Q a) -> keeps h0 m Q.
Proof.
  intros Hm HPQ s Hs. destruct (Hm s Hs) as [H1 H2]. split; [exact H1 |].
  destruct (fst (m s)); [apply HPQ; exact H2 | exact I].
Qed.

Ltac keeps_step :=
  first
    [ apply keeps_emit
    | apply keeps_lift
    | apply keeps_deref
    | apply keeps_new
    | apply keeps_store_setitem; assumption
    | apply keeps_ret; first [ exact I | assumption ]
    | eapply keeps_bind; [| intros ? ? ] ].

Ltac keeps_all := repeat keeps_step.

Lemma keeps_select_category (data : loc) (ui : UI) :
  keeps h0 (select_category data ui) (fun selection => h0 !! snd selection = None).
Proof. unfold select_category. keeps_all. Qed.

Lemma keeps_sales_charts (l : loc) : keeps h0 (sales_charts l) (fun _ => True).
Proof. unfold sales_charts. keeps_all. Qed.

Lemma keeps_sales_trend (l : loc) :
  h0 !! l = None -> keeps h0 (sales_trend l) (fun _ => True).
Proof. intros N. unfold sales_trend. keeps_all. Qed.

Lemma keeps_metric_cards (l : loc) : keeps h0 (metric_cards l) (fun _ => True).
Proof. unfold metric_cards. keeps_all. Qed.

Lemma keeps_comparative_analysis (data : loc) (ui : UI) :
  keeps h0 (comparative_analysis data ui) (fun _ => True).
Proof.
  unfold comparative_analysis. keeps_all.
  destruct (st_multiselect _ _); keeps_all.
Qed.

Lemma keeps_home_page : keeps h0 home_page (fun _ => True).
Proof. unfold home_page. keeps_all. Qed.

Lemma keeps_data_visualization (data : loc) (ui : UI) :
  keeps h0 (data_visualization data ui) (fun _ => True).
Proof.
  unfold data_visualization.
  do 3 (eapply keeps_bind; [apply keeps_emit | intros _ _]).
  eapply keeps_bind; [apply keeps_select_category | intros selection Hsel].
  cbv zeta.
  eapply keeps_bind; [apply keeps_sales_charts | intros _ _].
  eapply keeps_bind; [apply keeps_deref | intros df _].
  eapply keeps_bind.
  { destruct (has_column df "order_date");
      [apply keeps_sales_trend; exact Hsel | apply keeps_ret; exact I]. }
  intros _ _.
  eapply keeps_bind.
  { destruct (ui_show_table ui); keeps_all. }
  intros _ _. keeps_all.
Qed.

Lemma keeps_data_analysis (data : loc) (ui : UI) :
  keeps h0 (data_analysis data ui) (fun _ => True).
Proof.
  unfold data_analysis.
  do 2 (eapply keeps_bind; [apply keeps_emit | intros _ _]).
  eapply keeps_bind; [apply keeps_select_category | intros selection Hsel].
  cbv zeta.
  eapply keeps_bind; [apply keeps_metric_cards | intros _ _].
  eapply keeps_bind; [apply keeps_deref | intros df _].
  eapply keeps_bind.
  { destruct (has_column df "order_date").
    - eapply keeps_bind; [apply keeps_emit | intros _ _].
      apply keeps_sales_trend. exact Hsel.
    - apply keeps_ret. exact I. }
  intros _ _.
  eapply keeps_bind; [apply keeps_comparative_analysis | intros _ _].
  keeps_all.
Qed.

Lemma keeps_run_page (data : loc) (ui : UI) :
  keeps h0 (run_page data ui) (fun _ => True).
Proof.
  unfold run_page.
  eapply keeps_bind; [apply keeps_emit | intros _ _].
  destruct (ui_page ui).
  - apply keeps_home_page.
  - apply keeps_data_visualization.
  - apply keeps_data_analysis.
Qed.

Lemma keeps_session (data : loc) (uis : list UI) (s : state) :
  h0 ⊆ heap s -> h0 ⊆ heap (session data uis s).
Proof.
  revert s. induction uis as [| ui uis IH]; intros s Hs; cbn [session].
  - exact Hs.
  - apply IH. exact (proj1 (keeps_run_page data ui s Hs)).
Qed.
End Keeps.

(** ** Loading *)

Lemma pd_to_datetime_object_parsed (rs : list (@CsvRow num)) :
  forallb (fun r => match parse_datetime (csv_order_date r) with
                    | Some _ => true
                    | None => false
                    end) rs = true ->
  exists ts, pd_to_datetime_object (map csv_order_date rs) = Ok ts /\
             length ts = length rs.
Proof.
  induction rs as [| r rs IH]; cbn [forallb map pd_to_datetime_object].
  - intros _. exists []. split; reflexivity.
  - destruct (parse_datetime (csv_order_date r)) as [t |]; [| discriminate].
    cbn [andb]. intros E. destruct (IH E) as (ts & -> & L).
    exists (t :: ts). split; [reflexivity | cbn [length]; rewrite L; reflexivity].
Qed.

Lemma pd_to_datetime_object_unparsed (rs : list (@CsvRow num)) :
  forallb (fun r => match parse_datetime (csv_order_date r) with
                    | Some _ => true
                    | None => false
                    end) rs = false ->
  pd_to_datetime_object (map csv_order_date rs) =
  Raise (ValueError "Unknown datetime string format, unable to parse").
Proof.
  induction rs as [| r rs IH]; cbn [forallb map pd_to_datetime_object].
  - discriminate.
  - destruct (parse_datetime (csv_order_date r)) as [t |]; [| reflexivity].
    cbn [andb]. intros E. rewrite (IH E). reflexivity.
Qed.

Lemma with_dates_nil_iff (rs : list (@CsvRow num)) (ts : Series Z) :
  length ts = length rs -> (with_dates rs ts = [] <-> rs = []).
Proof.
  destruct rs as [| r rs], ts as [| t ts]; cbn [length with_dates]; intros L;
    try discriminate; split; intros E; try reflexivity; discriminate.
Qed.

(** The frame of a file that loads has the columns and as many rows as the
    file. *)
Lemma loaded_frame_ok (csv : CsvFrame) (df : DataFrame) :
  loaded_frame csv = Ok df ->
  columns df = csv_columns csv /\ (rows df = [] <-> csv_rows csv = []).
Proof.
  unfold loaded_frame. destruct (csv_has_column csv "order_date").
  - destruct (dates_parse csv) eqn:P.
    + destruct (pd_to_datetime_object_parsed _ P) as (ts & -> & L).
      cbn [rbind]. intros E. injection E as <-. cbn [columns rows].
      split; [reflexivity | apply with_dates_nil_iff; exact L].
    + rewrite (pd_to_datetime_object_unparsed _ P). discriminate.
  - intros E. injection E as <-. cbn [columns rows]. split; [reflexivity |].
    destruct (csv_rows csv); cbn [map]; split; intros E; try reflexivity; discriminate.
Qed.

(** A file loads unless it has a date that cannot be read. *)
Lemma loaded_frame_cases (csv : CsvFrame) :
  if negb (csv_has_column csv "order_date") || dates_parse csv
  then exists df, loaded_frame csv = Ok df
  else loaded_frame csv =
       Raise (ValueError "Unknown datetime string format, unable to parse").
Proof.
  unfold loaded_frame. destruct (csv_has_column csv "order_date"); cbn [negb orb].
  - destruct (dates_parse csv) eqn:P.
    + destruct (pd_to_datetime_object_parsed _ P) as (ts & -> & _).
      eexists. reflexivity.
    + rewrite (pd_to_datetime_object_unparsed _ P). reflexivity.
  - eexists. reflexivity.
Qed.

(** [load_data] binds a new object to the frame of the file, or raises
    what reading the dates raises, with nothing written. *)
Lemma load_data_run (csv : CsvFrame) (s : state) :
  load_data csv s =
  match loaded_frame csv with
  | Ok df => (Ok (fresh (dom (heap s))),
              mkState (<[fresh (dom (heap s)) := df]> (heap s)) (out s))
  | Raise e => (Raise e, s)
  end.
Proof.
  unfold load_data, loaded_frame. destruct (csv_has_column csv "order_date").
  - unfold bind, lift.
    destruct (pd_to_datetime_object (map csv_order_date (csv_rows csv))); reflexivity.
  - reflexivity.
Qed.

(** The total on the first metric card is the summed [total_price] of the
    rows of the selected category. *)
Lemma data_analysis_total_sales_card (data : loc) (ui : UI) (s : state) (df : DataFrame) :
  heap s !! data = Some df ->
  first_missing df ["pizza_category"; "total_price"; "unit_price"; "pizza_name"] = None ->
  rows df <> [] ->
  fst (data_analysis data ui s) = Ok tt /\
  In (MetricMoney "Total Sales"
        (Series_sum (map total_price
                         (List.filter (category_is (selected_category df ui)) (rows df)))))
     (out (snd (data_analysis data ui s))).
Proof.
  intros Hd Hm Hne.
  pose proof (data_analysis_run data ui s df Hd) as Hrun. rewrite Hm in Hrun.
  pose proof (selected_view_nonempty df ui Hne) as Hv.
  destruct (rows (selected_view df ui)) as [| r rs] eqn:Er; [destruct (Hv eq_refl) |].
  destruct Hrun as (s' & -> & Hin & _). cbn [fst snd].
  split; [reflexivity |].
  unfold selected_view in Er. cbn [rows] in Er.
  rewrite Er. exact Hin.
Qed.

(** The dataset after any session that follows the load is the frame that
    was loaded. *)
Lemma session_after_load (csv : CsvFrame) (df : DataFrame) (uis : list UI) (s : state) :
  loaded_frame csv = Ok df ->
  heap (session (fresh (dom (heap s))) uis (snd (load_data csv s)))
    !! fresh (dom (heap s)) = Some df.
Proof.
  intros L. rewrite load_data_run, L. cbn [snd].
  set (s1 := mkState (<[fresh (dom (heap s)) := df]> (heap s)) (out s)).
  apply (lookup_weaken (heap s1)).
  - apply lookup_insert_eq.
  - apply keeps_session. reflexivity.
Qed.

(** ** Dates without a time of day *)

Lemma calendar_date_midnight (day : Z) : calendar_date (midnight day) = day.
Proof. unfold calendar_date, midnight. apply Z.div_mul. discriminate. Qed.




(** * The claims *)

(** ** Filtering *)

(** C2: For every category value [v], the view obtained by the equality
    filter on [pizza_category] holds exactly the dataset rows of category
    [v]: every row of the view has category [v], every dataset row of
    category [v] is in the view, and the view is the dataset with the other
    rows struck out, the remaining ones in their original order and
    number. *)
Theorem C2_filter_category_exact_stable (data : DataFrame) (v : string) :
  has_column data "pizza_category" = true ->
  exists view,
    filter_category data (Some v) = Ok view /\
    (forall r, In r (rows view) -> pizza_category r = v) /\
    (forall r, In r (rows data) -> pizza_category r = v -> In r (rows view)) /\
    sublist (rows view) (rows data) /\
    rows view = List.filter (fun r => String.eqb (pizza_category r) v) (rows data).
Proof.
  intros E. eexists. split; [apply filter_category_ok; exact E |].
  cbn [rows]. change (category_is (Some v)) with (fun r : Row => String.eqb (pizza_category r) v).
  split; [| split; [| split]].
  - intros r I. apply filter_In in I. destruct I as [_ I].
    apply String.eqb_eq. exact I.
  - intros r I C. apply filter_In. split; [exact I |].
    apply String.eqb_eq. exact C.
  - apply filter_sublist.
  - reflexivity.
Qed.

(** ** Metrics *)

(** C7 (amended): For every filtered view, the size groups behind the pie
    chart are a partition of the rows of the view: the cells summed group
    by group are, taken together, the cells of the [total_price] column,
    each once.  The sum of the per-size sums equals [total_sales] of the
    view when the sums of the number type depend neither on the order of
    the cells nor on their grouping, as with [int64]; with [float64]
    every addition rounds and the two may differ. *)
Theorem C7_size_groups_partition_the_view (filtered_data : DataFrame) :
  has_column filtered_data "pizza_size" = true ->
  has_column filtered_data "total_price" = true ->
  exists by_size total groups,
    sales_by_size filtered_data = Ok by_size /\
    total_sales filtered_data = Ok total /\
    map snd by_size = map group_sum groups /\
    Permutation (concat groups) (map total_price (rows filtered_data)) /\
    total = Series_sum (map total_price (rows filtered_data)) /\
    (AdditiveNumber num -> Series_sum (map snd by_size) = total).
Proof.
  intros Es Et.
  set (classes := group_rows pizza_size (rows filtered_data)).
  exists (map (fun kg => (fst kg, group_sum (map total_price (snd kg)))) classes),
         (Series_sum (map total_price (rows filtered_data))),
         (map (fun kg => map total_price (snd kg)) classes).
  assert (P : Permutation (concat (map (fun kg => map total_price (snd kg)) classes))
                          (map total_price (rows filtered_data))).
  { rewrite <- (map_map snd (map total_price)), <- concat_map.
    apply Permutation_map. apply group_rows_partition. }
  assert (M : map snd (map (fun kg => (fst kg, group_sum (map total_price (snd kg)))) classes) =
              map group_sum (map (fun kg => map total_price (snd kg)) classes)).
  { rewrite !map_map. reflexivity. }
  split; [| split; [| split; [| split; [| split]]]].
  - unfold sales_by_size, groupby_total_price, groupby_agg, groupby.
    cbn [label col_pizza_size]. rewrite Es. cbn [rbind]. unfold agg.
    cbn [gb_columns gb_groups label col_total_price].
    unfold has_column in Et. rewrite Et. reflexivity.
  - apply total_sales_ok. exact Et.
  - exact M.
  - exact P.
  - reflexivity.
  - intros A. rewrite M, Series_sum_groups. apply Series_sum_perm. exact P.
Qed.

(** ** Aggregation *)

(** C8: For every view, grouping column, value column and reduction, the
    table returned by the grouped aggregation has each distinct value of
    the grouping column present in the view as a key exactly once, has no
    key absent from the view, and is the empty table, not an error, for the
    empty view. *)
Theorem C8_aggregate_keys {K : Type} `{OrdKey K} `{!OrdKeyLaws K} (view : DataFrame) (key : Column K)
    (value : Column num) (op : Series num -> num) :
  has_column view (label key) = true ->
  has_column view (label value) = true ->
  exists table,
    groupby_agg view key value op = Ok table /\
    List.NoDup (map fst table) /\
    (forall k, In k (map fst table) <-> In k (map (cell key) (rows view))) /\
    (rows view = [] -> table = []).
Proof.
  intros Ek Ev.
  destruct (groupby_agg view key value op) as [m | e] eqn:G.
  - exists m. split; [reflexivity |].
    pose proof (groupby_agg_keys _ _ _ _ _ G) as Keys.
    split; [| split].
    + rewrite Keys. apply ascending_NoDup, np_unique_ascending.
    + intros k. rewrite Keys. apply np_unique_In.
    + intros E. rewrite E in Keys. cbn in Keys.
      destruct m; [reflexivity | discriminate].
  - rewrite (groupby_agg_ok view key value op Ek Ev) in G. discriminate.
Qed.

(** ** The time series *)


(** ** The top-selling pizza *)

(** The name [idxmax] reports has a computed sum that no other name
    exceeds, and is the first, in the order of the names, among the names
    whose computed sum is not below it. *)
Lemma top_pizza_first_maximum (filtered_data : DataFrame) :
  has_column filtered_data "pizza_name" = true ->
  has_column filtered_data "total_price" = true ->
  rows filtered_data <> [] ->
  ordered_on (map snd (grouped_totals pizza_name (rows filtered_data))) ->
  exists top,
    top_selling_pizza filtered_data = Ok top /\
    top_pizza_sales filtered_data =
      Ok (Val (key_total pizza_name top (rows filtered_data))) /\
    In top (map pizza_name (rows filtered_data)) /\
    (forall n, In n (map pizza_name (rows filtered_data)) ->
       num_ltb (key_total pizza_name top (rows filtered_data))
               (key_total pizza_name n (rows filtered_data)) = false) /\
    (forall n, In n (map pizza_name (rows filtered_data)) ->
       num_ltb (key_total pizza_name n (rows filtered_data))
               (key_total pizza_name top (rows filtered_data)) = false ->
       kle top n).
Proof.
  intros En Et Hne O.
  unfold top_selling_pizza, top_pizza_sales.
  rewrite (sales_per_pizza_ok filtered_data En Et). cbn [rbind].
  unfold grouped_totals in O.
  set (rs := rows filtered_data) in *.
  pose proof (np_unique_ascending (map pizza_name rs)) as Asc.
  pose proof (np_unique_In (map pizza_name rs)) as Mem.
  destruct (np_unique (map pizza_name rs)) as [| k0 ks] eqn:U.
  - exfalso. destruct rs as [| r rs']; [apply Hne; reflexivity |].
    apply (proj2 (Mem (pizza_name r))). left. reflexivity.
  - set (f := fun n => (n, key_total pizza_name n rs)) in *.
    cbn [map Series_idxmax Series_max].
    destruct (argmax_from_split (map f ks) [] (f k0) []) as (pre & post & E & Hp & Hq).
    { exact O. }
    { intros p []. }
    { intros p []. }
    cbn [app] in E.
    change ((k0, key_total pizza_name k0 rs)) with (f k0).
    set (am := argmax_from (f k0) (map f ks)) in *.
    assert (Iam : In am (map f (k0 :: ks))).
    { cbn [map]. rewrite E. apply in_or_app. right. left. reflexivity. }
    assert (Ivs : forall p, In p (map f (k0 :: ks)) -> In (snd p) (map snd (map f (k0 :: ks)))).
    { intros p I. apply in_map. exact I. }
    pose proof (Ivs am Iam) as Iams.
    apply in_map_iff in Iam. destruct Iam as (top & Etop & Itop).
    exists top.
    assert (Ftop : fst am = top) by (rewrite <- Etop; reflexivity).
    assert (Stop : snd am = key_total pizza_name top rs) by (rewrite <- Etop; reflexivity).
    split; [rewrite Ftop; reflexivity |].
    split.
    { change (Ok (Val (fold_left num_max (map snd (map f ks)) (snd (f k0)))) =
              Ok (Val (key_total pizza_name top rs))).
      rewrite Series_max_argmax. fold am. rewrite Stop. reflexivity. }
    split; [apply Mem; exact Itop |].
    assert (Where : forall n, In n (map pizza_name rs) ->
              In (snd (f n)) (map snd (map f (k0 :: ks))) /\
              (In (f n) pre \/ f n = am \/ In (f n) post)).
    { intros n I. apply Mem in I.
      assert (I' : In (f n) (map f (k0 :: ks))) by (apply in_map; exact I).
      split; [apply Ivs; exact I' |].
      cbn [map] in I'. rewrite E in I'. apply in_app_or in I'.
      destruct I' as [I' | [I' | I']]; auto. }
    assert (Irr : num_ltb (snd am) (snd am) = false).
    { destruct (num_ltb (snd am) (snd am)) eqn:L; [| reflexivity].
      rewrite (ordered_on_asym _ _ _ O Iams Iams L) in L. discriminate. }
    split.
    + intros n I. rewrite <- Stop.
      destruct (Where n I) as [In' [I' | [I' | I']]].
      * exact (ordered_on_asym _ _ _ O In' Iams (Hp _ I')).
      * rewrite <- I'. rewrite <- I' in Irr. exact Irr.
      * exact (Hq _ I').
    + intros n I T. rewrite <- Stop in T.
      destruct (Where n I) as [In' [I' | [I' | I']]].
      * specialize (Hp _ I'). cbn [snd f] in Hp, T. rewrite Hp in T. discriminate.
      * rewrite <- Etop in I'. injection I' as ->. apply kle_refl.
      * apply klt_kle.
        assert (Keys : map fst (f k0 :: map f ks) = k0 :: ks).
        { change (f k0 :: map f ks) with (map f (k0 :: ks)).
          rewrite map_map. cbn [fst f]. apply map_id. }
        rewrite E, map_app in Keys. cbn [map] in Keys.
        rewrite Ftop in Keys.
        apply (ascending_app_after (map fst pre) (map fst post) top n).
        -- rewrite Keys. exact Asc.
        -- change n with (fst (f n)). apply in_map. exact I'.
Qed.

(** ** Empty views *)


(** C1 (amended): On an empty filtered view the average unit price and the
    top pizza sales evaluate to NaN, a value that marks them undefined,
    without any exception; the top pizza name raises [ValueError], which
    [data_analysis] does not handle: the page stops there with that
    exception, having rendered its heading only and no metric.  The select
    box offers the categories of the dataset only, so the view is empty
    only when the dataset has no row. *)
Theorem C1_empty_view_metrics (data : loc) (ui : UI) (s : state) (df : DataFrame) :
  heap s !! data = Some df ->
  first_missing df ["pizza_category"; "total_price"; "unit_price"; "pizza_name"] = None ->
  rows (selected_view df ui) = [] ->
  average_price (selected_view df ui) = Ok NaN /\
  top_pizza_sales (selected_view df ui) = Ok NaN /\
  top_selling_pizza (selected_view df ui) =
    Raise (ValueError "attempt to get argmax of an empty sequence") /\
  data_analysis data ui s =
    (Raise (ValueError "attempt to get argmax of an empty sequence"),
     mkState (<[fresh (dom (heap s)) := selected_view df ui]> (heap s))
             ((out s ++ [Title "Data Analysis"]) ++ [Markdown])) /\
  rows df = [].
Proof.
  intros Hd Hm He.
  assert (Hrows : rows df = []).
  { destruct (rows df) as [| r rs] eqn:Er; [reflexivity |].
    exfalso. apply (selected_view_nonempty df ui); [rewrite Er; discriminate | exact He]. }
  pose proof (data_analysis_run data ui s df Hd) as Hrun.
  rewrite Hm, He in Hrun.
  rewrite !first_missing_cons in Hm.
  destruct (has_column df "pizza_category"); [| discriminate].
  destruct (has_column df "total_price") eqn:Et; [| discriminate].
  destruct (has_column df "unit_price") eqn:Eu; [| discriminate].
  destruct (has_column df "pizza_name") eqn:En; [| discriminate].
  split; [| split; [| split; [| split]]].
  - rewrite (average_price_ok (selected_view df ui) Eu), He. reflexivity.
  - unfold top_pizza_sales.
    rewrite (sales_per_pizza_ok (selected_view df ui) En Et), He. reflexivity.
  - apply (top_selling_pizza_empty (selected_view df ui) En Et He).
  - exact Hrun.
  - exact Hrows.
Qed.


(** ** Missing columns *)

(** C4 (amended): No schema validation takes place when the dataset is
    loaded.  [load_data] raises only when the file has an [order_date]
    column with a date pandas cannot read: then line 13 raises
    [ValueError] and nothing is bound.  Otherwise it returns, whatever
    columns the file has, bound to a new object that holds the frame with
    the columns of the file.  The column [order_date] is optional:
    without it (and with the columns a page reads) the visualization page
    runs to its end, and so does the analysis page on a dataset with at
    least one row (with no row it raises [ValueError]); neither draws a
    time series.  A data page stops with [KeyError] at the first column it
    reads that the dataset lacks: [pizza_category], [pizza_name],
    [total_price], [pizza_size] in this order on the visualization page,
    [pizza_category], [total_price], [unit_price], [pizza_name] on the
    analysis page. *)
Theorem C4_missing_columns (csv : CsvFrame) (ui : UI) (s : state) :
  let data := fresh (dom (heap s)) in
  let loaded := snd (load_data csv s) in
  (csv_has_column csv "order_date" = true -> dates_parse csv = false ->
   load_data csv s =
     (Raise (ValueError "Unknown datetime string format, unable to parse"), s)) /\
  (csv_has_column csv "order_date" = false \/ dates_parse csv = true ->
   exists df,
     loaded_frame csv = Ok df /\
     columns df = csv_columns csv /\
     (rows df = [] <-> csv_rows csv = []) /\
     load_data csv s = (Ok data, mkState (<[data := df]> (heap s)) (out s)) /\
     (forall c,
        first_missing df ["pizza_category"; "pizza_name"; "total_price"; "pizza_size"] = Some c ->
        fst (data_visualization data ui loaded) = Raise (KeyError c)) /\
     (forall c,
        first_missing df ["pizza_category"; "total_price"; "unit_price"; "pizza_name"] = Some c ->
        fst (data_analysis data ui loaded) = Raise (KeyError c)) /\
     (has_column df "order_date" = false ->
      first_missing df ["pizza_category"; "pizza_name"; "total_price"; "pizza_size"] = None ->
      fst (data_visualization data ui loaded) = Ok tt /\
      List.filter is_line_chart (out (snd (data_visualization data ui loaded))) =
      List.filter is_line_chart (out s)) /\
     (has_column df "order_date" = false ->
      first_missing df ["pizza_category"; "total_price"; "unit_price"; "pizza_name"] = None ->
      (rows df <> [] ->
       fst (data_analysis data ui loaded) = Ok tt /\
       List.filter is_line_chart (out (snd (data_analysis data ui loaded))) =
       List.filter is_line_chart (out s)) /\
      (rows df = [] ->
       fst (data_analysis data ui loaded) =
       Raise (ValueError "attempt to get argmax of an empty sequence")))).
Proof.
  intros data loaded. subst loaded. rewrite load_data_run.
  pose proof (loaded_frame_cases csv) as Cases.
  split.
  - intros Ed Ep. rewrite Ed, Ep in Cases. cbn [negb orb] in Cases.
    rewrite Cases. reflexivity.
  - intros Hl.
    assert (Hb : negb (csv_has_column csv "order_date") || dates_parse csv = true).
    { destruct Hl as [-> | ->]; [reflexivity | apply orb_true_r]. }
    rewrite Hb in Cases. destruct Cases as [df L]. rewrite L.
    destruct (loaded_frame_ok csv df L) as [Hc Hr].
    exists df. cbn [fst snd]. fold data.
    set (s1 := mkState (<[data := df]> (heap s)) (out s)).
    assert (Hd : heap s1 !! data = Some df) by apply lookup_insert_eq.
    pose proof (data_visualization_run data ui s1 df Hd) as Hv.
    pose proof (data_analysis_run data ui s1 df Hd) as Ha.
    split; [reflexivity |]. split; [exact Hc |]. split; [exact Hr |].
    split; [reflexivity |].
    split; [| split; [| split]].
    + intros c Hm. rewrite Hm in Hv. destruct Hv as [s' ->]. reflexivity.
    + intros c Hm. rewrite Hm in Ha. destruct Ha as [s' ->]. reflexivity.
    + intros Ed Hm. rewrite Hm in Hv. destruct Hv as (s' & -> & Hline).
      split; [reflexivity | exact (Hline Ed)].
    + intros Ed Hm. rewrite Hm in Ha. split.
      * intros Hne.
        pose proof (selected_view_nonempty df ui Hne) as Hv'.
        destruct (rows (selected_view df ui)); [destruct (Hv' eq_refl) |].
        destruct Ha as (s' & -> & _ & Hline).
        split; [reflexivity | exact (Hline Ed)].
      * intros He. rewrite (selected_view_empty df ui He) in Ha.
        rewrite Ha. reflexivity.
Qed.

(** ** The comparison *)

(** C10: In the comparison of several pizzas, when the selection is empty
    the step is skipped without error: no frame is created and no chart is
    rendered, only the section heading; when it is not empty, the
    comparison frame is created, every row of it has a [pizza_name] of the
    selection, and the bar chart is drawn from these rows. *)
Theorem C10_comparison_skipped_or_selected (data : loc) (ui : UI) (s : state)
    (df : DataFrame) :
  heap s !! data = Some df ->
  has_column df "pizza_name" = true ->
  has_column df "total_price" = true ->
  (selected_pizzas df ui = [] ->
     comparative_analysis data ui s =
       (Ok tt, mkState (heap s) (out s ++ [Markdown]))) /\
  (selected_pizzas df ui <> [] ->
     comparison_data df (selected_pizzas df ui) = Ok (comparison_view df ui) /\
     (forall r, In r (rows (comparison_view df ui)) ->
                In (pizza_name r) (selected_pizzas df ui)) /\
     comparative_analysis data ui s =
       (Ok tt,
        mkState (<[fresh (dom (heap s)) := comparison_view df ui]> (heap s))
                ((out s ++ [Markdown]) ++
                 [PlotlyChart
                    (Bar (map (fun r => (pizza_name r, total_price r))
                              (rows (comparison_view df ui))))]))).
Proof.
  intros Hd En Et. split.
  - intros Hc. exact (comparative_analysis_skip data ui s df Hd En Hc).
  - intros Hc. split; [| split].
    + exact (comparison_data_ok df (selected_pizzas df ui) En).
    + intros r I. exact (comparison_rows_selected df (selected_pizzas df ui) r I).
    + exact (comparative_analysis_chart data ui s df Hd En Et Hc).
Qed.

(** ** The dataset is never written to *)

(** C9: No operation of the pages mutates the dataset: after any sequence
    of page runs, returned or raised, the object bound to [data] is the
    frame it was when the sequence began; the filtered views are new
    frames, and building and using them leaves the rows of the dataset
    unchanged. *)
Theorem C9_dataset_never_mutated (data : loc) (uis : list UI) (s : state)
    (df : DataFrame) :
  heap s !! data = Some df ->
  heap (session data uis s) !! data = Some df.
Proof.
  intros Hd.
  apply (lookup_weaken (heap s) (heap (session data uis s)) data df Hd).
  apply keeps_session. reflexivity.
Qed.


(** * Further properties of the script *)

(** ** More on the category filter *)

Lemma filter_category_inv (data : DataFrame) (value : option string) (view : DataFrame) :
  filter_category data value = Ok view ->
  has_column data "pizza_category" = true /\
  view = mkDataFrame (columns data) (List.filter (category_is value) (rows data)).
Proof.
  intros E. destruct (has_column data "pizza_category") eqn:Ec.
  - rewrite (filter_category_ok data value Ec) in E. injection E as <-.
    split; reflexivity.
  - unfold filter_category in E.
    rewrite (getitem_missing data col_pizza_category Ec) in E. discriminate.
Qed.

Lemma filter_same_twice {A} (f : A -> bool) (l : list A) :
  List.filter f (List.filter f l) = List.filter f l.
Proof.
  induction l as [| x l IH]; cbn [List.filter].
  - reflexivity.
  - destruct (f x) eqn:E; cbn [List.filter]; rewrite ?E, IH; reflexivity.
Qed.

Lemma filter_none {A} (f : A -> bool) (l : list A) :
  (forall x, In x l -> f x = false) -> List.filter f l = [].
Proof.
  induction l as [| x l IH]; intros N; cbn [List.filter].
  - reflexivity.
  - rewrite (N x (or_introl eq_refl)). apply IH.
    intros y I. apply N. right. exact I.
Qed.

Lemma filter_all {A} (f : A -> bool) (l : list A) :
  (forall x, In x l -> f x = true) -> List.filter f l = l.
Proof.
  induction l as [| x l IH]; intros N; cbn [List.filter].
  - reflexivity.
  - rewrite (N x (or_introl eq_refl)). f_equal. apply IH.
    intros y I. apply N. right. exact I.
Qed.

(** X1: Filtering is idempotent: the category filter applied to a view it
    has produced, with the same value, returns that view again. *)
Theorem filter_category_idempotent (data : DataFrame) (value : option string)
    (view : DataFrame) :
  filter_category data value = Ok view ->
  filter_category view value = Ok view.
Proof.
  intros E. apply filter_category_inv in E. destruct E as [Ec ->].
  rewrite filter_category_ok by exact Ec.
  cbn [columns rows]. rewrite filter_same_twice. reflexivity.
Qed.

(** X2: Filtering by a value that no row of the dataset has in its
    [pizza_category] column (the [None] of an empty select box included)
    raises nothing: it returns the view with the columns of the dataset and
    no row. *)
Theorem filter_category_absent_value (data : DataFrame) (value : option string) :
  has_column data "pizza_category" = true ->
  (forall r, In r (rows data) -> Some (pizza_category r) <> value) ->
  filter_category data value = Ok (mkDataFrame (columns data) []).
Proof.
  intros Ec N. rewrite (filter_category_ok data value Ec). do 2 f_equal.
  apply filter_none. intros r I. specialize (N r I).
  destruct value as [v |]; cbn [category_is]; [| reflexivity].
  destruct (String.eqb_spec (pizza_category r) v) as [E | _]; [| reflexivity].
  destruct N. rewrite E. reflexivity.
Qed.

(** X3: The options of the category select box are the categories that
    occur in the dataset, each once, in ascending order. *)
Theorem category_options_sorted_distinct (data : DataFrame) :
  has_column data "pizza_category" = true ->
  exists options,
    category_options data = Ok options /\
    StronglySorted String_as_OT.lt options /\
    List.NoDup options /\
    (forall c, In c options <-> In c (map pizza_category (rows data))).
Proof.
  intros Ec. eexists. split; [apply (category_options_ok data Ec) |].
  split; [| split].
  - exact (np_unique_ascending (map pizza_category (rows data))).
  - apply ascending_NoDup, np_unique_ascending.
  - intros c. apply np_unique_In.
Qed.

(** X4: On a dataset with at least one row the category select box
    returns a category of the dataset whatever the user picks, and the
    filtered view, a new frame, is not empty: it holds the rows of exactly
    that category. *)
Theorem selected_view_of_one_category (data : loc) (ui : UI) (s : state)
    (df : DataFrame) :
  heap s !! data = Some df ->
  has_column df "pizza_category" = true ->
  rows df <> [] ->
  exists options c view,
    category_options df = Ok options /\
    st_selectbox options (ui_category ui) = Some c /\
    In c (map pizza_category (rows df)) /\
    filter_category df (Some c) = Ok view /\
    rows view <> [] /\
    (forall r, In r (rows view) <-> In r (rows df) /\ pizza_category r = c) /\
    select_category data ui s =
      (Ok (Some c, fresh (dom (heap s))),
       mkState (<[fresh (dom (heap s)) := view]> (heap s)) (out s)).
Proof.
  intros Hd Ec N.
  destruct (st_selectbox_nonempty (np_unique (map pizza_category (rows df))) (ui_category ui))
    as [c Es].
  { apply np_unique_nonempty. destruct (rows df); [destruct (N eq_refl) | discriminate]. }
  pose proof (selected_view_nonempty df ui N) as Hv.
  pose proof (select_category_run data ui s df Hd Ec) as Hrun.
  unfold selected_view, selected_category in Hv, Hrun. rewrite Es in Hv, Hrun.
  exists (np_unique (map pizza_category (rows df))), c,
         (mkDataFrame (columns df) (List.filter (category_is (Some c)) (rows df))).
  split; [apply category_options_ok; exact Ec |].
  split; [exact Es |].
  split; [apply (proj1 (np_unique_In _ _)); exact (st_selectbox_In _ _ _ Es) |].
  split; [apply filter_category_ok; exact Ec |].
  split; [exact Hv |].
  split; [| exact Hrun].
  intros r. cbn [rows]. rewrite filter_In. cbn [category_is].
  rewrite String.eqb_eq. reflexivity.
Qed.

(** ** More on the comparison *)

Lemma Series_unique_In (s : Series string) (x : string) :
  In x (Series_unique s) <-> In x s.
Proof.
  induction s as [| c s IH]; cbn [Series_unique In].
  - reflexivity.
  - rewrite filter_In, IH. split.
    + intros [E | [I _]]; [left; exact E | right; exact I].
    + intros [E | I]; [left; exact E |].
      destruct (String.eqb_spec x c) as [E | N]; [left; symmetry; exact E | right].
      split; [exact I | reflexivity].
Qed.

Lemma Series_unique_NoDup (s : Series string) : List.NoDup (Series_unique s).
Proof.
  induction s as [| c s IH]; cbn [Series_unique].
  - constructor.
  - constructor.
    + intros I. apply filter_In in I. destruct I as [_ I].
      rewrite String.eqb_refl in I. discriminate.
    + apply List.NoDup_filter. exact IH.
Qed.

Lemma Series_unique_sublist (s : Series string) : sublist (Series_unique s) s.
Proof.
  induction s as [| c s IH]; cbn [Series_unique].
  - constructor.
  - constructor. etransitivity; [apply filter_sublist | exact IH].
Qed.

(** X5: The options of the comparison multi-select are the pizza names of
    the dataset, each once, in the order in which they first appear; what
    the multi-select returns are the ticked entries that are such names. *)
Theorem compare_options_distinct_names (df : DataFrame) (ui : UI) :
  has_column df "pizza_name" = true ->
  exists options,
    compare_options df = Ok options /\
    List.NoDup options /\
    (forall n, In n options <-> In n (map pizza_name (rows df))) /\
    sublist options (map pizza_name (rows df)) /\
    (forall n, In n (selected_pizzas df ui) <->
               In n (ui_compare ui) /\ In n (map pizza_name (rows df))).
Proof.
  intros En. eexists. split; [apply (compare_options_ok df En) |].
  split; [| split; [| split]].
  - apply Series_unique_NoDup.
  - intros n. apply Series_unique_In.
  - apply Series_unique_sublist.
  - intros n. unfold selected_pizzas, st_multiselect.
    rewrite filter_In, existsb_exists. split.
    + intros (I & m & Im & E). apply String.eqb_eq in E. subst m.
      split; [exact I | apply Series_unique_In; exact Im].
    + intros (I & Im). split; [exact I |].
      exists n. split; [apply Series_unique_In; exact Im | apply String.eqb_refl].
Qed.

(** X6: The comparison frame holds exactly the dataset rows whose
    [pizza_name] is in the selection, in the order of the dataset; when
    every name of the dataset is selected it is the whole dataset. *)
Theorem comparison_data_exact_stable (df : DataFrame) (compare : list string) :
  has_column df "pizza_name" = true ->
  exists view,
    comparison_data df compare = Ok view /\
    (forall r, In r (rows view) <-> In r (rows df) /\ In (pizza_name r) compare) /\
    sublist (rows view) (rows df) /\
    ((forall r, In r (rows df) -> In (pizza_name r) compare) -> view = df).
Proof.
  intros En. eexists. split; [apply (comparison_data_ok df compare En) |].
  cbn [rows]. split; [| split].
  - intros r. rewrite filter_In, existsb_exists. split.
    + intros (I & n & In' & E). apply String.eqb_eq in E. subst n. split; assumption.
    + intros (I & In'). split; [exact I |].
      exists (pizza_name r). split; [exact In' | apply String.eqb_refl].
  - apply filter_sublist.
  - intros All. rewrite filter_all.
    + destruct df. reflexivity.
    + intros r I. apply existsb_exists. exists (pizza_name r).
      split; [exact (All r I) | apply String.eqb_refl].
Qed.

(** ** More on the grouped tables *)

Lemma groupby_total_price_table {K} `{OrdKey K} `{!OrdKeyLaws K} (df : DataFrame)
    (key : Column K) :
  has_column df (label key) = true ->
  has_column df "total_price" = true ->
  groupby_total_price df key = Ok (grouped_totals (cell key) (rows df)).
Proof.
  intros Ek Et. rewrite groupby_total_price_cases, Ek, Et. reflexivity.
Qed.

(** The cells summed in the groups of a table are the cells of the
    column. *)
Lemma grouped_totals_cells {K} `{OrdKey K} `{!OrdKeyLaws K} (key : Row -> K) (rs : list Row) :
  map snd (grouped_totals key rs) =
  map group_sum (map (fun kg => map total_price (snd kg)) (group_rows key rs)) /\
  Permutation (concat (map (fun kg => map total_price (snd kg)) (group_rows key rs)))
              (map total_price rs).
Proof.
  split.
  - rewrite group_rows_classes. unfold grouped_totals. rewrite !map_map. reflexivity.
  - rewrite <- (map_map snd (map total_price)), <- concat_map.
    apply Permutation_map. apply group_rows_partition.
Qed.

Lemma grouped_totals_sum {K} `{OrdKey K} `{!OrdKeyLaws K} `{!AdditiveNumber num}
    (key : Row -> K) (rs : list Row) :
  Series_sum (map snd (grouped_totals key rs)) = Series_sum (map total_price rs).
Proof.
  destruct (grouped_totals_cells key rs) as [-> P].
  rewrite Series_sum_groups. apply Series_sum_perm. exact P.
Qed.

(** X7: For every key column, the table of the grouped sums of
    [total_price] lists its keys in strictly ascending order, and pairs a
    key with a value exactly when the key occurs in the frame and the value
    is the sum pandas computes of the [total_price] cells of the rows with
    that key, taken in the order of the frame. *)
Theorem grouped_table_entries {K : Type} `{OrdKey K} `{!OrdKeyLaws K} (df : DataFrame)
    (key : Column K) :
  has_column df (label key) = true ->
  has_column df "total_price" = true ->
  exists table,
    groupby_total_price df key = Ok table /\
    ascending (map fst table) /\
    (forall k v, In (k, v) table <->
                 In k (map (cell key) (rows df)) /\
                 v = key_total (cell key) k (rows df)).
Proof.
  intros Ek Et. eexists. split; [apply (groupby_total_price_table df key Ek Et) |].
  unfold grouped_totals. split.
  - rewrite map_map. cbn [fst]. rewrite map_id. apply np_unique_ascending.
  - intros k v. rewrite in_map_iff. split.
    + intros (k' & E & I). injection E as <- <-.
      split; [apply (proj1 (np_unique_In _ _)); exact I | reflexivity].
    + intros (I & ->). exists k. split; [reflexivity | apply np_unique_In; exact I].
Qed.

(** X8: When the sums of the number type depend neither on the order of
    the cells nor on their grouping, as with [int64], the three charts of
    a view split the same total: the sums per pizza, the sums per size and
    the sums per timestamp each add up to the total sales of the view. *)
Theorem chart_tables_share_the_total `{!AdditiveNumber num} (fd : DataFrame) :
  has_schema fd = true ->
  exists by_pizza by_size over_time total,
    total_sales_by_pizza fd = Ok by_pizza /\
    sales_by_size fd = Ok by_size /\
    sales_over_time fd = Ok over_time /\
    total_sales fd = Ok total /\
    Series_sum (map snd by_pizza) = total /\
    Series_sum (map snd by_size) = total /\
    Series_sum (map snd over_time) = total.
Proof.
  intros Hs. unfold has_schema, schema in Hs. cbn [forallb] in Hs.
  repeat (apply andb_prop in Hs; destruct Hs as [? Hs]).
  exists (grouped_totals pizza_name (rows fd)), (grouped_totals pizza_size (rows fd)),
         (grouped_totals order_date (rows fd)), (Series_sum (map total_price (rows fd))).
  split; [apply (groupby_total_price_table fd col_pizza_name); assumption |].
  split; [apply (groupby_total_price_table fd col_pizza_size); assumption |].
  split; [apply (groupby_total_price_table fd col_order_date); assumption |].
  split; [apply total_sales_ok; assumption |].
  rewrite !grouped_totals_sum. repeat split.
Qed.

(** ** More on the metrics *)

Lemma argmax_from_greatest {K} (kv : K * num) (s : IndexedSeries K) :
  ordered_on (map snd (kv :: s)) ->
  In (argmax_from kv s) (kv :: s) /\
  (forall p, In p (kv :: s) -> num_ltb (snd (argmax_from kv s)) (snd p) = false).
Proof.
  intros O.
  destruct (argmax_from_split s [] kv []) as (pre & post & E & Hp & Hq).
  { exact O. }
  { intros p []. }
  { intros p []. }
  cbn [app] in E.
  assert (Ia : In (argmax_from kv s) (kv :: s)).
  { rewrite E. apply in_or_app. right. left. reflexivity. }
  split; [exact Ia |].
  intros p I.
  pose proof (in_map snd _ _ Ia) as Ias. pose proof (in_map snd _ _ I) as Ips.
  rewrite E in I. apply in_app_or in I. destruct I as [I | [<- | I]].
  - exact (ordered_on_asym _ _ _ O Ips Ias (Hp p I)).
  - destruct (num_ltb (snd (argmax_from kv s)) (snd (argmax_from kv s))) eqn:L;
      [| reflexivity].
    rewrite (ordered_on_asym _ _ _ O Ias Ias L) in L. discriminate.
  - exact (Hq p I).
Qed.

Lemma total_sales_by_pizza_per_pizza (fd : DataFrame) (table : IndexedSeries string) :
  sales_per_pizza fd = Ok table -> total_sales_by_pizza fd = Ok table.
Proof.
  intros E. unfold total_sales_by_pizza, groupby_total_price.
  fold (sales_per_pizza fd). rewrite E. reflexivity.
Qed.

Lemma top_pizza_defined (fd : DataFrame) :
  has_column fd "pizza_name" = true ->
  has_column fd "total_price" = true ->
  rows fd <> [] ->
  exists top sales,
    top_selling_pizza fd = Ok top /\ top_pizza_sales fd = Ok (Val sales).
Proof.
  intros En Et Hne. unfold top_selling_pizza, top_pizza_sales.
  rewrite (sales_per_pizza_ok fd En Et). cbn [rbind].
  destruct (np_unique (map pizza_name (rows fd))) as [| k ks] eqn:U.
  - exfalso. apply (np_unique_nonempty (map pizza_name (rows fd))); [| exact U].
    destruct (rows fd); [destruct (Hne eq_refl) | discriminate].
  - cbn [map Series_idxmax Series_max]. eexists. eexists. split; reflexivity.
Qed.

Lemma top_pizza_in_table (fd : DataFrame) :
  has_column fd "pizza_name" = true ->
  has_column fd "total_price" = true ->
  rows fd <> [] ->
  ordered_on (map snd (grouped_totals pizza_name (rows fd))) ->
  exists top sales,
    top_selling_pizza fd = Ok top /\
    top_pizza_sales fd = Ok (Val sales) /\
    In (top, sales) (grouped_totals pizza_name (rows fd)) /\
    (forall n v, In (n, v) (grouped_totals pizza_name (rows fd)) ->
                 num_ltb sales v = false).
Proof.
  intros En Et Hne O. unfold top_selling_pizza, top_pizza_sales.
  rewrite (sales_per_pizza_ok fd En Et). cbn [rbind].
  fold (grouped_totals pizza_name (rows fd)).
  destruct (grouped_totals pizza_name (rows fd)) as [| [k0 v0] s] eqn:G.
  - exfalso. apply (np_unique_nonempty (map pizza_name (rows fd))).
    + destruct (rows fd); [destruct (Hne eq_refl) | discriminate].
    + unfold grouped_totals in G. destruct (np_unique (map pizza_name (rows fd)));
        [reflexivity | discriminate].
  - cbn [Series_idxmax Series_max].
    destruct (argmax_from_greatest (k0, v0) s O) as [I M].
    exists (fst (argmax_from (k0, v0) s)), (snd (argmax_from (k0, v0) s)).
    split; [reflexivity |]. split.
    + change v0 with (snd (k0, v0)) at 1. rewrite Series_max_argmax. reflexivity.
    + split.
      * rewrite <- surjective_pairing. exact I.
      * intros n v Inv. exact (M (n, v) Inv).
Qed.

(** The top-selling pizza and its sales are one of the bars of the
    sales-by-pizza chart, and no bar is higher. *)
Lemma top_pizza_highest (fd : DataFrame) :
  has_column fd "pizza_name" = true ->
  has_column fd "total_price" = true ->
  rows fd <> [] ->
  ordered_on (map snd (grouped_totals pizza_name (rows fd))) ->
  exists top sales bars,
    top_selling_pizza fd = Ok top /\
    top_pizza_sales fd = Ok (Val sales) /\
    total_sales_by_pizza fd = Ok bars /\
    In (top, sales) bars /\
    (forall n v, In (n, v) bars -> num_ltb sales v = false).
Proof.
  intros En Et Hne O.
  destruct (top_pizza_in_table fd En Et Hne O) as (top & sales & E1 & E2 & I & M).
  exists top, sales, (grouped_totals pizza_name (rows fd)).
  split; [exact E1 |]. split; [exact E2 |]. split; [| split; [exact I | exact M]].
  apply total_sales_by_pizza_per_pizza. apply (sales_per_pizza_ok fd En Et).
Qed.

(** ** What the pages render *)

Lemma sales_charts_render (l : loc) (fd : DataFrame) (s : state) :
  heap s !! l = Some fd ->
  has_column fd "pizza_name" = true ->
  has_column fd "total_price" = true ->
  has_column fd "pizza_size" = true ->
  sales_charts l s =
    (Ok tt,
     mkState (heap s)
       ((out s ++ [PlotlyChart (Bar (grouped_totals pizza_name (rows fd)))])
        ++ [PlotlyChart (Pie (grouped_totals pizza_size (rows fd)))])).
Proof.
  intros Hl En Et Es. unfold sales_charts.
  run_deref.
  run_lift (groupby_total_price_table fd col_pizza_name En Et
            : total_sales_by_pizza fd = _).
  run_emit. run_deref.
  run_lift (groupby_total_price_table fd col_pizza_size Es Et
            : sales_by_size fd = _).
  reflexivity.
Qed.

Lemma sales_trend_render (l : loc) (fd : DataFrame) (s : state) :
  heap s !! l = Some fd ->
  has_column fd "order_date" = true ->
  has_column fd "total_price" = true ->
  sales_trend l s =
    (Ok tt,
     mkState (heap s)
       (out s ++ [PlotlyChart (Line (grouped_totals order_date (rows fd)))])).
Proof.
  intros Hl Ed Et.
  assert (Hi : <[l := fd]> (heap s) = heap s) by (apply insert_id; exact Hl).
  unfold sales_trend.
  run_deref. run_lift (getitem_ok fd col_order_date Ed).
  run_with ltac:(eapply store_setitem_run; [lookup | apply (setitem_to_datetime fd Ed)]).
  run_deref.
  run_lift (groupby_total_price_table fd col_order_date Ed Et
            : sales_over_time fd = _).
  rewrite emit_run. cbn [heap out]. rewrite Hi. reflexivity.
Qed.

Lemma metric_cards_render (l : loc) (fd : DataFrame) (s : state)
    (top : string) (sales : scalar num) :
  heap s !! l = Some fd ->
  has_column fd "total_price" = true ->
  has_column fd "unit_price" = true ->
  top_selling_pizza fd = Ok top ->
  top_pizza_sales fd = Ok sales ->
  metric_cards l s =
    (Ok tt,
     mkState (heap s)
       ((((out s
           ++ [MetricMoney "Total Sales" (Series_sum (map total_price (rows fd)))])
           ++ [MetricMean "Average Price" (Series_mean (map unit_price (rows fd)))])
           ++ [MetricText "Top Selling Pizza" top])
           ++ [MetricMax "Top Pizza Sales" sales])).
Proof.
  intros Hl Et Eu Etop Esales. unfold metric_cards.
  run_deref. run_lift (total_sales_ok fd Et).
  run_deref. run_lift (average_price_ok fd Eu).
  run_deref. run_lift Etop.
  run_deref. run_lift Esales.
  run_emit. run_emit. run_emit.
  rewrite emit_run. cbn [heap out]. reflexivity.
Qed.

Lemma first_missing_None_4 (df : DataFrame) (a b c d : string) :
  first_missing df [a; b; c; d] = None ->
  has_column df a = true /\ has_column df b = true /\
  has_column df c = true /\ has_column df d = true.
Proof.
  rewrite !first_missing_cons.
  destruct (has_column df a); [| discriminate].
  destruct (has_column df b); [| discriminate].
  destruct (has_column df c); [| discriminate].
  destruct (has_column df d); [| discriminate].
  intros _. repeat split.
Qed.

Lemma data_visualization_render (data : loc) (ui : UI) (s : state) (df : DataFrame) :
  heap s !! data = Some df ->
  first_missing df ["pizza_category"; "pizza_name"; "total_price"; "pizza_size"] = None ->
  data_visualization data ui s =
    (Ok tt,
     mkState (<[fresh (dom (heap s)) := selected_view df ui]> (heap s))
             (out s ++ visualization_widgets df ui)).
Proof.
  intros Hd Hm.
  destruct (first_missing_None_4 df _ _ _ _ Hm) as (Ec & En & Et & Es).
  unfold visualization_widgets. cbv zeta.
  destruct (has_column df "order_date") eqn:Ed; destruct (ui_show_table ui) eqn:Eshow.
  - etransitivity.
    { unfold data_visualization.
      run_emit. run_emit. run_emit.
      run_with ltac:(apply (select_category_run data ui _ df); [lookup | exact Ec]).
      cbn [fst snd].
      run_with ltac:(eapply sales_charts_render; [lookup | exact En | exact Et | exact Es]).
      run_deref. rewrite Ed.
      run_with ltac:(eapply sales_trend_render; [lookup | exact Ed | exact Et]).
      rewrite Eshow. run_with ltac:(run_deref; apply emit_run).
      run_emit. run_deref. apply emit_run. }
    cbn [heap out]. f_equal. f_equal. rewrite <- !app_assoc. reflexivity.
  - etransitivity.
    { unfold data_visualization.
      run_emit. run_emit. run_emit.
      run_with ltac:(apply (select_category_run data ui _ df); [lookup | exact Ec]).
      cbn [fst snd].
      run_with ltac:(eapply sales_charts_render; [lookup | exact En | exact Et | exact Es]).
      run_deref. rewrite Ed.
      run_with ltac:(eapply sales_trend_render; [lookup | exact Ed | exact Et]).
      rewrite Eshow. run_with ltac:(reflexivity).
      run_emit. run_deref. apply emit_run. }
    cbn [heap out]. f_equal. f_equal. rewrite <- !app_assoc. reflexivity.
  - etransitivity.
    { unfold data_visualization.
      run_emit. run_emit. run_emit.
      run_with ltac:(apply (select_category_run data ui _ df); [lookup | exact Ec]).
      cbn [fst snd].
      run_with ltac:(eapply sales_charts_render; [lookup | exact En | exact Et | exact Es]).
      run_deref. rewrite Ed. run_with ltac:(reflexivity).
      rewrite Eshow. run_with ltac:(run_deref; apply emit_run).
      run_emit. run_deref. apply emit_run. }
    cbn [heap out]. f_equal. f_equal. rewrite <- !app_assoc. reflexivity.
  - etransitivity.
    { unfold data_visualization.
      run_emit. run_emit. run_emit.
      run_with ltac:(apply (select_category_run data ui _ df); [lookup | exact Ec]).
      cbn [fst snd].
      run_with ltac:(eapply sales_charts_render; [lookup | exact En | exact Et | exact Es]).
      run_deref. rewrite Ed. run_with ltac:(reflexivity).
      rewrite Eshow. run_with ltac:(reflexivity).
      run_emit. run_deref. apply emit_run. }
    cbn [heap out]. f_equal. f_equal. rewrite <- !app_assoc. reflexivity.
Qed.

Lemma data_analysis_render (data : loc) (ui : UI) (s : state) (df : DataFrame)
    (top : string) (sales : scalar num) :
  heap s !! data = Some df ->
  first_missing df ["pizza_category"; "total_price"; "unit_price"; "pizza_name"] = None ->
  top_selling_pizza (selected_view df ui) = Ok top ->
  top_pizza_sales (selected_view df ui) = Ok sales ->
  data_analysis data ui s =
    (Ok tt,
     mkState (analysis_store df ui (heap s)) (out s ++ analysis_widgets df ui top sales)).
Proof.
  intros Hd Hm Etop Esales.
  destruct (first_missing_None_4 df _ _ _ _ Hm) as (Ec & Et & Eu & En).
  unfold analysis_widgets, analysis_store. cbv zeta.
  destruct (has_column df "order_date") eqn:Ed;
    destruct (selected_pizzas df ui) as [| c cs] eqn:Esel.
  - etransitivity.
    { unfold data_analysis.
      run_emit. run_emit.
      run_with ltac:(apply (select_category_run data ui _ df); [lookup | exact Ec]).
      cbn [fst snd].
      run_with ltac:(eapply metric_cards_render;
                     [lookup | exact Et | exact Eu | exact Etop | exact Esales]).
      run_deref. rewrite Ed.
      run_with ltac:(run_emit; eapply sales_trend_render; [lookup | exact Ed | exact Et]).
      run_with ltac:(apply (comparative_analysis_skip data ui _ df);
                     [lookup | exact En | exact Esel]).
      run_emit. run_emit. run_deref. apply emit_run. }
    cbn [heap out]. f_equal. f_equal. rewrite <- !app_assoc. reflexivity.
  - etransitivity.
    { unfold data_analysis.
      run_emit. run_emit.
      run_with ltac:(apply (select_category_run data ui _ df); [lookup | exact Ec]).
      cbn [fst snd].
      run_with ltac:(eapply metric_cards_render;
                     [lookup | exact Et | exact Eu | exact Etop | exact Esales]).
      run_deref. rewrite Ed.
      run_with ltac:(run_emit; eapply sales_trend_render; [lookup | exact Ed | exact Et]).
      run_with ltac:(apply (comparative_analysis_chart data ui _ df);
                     [lookup | exact En | exact Et | rewrite Esel; discriminate]).
      run_emit. run_emit. run_deref. apply emit_run. }
    cbn [heap out]. f_equal. f_equal. rewrite <- !app_assoc. reflexivity.
  - etransitivity.
    { unfold data_analysis.
      run_emit. run_emit.
      run_with ltac:(apply (select_category_run data ui _ df); [lookup | exact Ec]).
      cbn [fst snd].
      run_with ltac:(eapply metric_cards_render;
                     [lookup | exact Et | exact Eu | exact Etop | exact Esales]).
      run_deref. rewrite Ed. run_with ltac:(reflexivity).
      run_with ltac:(apply (comparative_analysis_skip data ui _ df);
                     [lookup | exact En | exact Esel]).
      run_emit. run_emit. run_deref. apply emit_run. }
    cbn [heap out]. f_equal. f_equal. rewrite <- !app_assoc. reflexivity.
  - etransitivity.
    { unfold data_analysis.
      run_emit. run_emit.
      run_with ltac:(apply (select_category_run data ui _ df); [lookup | exact Ec]).
      cbn [fst snd].
      run_with ltac:(eapply metric_cards_render;
                     [lookup | exact Et | exact Eu | exact Etop | exact Esales]).
      run_deref. rewrite Ed. run_with ltac:(reflexivity).
      run_with ltac:(apply (comparative_analysis_chart data ui _ df);
                     [lookup | exact En | exact Et | rewrite Esel; discriminate]).
      run_emit. run_emit. run_deref. apply emit_run. }
    cbn [heap out]. f_equal. f_equal. rewrite <- !app_assoc. reflexivity.
Qed.

(** X12: On a dataset that has the four columns the visualization page
    reads, the page returns for every user input, also on a dataset with no
    row; it creates exactly one object, the filtered view, which the date
    conversion leaves as it was filtered, and it appends to the page the
    heading, the bar chart of the sums per pizza, the pie chart of the sums
    per size, the line chart of the sums per date when the dataset has
    dates, the table when asked for, and the download button that offers
    the filtered view under the name of the category. *)
Theorem visualization_page_renders (data : loc) (ui : UI) (s : state) (df : DataFrame) :
  heap s !! data = Some df ->
  first_missing df ["pizza_category"; "pizza_name"; "total_price"; "pizza_size"] = None ->
  data_visualization data ui s =
    (Ok tt,
     mkState (<[fresh (dom (heap s)) := selected_view df ui]> (heap s))
             (out s ++ visualization_widgets df ui)).
Proof.
  intros Hd Hm. apply (data_visualization_render data ui s df).
  - exact Hd.
  - exact Hm.
Qed.

(** X13: On a dataset with at least one row that has the four columns the
    analysis page reads, the page returns for every user input: the top
    pizza and its sales are defined, the store gains the filtered view and,
    when pizzas are selected, the comparison frame, and the page shows the
    heading, the four metric cards (the total, the mean unit price, the top
    pizza and its sales), the daily line chart when the dataset has dates,
    the comparison chart when pizzas are selected, and the download button
    that offers the filtered view. *)
Theorem analysis_page_renders (data : loc) (ui : UI) (s : state) (df : DataFrame) :
  heap s !! data = Some df ->
  first_missing df ["pizza_category"; "total_price"; "unit_price"; "pizza_name"] = None ->
  rows df <> [] ->
  exists top sales,
    top_selling_pizza (selected_view df ui) = Ok top /\
    top_pizza_sales (selected_view df ui) = Ok (Val sales) /\
    data_analysis data ui s =
      (Ok tt,
       mkState (analysis_store df ui (heap s))
               (out s ++ analysis_widgets df ui top (Val sales))).
Proof.
  intros Hd Hm Hne.
  destruct (first_missing_None_4 df _ _ _ _ Hm) as (_ & Et & _ & En).
  destruct (top_pizza_defined (selected_view df ui) En Et (selected_view_nonempty df ui Hne))
    as (top & sales & Etop & Esales).
  exists top, sales. split; [exact Etop |]. split; [exact Esales |].
  exact (data_analysis_render data ui s df top (Val sales) Hd Hm Etop Esales).
Qed.

(** X14: The analysis page renders its metric cards all together or not at
    all: whenever it raises, for a missing column or for an empty view, it
    has rendered its heading and nothing else. *)
Theorem analysis_page_all_or_nothing (data : loc) (ui : UI) (s : state) (df : DataFrame) :
  heap s !! data = Some df ->
  is_ok (fst (data_analysis data ui s)) = false ->
  out (snd (data_analysis data ui s)) = out s ++ [Title "Data Analysis"; Markdown].
Proof.
  intros Hd Hfail.
  assert (Hout : forall h, out (mkState h ((out s ++ [Title "Data Analysis"]) ++ [Markdown]))
                           = out s ++ [Title "Data Analysis"; Markdown]).
  { intros h. cbn [out]. rewrite <- app_assoc. reflexivity. }
  destruct (has_column df "pizza_category") eqn:Ec.
  - set (s0 := mkState (heap s) ((out s ++ [Title "Data Analysis"]) ++ [Markdown])).
    set (l := fresh (dom (heap s))).
    set (s1 := mkState (<[l := selected_view df ui]> (heap s)) (out s0)).
    assert (Hsel : select_category data ui s0 = (Ok (selected_category df ui, l), s1)).
    { apply (select_category_run data ui s0 df); [exact Hd | exact Ec]. }
    assert (Hl : heap s1 !! l = Some (selected_view df ui)) by apply lookup_insert_eq.
    pose proof (metric_cards_run l (selected_view df ui) s1 Hl) as Hmc.
    rewrite (first_missing_same (selected_view df ui) df) in Hmc by reflexivity.
    assert (Hstop : forall e, metric_cards l s1 = (Raise e, s1) ->
                              data_analysis data ui s = (Raise e, s1)).
    { intros e He. unfold data_analysis.
      run_emit. run_emit. run_with ltac:(exact Hsel).
      cbn [fst snd]. etransitivity; [apply bind_raise_run; exact He |]. reflexivity. }
    destruct (first_missing df ["total_price"; "unit_price"; "pizza_name"]) as [c |] eqn:Em.
    + rewrite (Hstop _ Hmc). apply Hout.
    + destruct (rows (selected_view df ui)) as [| r rs] eqn:Er.
      * rewrite (Hstop _ Hmc). apply Hout.
      * exfalso.
        pose proof (data_analysis_run data ui s df Hd) as Hrun.
        rewrite first_missing_cons, Ec, Em, Er in Hrun.
        destruct Hrun as (s' & Hrun & _). rewrite Hrun in Hfail. discriminate.
  - assert (Hrun : data_analysis data ui s =
                   (Raise (KeyError "pizza_category"),
                    mkState (heap s) ((out s ++ [Title "Data Analysis"]) ++ [Markdown]))).
    { unfold data_analysis. run_emit. run_emit.
      etransitivity;
        [apply bind_raise_run; apply (select_category_missing data ui _ df);
         [exact Hd | exact Ec] |].
      reflexivity. }
    rewrite Hrun. apply Hout.
Qed.

(** X15: On a dataset that has the columns the analysis page reads, the
    page returns exactly when the dataset has at least one row; on the
    dataset with no row it raises [ValueError]. *)
Theorem analysis_page_returns_iff_rows (data : loc) (ui : UI) (s : state) (df : DataFrame) :
  heap s !! data = Some df ->
  first_missing df ["pizza_category"; "total_price"; "unit_price"; "pizza_name"] = None ->
  (fst (data_analysis data ui s) = Ok tt <-> rows df <> []) /\
  (rows df = [] ->
   fst (data_analysis data ui s) =
     Raise (ValueError "attempt to get argmax of an empty sequence")).
Proof.
  intros Hd Hm.
  pose proof (data_analysis_run data ui s df Hd) as Hrun. rewrite Hm in Hrun.
  assert (Hempty : rows df = [] ->
            fst (data_analysis data ui s) =
              Raise (ValueError "attempt to get argmax of an empty sequence")).
  { intros E. rewrite (selected_view_empty df ui E) in Hrun. rewrite Hrun. reflexivity. }
  split; [| exact Hempty]. split.
  - intros Hok E. rewrite (Hempty E) in Hok. discriminate.
  - intros Hne. pose proof (selected_view_nonempty df ui Hne) as Hv.
    destruct (rows (selected_view df ui)); [destruct (Hv eq_refl) |].
    destruct Hrun as (s' & -> & _). reflexivity.
Qed.

Lemma home_page_run (s : state) :
  home_page s =
    (Ok tt,
     mkState (heap s)
       (out s ++ [Title "Pizza Sales Dashboard"; Markdown; Markdown;
                  Image "Explore Pizza Data"; Markdown; Markdown])).
Proof.
  unfold home_page.
  run_emit. run_emit. run_emit. run_emit. run_emit.
  rewrite emit_run. cbn [heap out]. rewrite <- !app_assoc. reflexivity.
Qed.

Lemma has_schema_columns (df : DataFrame) :
  has_schema df = true ->
  has_column df "pizza_category" = true /\ has_column df "pizza_name" = true /\
  has_column df "pizza_size" = true /\ has_column df "unit_price" = true /\
  has_column df "total_price" = true /\ has_column df "order_date" = true.
Proof.
  unfold has_schema, schema. cbn [forallb]. intros Hs.
  repeat (apply andb_prop in Hs; destruct Hs as [? Hs]).
  repeat split; assumption.
Qed.

(** X16: On a file with the six columns of the schema the whole script,
    the load and the page chosen in the side bar, returns exactly when
    every date of the file can be read and, for the analysis page, the
    file has at least one row; the user input plays no other part. *)
Theorem script_returns (csv : CsvFrame) (ui : UI) (s : state) :
  csv_has_schema csv = true ->
  (fst (script csv ui s) = Ok tt <->
   dates_parse csv = true /\ (ui_page ui = DataAnalysis -> csv_rows csv <> [])).
Proof.
  intros Hs.
  assert (Ed : csv_has_column csv "order_date" = true).
  { unfold csv_has_schema, schema in Hs. cbn [forallb] in Hs.
    repeat (apply andb_prop in Hs; destruct Hs as [? Hs]). assumption. }
  pose proof (loaded_frame_cases csv) as Cases. rewrite Ed in Cases.
  cbn [negb orb] in Cases.
  destruct (dates_parse csv) eqn:P.
  2:{ split; [| intros [? _]; discriminate].
      unfold script, bind. rewrite load_data_run, Cases. discriminate. }
  destruct Cases as [df L]. destruct (loaded_frame_ok csv df L) as [Hc Hr].
  assert (Hsd : has_schema df = true).
  { unfold has_schema, has_column. rewrite Hc. exact Hs. }
  destruct (has_schema_columns df Hsd) as (Ec & En & Es & Eu & Et & _).
  set (data := fresh (dom (heap s))).
  set (s1 := mkState (<[data := df]> (heap s)) (out s ++ [Title "Navigation"])).
  assert (Hd : heap s1 !! data = Some df) by apply lookup_insert_eq.
  assert (Hrun : script csv ui s =
                 match ui_page ui with
                 | Home => home_page s1
                 | DataVisualization => data_visualization data ui s1
                 | DataAnalysis => data_analysis data ui s1
                 end).
  { unfold script. run_with ltac:(rewrite load_data_run, L; reflexivity).
    unfold run_page. run_emit. destruct (ui_page ui); reflexivity. }
  rewrite Hrun. destruct (ui_page ui).
  - rewrite home_page_run. split; [intros _; split; [reflexivity | discriminate] | reflexivity].
  - rewrite (data_visualization_render data ui s1 df Hd).
    + split; [intros _; split; [reflexivity | discriminate] | reflexivity].
    + rewrite !first_missing_cons, Ec, En, Et, Es. reflexivity.
  - assert (Hm : first_missing df
                   ["pizza_category"; "total_price"; "unit_price"; "pizza_name"] = None).
    { rewrite !first_missing_cons, Ec, Et, Eu, En. reflexivity. }
    pose proof (data_analysis_run data ui s1 df Hd) as Ha. rewrite Hm in Ha.
    split.
    + intros Hok. split; [reflexivity |]. intros _ E.
      rewrite (selected_view_empty df ui (proj2 Hr E)) in Ha.
      rewrite Ha in Hok. discriminate.
    + intros [_ Hne].
      assert (Hne' : rows df <> []).
      { intros E. apply (Hne eq_refl). apply Hr. exact E. }
      pose proof (selected_view_nonempty df ui Hne') as Hv.
      destruct (rows (selected_view df ui)); [destruct (Hv eq_refl) |].
      destruct Ha as (s' & -> & _). reflexivity.
Qed.

(** X17: On a dataset that lacks [pizza_size] only among the columns the
    visualization page reads, the page has created the filtered view and
    drawn the bar chart of the sums per pizza when it raises [KeyError] for
    the pie chart: the failure comes after a part of the page is shown. *)
Theorem visualization_page_stops_after_bar_chart (data : loc) (ui : UI) (s : state)
    (df : DataFrame) :
  heap s !! data = Some df ->
  first_missing df ["pizza_category"; "pizza_name"; "total_price"; "pizza_size"]
    = Some "pizza_size" ->
  data_visualization data ui s =
    (Raise (KeyError "pizza_size"),
     mkState (<[fresh (dom (heap s)) := selected_view df ui]> (heap s))
             (out s ++ [Title "Data Visualization"; Markdown; Markdown;
                        PlotlyChart
                          (Bar (grouped_totals pizza_name (rows (selected_view df ui))))])).
Proof.
  intros Hd Hm. rewrite !first_missing_cons in Hm.
  destruct (has_column df "pizza_category") eqn:Ec; [| discriminate].
  destruct (has_column df "pizza_name") eqn:En; [| discriminate].
  destruct (has_column df "total_price") eqn:Et; [| discriminate].
  destruct (has_column df "pizza_size") eqn:Es; [discriminate |]. clear Hm.
  assert (Epie : sales_by_size (selected_view df ui) = Raise (KeyError "pizza_size")).
  { unfold sales_by_size. rewrite groupby_total_price_cases.
    change (has_column (selected_view df ui) (label col_pizza_size))
      with (has_column df "pizza_size").
    rewrite Es. reflexivity. }
  etransitivity.
  { unfold data_visualization.
    run_emit. run_emit. run_emit.
    run_with ltac:(apply (select_category_run data ui _ df); [lookup | exact Ec]).
    cbn [fst snd].
    apply bind_raise_run. unfold sales_charts.
    run_deref.
    run_lift (groupby_total_price_table (selected_view df ui) col_pizza_name En Et
              : total_sales_by_pizza (selected_view df ui) = _).
    run_emit. run_deref. run_raise Epie. reflexivity. }
  cbn [heap out]. f_equal. f_equal. rewrite <- !app_assoc. reflexivity.
Qed.

(** ** Runs do not depend on earlier runs *)

Lemma run_page_outcome (data : loc) (ui : UI) (s s' : state) (df : DataFrame) :
  heap s !! data = Some df ->
  heap s' !! data = Some df ->
  fst (run_page data ui s) = fst (run_page data ui s').
Proof.
  intros Hd Hd'.
  assert (Hrun : forall t, run_page data ui t =
            match ui_page ui with
            | Home => home_page (mkState (heap t) (out t ++ [Title "Navigation"]))
            | DataVisualization =>
                data_visualization data ui (mkState (heap t) (out t ++ [Title "Navigation"]))
            | DataAnalysis =>
                data_analysis data ui (mkState (heap t) (out t ++ [Title "Navigation"]))
            end).
  { intros t. unfold run_page. run_emit. destruct (ui_page ui); reflexivity. }
  rewrite (Hrun s), (Hrun s').
  set (t := mkState (heap s) (out s ++ [Title "Navigation"])).
  set (t' := mkState (heap s') (out s' ++ [Title "Navigation"])).
  assert (Ht : heap t !! data = Some df) by exact Hd.
  assert (Ht' : heap t' !! data = Some df) by exact Hd'.
  destruct (ui_page ui).
  - rewrite !home_page_run. reflexivity.
  - pose proof (data_visualization_run data ui t df Ht) as H1.
    pose proof (data_visualization_run data ui t' df Ht') as H2.
    destruct (first_missing df _) as [c |].
    + destruct H1 as [u ->]. destruct H2 as [u' ->]. reflexivity.
    + destruct H1 as (u & -> & _). destruct H2 as (u' & -> & _). reflexivity.
  - pose proof (data_analysis_run data ui t df Ht) as H1.
    pose proof (data_analysis_run data ui t' df Ht') as H2.
    destruct (first_missing df _) as [c |].
    + destruct H1 as [u ->]. destruct H2 as [u' ->]. reflexivity.
    + destruct (rows (selected_view df ui)).
      * rewrite H1, H2. reflexivity.
      * destruct H1 as (u & -> & _). destruct H2 as (u' & -> & _). reflexivity.
Qed.

(** X18: A page run does not depend on the runs before it: after any
    session, returned or raised, the same user input on the same dataset
    has the outcome (the return, or the same exception) it has on the store
    the session started from. *)
Theorem page_outcome_after_session (data : loc) (uis : list UI) (ui : UI) (s : state)
    (df : DataFrame) :
  heap s !! data = Some df ->
  fst (run_page data ui (session data uis s)) = fst (run_page data ui s).
Proof.
  intros Hd. apply (run_page_outcome data ui _ s df); [| exact Hd].
  apply (lookup_weaken (heap s) (heap (session data uis s)) data df Hd).
  apply keeps_session. reflexivity.
Qed.


End Facts.

(** * The sums of the two number types *)

(** The claim C6 as the specification states it fails on both number
    types.  On the [int64] column of three sales whose sum is beyond 64
    bits the total is 3, not the sum of the column.  On the [float64]
    column of the sales 0.30, 0.10 and 0.20 the total depends on the order
    of the rows, as no sum of the column does: it is 0.6000000000000001
    in the order of the file and 0.6 by ascending size. *)
Lemma C6_total_sales_wraps_and_rounds :
  (total_sales Cases.huge = Ok 3 /\
   sum_list (map total_price (rows Cases.huge)) = 18446744073709551619) /\
  (Permutation (rows Cases.dollars) (rows Cases.dollars_by_size) /\
   total_sales Cases.dollars = Ok 0.6000000000000001%float /\
   total_sales Cases.dollars_by_size = Ok 0.6%float /\
   total_sales Cases.dollars <> total_sales Cases.dollars_by_size).
Proof.
  split; [split; reflexivity |].
  split; [| split; [reflexivity | split; [reflexivity |]]].
  - unfold Cases.dollars, Cases.dollars_by_size. cbn [rows].
    apply Permutation_cons_app with (l1 := [_]) (l2 := [_]). apply perm_swap.
  - intros E.
    apply (f_equal (fun r => match r with
                             | Ok x => PrimFloat.eqb x 0.6%float
                             | Raise _ => false
                             end)) in E.
    vm_compute in E. discriminate.
Qed.

(** C6 (amended): For every filtered view, [total_sales] is the sum pandas
    computes of the [total_price] column in the number type of the
    column, and it is 0 when the view has no row.  On an [int64] column
    it is the exact sum of the cells wrapped around to 64 bits, hence the
    exact sum whenever that one fits in 64 bits; on a [float64] column it
    is numpy's pairwise sum, every addition rounded: for fewer than eight
    rows the cells are added one after the other in row order. *)
Theorem C6_total_sales_is_the_computed_sum :
  (forall (num : Type) (number : Number num) (view : @DataFrame num),
     has_column view "total_price" = true ->
     total_sales view = Ok (Series_sum (map total_price (rows view))) /\
     (EmptySum num -> rows view = [] -> total_sales view = Ok zero)) /\
  (forall view : @DataFrame Z,
     has_column view "total_price" = true ->
     total_sales view = Ok (wrap64 (sum_list (map total_price (rows view)))) /\
     (- 2 ^ 63 <= sum_list (map total_price (rows view)) < 2 ^ 63 ->
      total_sales view = Ok (sum_list (map total_price (rows view)))) /\
     (rows view = [] -> total_sales view = Ok 0)) /\
  (forall view : @DataFrame float,
     has_column view "total_price" = true ->
     total_sales view = Ok (float64_sum (map total_price (rows view))) /\
     ((length (rows view) < 8)%nat ->
      total_sales view =
        Ok (PrimFloat.add 0%float
              (fold_left PrimFloat.add (map total_price (rows view)) (-0)%float))) /\
     (rows view = [] -> total_sales view = Ok 0%float)).
Proof.
  split; [| split].
  - intros num number view E. rewrite (total_sales_ok view E).
    split; [reflexivity |]. intros Z0 ->. cbn [map]. rewrite Series_sum_nil. reflexivity.
  - intros view E. rewrite (total_sales_ok view E). cbn [Series_sum int64].
    rewrite int64_sum_wrap. split; [reflexivity |]. split.
    + intros R. rewrite (wrap64_small _ R). reflexivity.
    + intros ->. reflexivity.
  - intros view E. rewrite (total_sales_ok view E). split; [reflexivity |]. split.
    + intros L. cbn [Series_sum float64]. rewrite float64_sum_short; [reflexivity |].
      rewrite length_map. exact L.
    + intros ->. reflexivity.
Qed.

Lemma C6_total_sales_witness :
  total_sales Scenario.classic_view = Ok 3000 /\
  total_sales Cases.dollars_by_size =
    Ok (PrimFloat.add 0%float
          (fold_left PrimFloat.add [0.2%float; 0.3%float; 0.1%float] (-0)%float)).
Proof.
  destruct C6_total_sales_is_the_computed_sum as (_ & I & F). split.
  - destruct (I Scenario.classic_view) as (_ & Exact & _); [reflexivity |].
    apply Exact. vm_compute. split; [discriminate | reflexivity].
  - destruct (F Cases.dollars_by_size) as (_ & Short & _); [reflexivity |].
    apply Short. cbn [Cases.dollars_by_size rows length]. lia.
Defined.

(** * The scenario, run *)

Example scenario_load :
  load_data Scenario.csv empty_state = (Ok 0%nat, Scenario.loaded Scenario.dataset) /\
  load_data Scenario.csv_no_rows empty_state = (Ok 0%nat, Scenario.loaded Scenario.no_rows) /\
  load_data Cases.csv_evening empty_state = (Ok 0%nat, Scenario.loaded Cases.evening) /\
  columns Scenario.no_order_date = csv_columns Scenario.csv_no_order_date /\
  load_data Scenario.csv_bad_date empty_state =
    (Raise (ValueError "Unknown datetime string format, unable to parse"), empty_state).
Proof. vm_compute. repeat split. Qed.

Example scenario_classic_view :
  filter_category Scenario.dataset (Some "Classic") = Ok Scenario.classic_view.
Proof. reflexivity. Qed.

Example scenario_summary :
  total_sales Scenario.classic_view = Ok 3000 /\
  average_price Scenario.classic_view = Ok (Val 1000%float) /\
  top_selling_pizza Scenario.classic_view = Ok "Margherita" /\
  top_pizza_sales Scenario.classic_view = Ok (Val 3000).
Proof. vm_compute. repeat split. Qed.

Example scenario_sales_over_time :
  sales_over_time Scenario.classic_view =
    Ok [(Scenario.day_1, 2000); (Scenario.day_2, 1000)].
Proof. vm_compute. reflexivity. Qed.

Example scenario_analysis_page :
  let run := script Scenario.csv Scenario.analysis_ui empty_state in
  fst run = Ok tt /\
  List.filter is_chart (out (snd run)) =
    [PlotlyChart (Line [(Scenario.day_1, 2000); (Scenario.day_2, 1000)]);
     PlotlyChart (Bar [("Margherita", 2000); ("Margherita", 1000);
                       ("Veggie Supreme", 1500)])].
Proof. vm_compute. split; reflexivity. Qed.

(** In the tie of the scenario both "Pepperoni", first in the file, and
    "Hawaiian" sell 3000; the script reports "Hawaiian". *)
Example top_selling_pizza_tie :
  top_selling_pizza Scenario.tie = Ok "Hawaiian" /\
  top_pizza_sales Scenario.tie = Ok (Val 3000).
Proof. split; reflexivity. Qed.

(** The per-name sums of the sales in dollars are ordered by the
    comparison of [float64]. *)
Lemma dollars_ordered :
  ordered_on (map snd (grouped_totals pizza_name (rows Cases.dollars))).
Proof.
  intros a b c Ia Ib Ic.
  vm_compute in Ia, Ib, Ic.
  destruct Ia as [<- | [<- | []]], Ib as [<- | [<- | []]], Ic as [<- | [<- | []]];
    split; vm_compute; intros; congruence.
Qed.

(** * The claims, on the scenario *)

Lemma C2_filter_category_witness :
  exists view,
    filter_category Scenario.dataset (Some "Classic") = Ok view /\
    (forall r, In r (rows view) -> pizza_category r = "Classic") /\
    (forall r, In r (rows Scenario.dataset) -> pizza_category r = "Classic" ->
               In r (rows view)) /\
    sublist (rows view) (rows Scenario.dataset) /\
    rows view = List.filter (fun r => String.eqb (pizza_category r) "Classic")
                            (rows Scenario.dataset).
Proof. apply (C2_filter_category_exact_stable Scenario.dataset "Classic"). reflexivity. Defined.

(** The claim C7 as the specification states it fails on the [float64]
    column of the sales 0.30 (size M), 0.10 (size S) and 0.20 (size L):
    the per-size sums, by ascending size, add up to 0.6, and the total of
    the view is 0.6000000000000001. *)
Lemma C7_size_sums_differ_from_total :
  sales_by_size Cases.dollars =
    Ok [("L", 0.2%float); ("M", 0.3%float); ("S", 0.1%float)] /\
  Series_sum (map snd [("L", 0.2%float); ("M", 0.3%float); ("S", 0.1%float)]) = 0.6%float /\
  total_sales Cases.dollars = Ok 0.6000000000000001%float /\
  0.6%float <> 0.6000000000000001%float.
Proof.
  split; [reflexivity |]. split; [reflexivity |]. split; [reflexivity |].
  intros E. apply (f_equal (fun x => PrimFloat.eqb x 0.6%float)) in E.
  vm_compute in E. discriminate.
Qed.

Lemma C7_size_groups_witness :
  exists by_size total groups,
    sales_by_size Scenario.dataset = Ok by_size /\
    total_sales Scenario.dataset = Ok total /\
    map snd by_size = map group_sum groups /\
    Permutation (concat groups) (map total_price (rows Scenario.dataset)) /\
    total = Series_sum (map total_price (rows Scenario.dataset)) /\
    Series_sum (map snd by_size) = total.
Proof.
  destruct (C7_size_groups_partition_the_view Scenario.dataset)
    as (by_size & total & groups & E1 & E2 & E3 & P & E4 & A);
    [reflexivity | reflexivity |].
  exists by_size, total, groups.
  repeat (split; [assumption |]). apply A. exact int64_AdditiveNumber.
Defined.

Lemma C8_aggregate_keys_witness :
  exists table,
    groupby_agg Scenario.dataset col_pizza_size col_unit_price Series_sum = Ok table /\
    List.NoDup (map fst table) /\
    (forall k, In k (map fst table) <->
               In k (map (cell col_pizza_size) (rows Scenario.dataset))) /\
    (rows Scenario.dataset = [] -> table = []).
Proof.
  apply (C8_aggregate_keys Scenario.dataset col_pizza_size col_unit_price Series_sum);
    reflexivity.
Defined.



(** The claim C3 as the specification states it fails on a [float64]
    column: Alpha sold for 0.30 and Beta for 0.10 and 0.20, a tie, and
    the script reports Beta, not the lexicographically first Alpha; the
    sum it has computed for Beta is 0.30000000000000004.  On the same
    sales in cents, an [int64] column, it reports Alpha. *)
Lemma C3_tie_goes_to_the_later_name :
  kcmp "Alpha" "Beta" = Lt /\
  map (fun r => (pizza_name r, total_price r)) (rows Cases.cents) =
    [("Alpha", 30); ("Beta", 10); ("Beta", 20)] /\
  map (fun r => (pizza_name r, total_price r)) (rows Cases.dollars) =
    [("Alpha", 0.3%float); ("Beta", 0.1%float); ("Beta", 0.2%float)] /\
  top_selling_pizza Cases.cents = Ok "Alpha" /\
  top_selling_pizza Cases.dollars = Ok "Beta" /\
  top_pizza_sales Cases.dollars = Ok (Val 0.30000000000000004%float).
Proof. vm_compute. repeat split. Qed.

(** C3 (amended): For every non-empty filtered view, [top_pizza_name] is a
    pizza name of the view whose computed sum of [total_price] no other
    name exceeds, [top_pizza_sales] is that sum, and among the names whose
    computed sum is not below it, it is the lexicographically first: on
    an [int64] column always, and whatever the number type when the
    comparison orders the per-name sums (as it does on [float64] unless a
    sum is NaN).  The sums are the ones pandas computes in the number
    type of the column: names whose exact sums tie need not tie once
    every addition has rounded. *)
Theorem C3_top_pizza_is_first_maximum :
  (forall filtered_data : @DataFrame Z,
     has_column filtered_data "pizza_name" = true ->
     has_column filtered_data "total_price" = true ->
     rows filtered_data <> [] ->
     exists top,
       top_selling_pizza filtered_data = Ok top /\
       top_pizza_sales filtered_data =
         Ok (Val (key_total pizza_name top (rows filtered_data))) /\
       In top (map pizza_name (rows filtered_data)) /\
       (forall n, In n (map pizza_name (rows filtered_data)) ->
          key_total pizza_name n (rows filtered_data) <=
          key_total pizza_name top (rows filtered_data)) /\
       (forall n, In n (map pizza_name (rows filtered_data)) ->
          key_total pizza_name n (rows filtered_data) =
          key_total pizza_name top (rows filtered_data) ->
          kle top n)) /\
  (forall (num : Type) (number : Number num) (filtered_data : @DataFrame num),
     has_column filtered_data "pizza_name" = true ->
     has_column filtered_data "total_price" = true ->
     rows filtered_data <> [] ->
     ordered_on (map snd (grouped_totals pizza_name (rows filtered_data))) ->
     exists top,
       top_selling_pizza filtered_data = Ok top /\
       top_pizza_sales filtered_data =
         Ok (Val (key_total pizza_name top (rows filtered_data))) /\
       In top (map pizza_name (rows filtered_data)) /\
       (forall n, In n (map pizza_name (rows filtered_data)) ->
          num_ltb (key_total pizza_name top (rows filtered_data))
                  (key_total pizza_name n (rows filtered_data)) = false) /\
       (forall n, In n (map pizza_name (rows filtered_data)) ->
          num_ltb (key_total pizza_name n (rows filtered_data))
                  (key_total pizza_name top (rows filtered_data)) = false ->
          kle top n)).
Proof.
  split.
  - intros filtered_data En Et Hne.
    destruct (top_pizza_first_maximum filtered_data En Et Hne (int64_ordered_on _))
      as (top & E1 & E2 & I & M & T).
    exists top. repeat (split; [assumption |]). split.
    + intros n In'. apply Z.ltb_ge. exact (M n In').
    + intros n In' E. apply (T n In'). apply Z.ltb_ge. rewrite E. apply Z.le_refl.
  - intros num number filtered_data. apply top_pizza_first_maximum.
Qed.

Lemma C3_top_pizza_witness :
  (exists top,
     top_selling_pizza Scenario.tie = Ok top /\
     top_pizza_sales Scenario.tie =
       Ok (Val (key_total pizza_name top (rows Scenario.tie))) /\
     In top (map pizza_name (rows Scenario.tie)) /\
     (forall n, In n (map pizza_name (rows Scenario.tie)) ->
        key_total pizza_name n (rows Scenario.tie) <=
        key_total pizza_name top (rows Scenario.tie)) /\
     (forall n, In n (map pizza_name (rows Scenario.tie)) ->
        key_total pizza_name n (rows Scenario.tie) =
        key_total pizza_name top (rows Scenario.tie) ->
        kle top n)) /\
  (exists top,
     top_selling_pizza Cases.dollars = Ok top /\
     top_pizza_sales Cases.dollars =
       Ok (Val (key_total pizza_name top (rows Cases.dollars))) /\
     In top (map pizza_name (rows Cases.dollars)) /\
     (forall n, In n (map pizza_name (rows Cases.dollars)) ->
        num_ltb (key_total pizza_name top (rows Cases.dollars))
                (key_total pizza_name n (rows Cases.dollars)) = false) /\
     (forall n, In n (map pizza_name (rows Cases.dollars)) ->
        num_ltb (key_total pizza_name n (rows Cases.dollars))
                (key_total pizza_name top (rows Cases.dollars)) = false ->
        kle top n)).
Proof.
  split.
  - apply (proj1 C3_top_pizza_is_first_maximum Scenario.tie);
      [reflexivity | reflexivity | discriminate].
  - apply (proj2 C3_top_pizza_is_first_maximum float float64 Cases.dollars);
      [reflexivity | reflexivity | discriminate | exact dollars_ordered].
Defined.

(** The claim C1 as the specification states it fails on the dataset with
    no rows: the category select box has nothing to offer, the view is
    empty, and the analysis page raises out of [data_analysis]. *)
Lemma C1_empty_view_crashes :
  rows (selected_view Scenario.no_rows Scenario.analysis_ui) = [] /\
  fst (script Scenario.csv_no_rows Scenario.analysis_ui empty_state) =
    Raise (ValueError "attempt to get argmax of an empty sequence") /\
  is_ok (fst (script Scenario.csv_no_rows Scenario.analysis_ui empty_state)) = false.
Proof. vm_compute. repeat split. Qed.

Lemma C1_empty_view_metrics_witness :
  average_price (selected_view Scenario.no_rows Scenario.analysis_ui) = Ok NaN /\
  top_pizza_sales (selected_view Scenario.no_rows Scenario.analysis_ui) = Ok NaN /\
  top_selling_pizza (selected_view Scenario.no_rows Scenario.analysis_ui) =
    Raise (ValueError "attempt to get argmax of an empty sequence") /\
  data_analysis 0%nat Scenario.analysis_ui (Scenario.loaded Scenario.no_rows) =
    (Raise (ValueError "attempt to get argmax of an empty sequence"),
     mkState (<[fresh (dom (heap (Scenario.loaded Scenario.no_rows))) :=
                  selected_view Scenario.no_rows Scenario.analysis_ui]>
                (heap (Scenario.loaded Scenario.no_rows)))
             ((out (Scenario.loaded Scenario.no_rows) ++ [Title "Data Analysis"])
              ++ [Markdown])) /\
  rows Scenario.no_rows = [].
Proof.
  apply (C1_empty_view_metrics 0%nat Scenario.analysis_ui
           (Scenario.loaded Scenario.no_rows) Scenario.no_rows);
    reflexivity.
Defined.

(** The claim C4 as the specification states it fails on the file
    without its [order_date] column: it is loaded and the visualization
    page runs to its end. *)
Lemma C4_missing_order_date_accepted :
  csv_has_schema Scenario.csv_no_order_date = false /\
  is_ok (fst (load_data Scenario.csv_no_order_date empty_state)) = true /\
  fst (script Scenario.csv_no_order_date Scenario.visualization_ui empty_state) = Ok tt /\
  List.filter is_chart
    (out (snd (script Scenario.csv_no_order_date Scenario.visualization_ui empty_state))) =
  [PlotlyChart (Bar [("Margherita", 3000)]); PlotlyChart (Pie [("M", 3000)])].
Proof. vm_compute. repeat split. Qed.

Lemma C4_missing_columns_witness :
  (fst (data_visualization 0%nat Scenario.visualization_ui
          (snd (load_data Scenario.csv_no_order_date empty_state))) = Ok tt /\
   List.filter is_line_chart
     (out (snd (data_visualization 0%nat Scenario.visualization_ui
                  (snd (load_data Scenario.csv_no_order_date empty_state))))) =
   List.filter is_line_chart (out empty_state)) /\
  load_data Scenario.csv_bad_date empty_state =
    (Raise (ValueError "Unknown datetime string format, unable to parse"), empty_state).
Proof.
  split.
  - destruct (C4_missing_columns Scenario.csv_no_order_date Scenario.visualization_ui
                empty_state) as [_ Loads].
    destruct Loads as (df & L & _ & _ & _ & _ & _ & V & _); [left; reflexivity |].
    vm_compute in L. injection L as <-. apply V; reflexivity.
  - destruct (C4_missing_columns Scenario.csv_bad_date Scenario.visualization_ui
                empty_state) as [Raises _].
    apply Raises; reflexivity.
Defined.

Lemma C10_comparison_witness :
  (forall r, In r (rows (comparison_view Scenario.dataset Scenario.analysis_ui)) ->
             In (pizza_name r) (selected_pizzas Scenario.dataset Scenario.analysis_ui)) /\
  comparative_analysis 0%nat Scenario.visualization_ui (Scenario.loaded Scenario.dataset) =
    (Ok tt, mkState (heap (Scenario.loaded Scenario.dataset))
                    (out (Scenario.loaded Scenario.dataset) ++ [Markdown])).
Proof.
  split.
  - destruct (C10_comparison_skipped_or_selected 0%nat Scenario.analysis_ui
                (Scenario.loaded Scenario.dataset) Scenario.dataset)
      as [_ H]; [reflexivity | reflexivity | reflexivity |].
    apply H. discriminate.
  - destruct (C10_comparison_skipped_or_selected 0%nat Scenario.visualization_ui
                (Scenario.loaded Scenario.dataset) Scenario.dataset)
      as [H _]; [reflexivity | reflexivity | reflexivity |].
    apply H. reflexivity.
Defined.

Lemma C9_dataset_never_mutated_witness :
  heap (session 0%nat
          [Scenario.analysis_ui; Scenario.visualization_ui; Scenario.analysis_ui]
          (Scenario.loaded Scenario.dataset)) !! 0%nat = Some Scenario.dataset.
Proof.
  apply (C9_dataset_never_mutated 0%nat
           [Scenario.analysis_ui; Scenario.visualization_ui; Scenario.analysis_ui]
           (Scenario.loaded Scenario.dataset) Scenario.dataset).
  reflexivity.
Defined.

(** * Further properties, on the scenario *)

Lemma filter_category_idempotent_witness :
  filter_category Scenario.classic_view (Some "Classic") = Ok Scenario.classic_view.
Proof.
  apply (filter_category_idempotent Scenario.dataset (Some "Classic") Scenario.classic_view).
  reflexivity.
Defined.

Lemma filter_category_absent_value_witness :
  filter_category Scenario.dataset (Some "Supreme") =
    Ok (mkDataFrame (columns Scenario.dataset) []).
Proof.
  apply (filter_category_absent_value Scenario.dataset (Some "Supreme")).
  - reflexivity.
  - intros r [<- | [<- | [<- | []]]]; discriminate.
Defined.

Lemma category_options_witness :
  exists options,
    category_options Scenario.dataset = Ok options /\
    StronglySorted String_as_OT.lt options /\
    List.NoDup options /\
    (forall c, In c options <-> In c (map pizza_category (rows Scenario.dataset))).
Proof. apply (category_options_sorted_distinct Scenario.dataset). reflexivity. Defined.

Lemma selected_view_of_one_category_witness :
  exists options c view,
    category_options Scenario.dataset = Ok options /\
    st_selectbox options (ui_category Scenario.analysis_ui) = Some c /\
    In c (map pizza_category (rows Scenario.dataset)) /\
    filter_category Scenario.dataset (Some c) = Ok view /\
    rows view <> [] /\
    (forall r, In r (rows view) <-> In r (rows Scenario.dataset) /\ pizza_category r = c) /\
    select_category 0%nat Scenario.analysis_ui (Scenario.loaded Scenario.dataset) =
      (Ok (Some c, fresh (dom (heap (Scenario.loaded Scenario.dataset)))),
       mkState (<[fresh (dom (heap (Scenario.loaded Scenario.dataset))) := view]>
                  (heap (Scenario.loaded Scenario.dataset)))
               (out (Scenario.loaded Scenario.dataset))).
Proof.
  apply (selected_view_of_one_category 0%nat Scenario.analysis_ui
           (Scenario.loaded Scenario.dataset) Scenario.dataset);
    [reflexivity | reflexivity | discriminate].
Defined.

Lemma compare_options_witness :
  exists options,
    compare_options Scenario.tie = Ok options /\
    List.NoDup options /\
    (forall n, In n options <-> In n (map pizza_name (rows Scenario.tie))) /\
    sublist options (map pizza_name (rows Scenario.tie)) /\
    (forall n, In n (selected_pizzas Scenario.tie Scenario.analysis_ui) <->
               In n (ui_compare Scenario.analysis_ui) /\
               In n (map pizza_name (rows Scenario.tie))).
Proof.
  apply (compare_options_distinct_names Scenario.tie Scenario.analysis_ui). reflexivity.
Defined.

Lemma comparison_data_witness :
  exists view,
    comparison_data Scenario.dataset ["Margherita"] = Ok view /\
    (forall r, In r (rows view) <->
               In r (rows Scenario.dataset) /\ In (pizza_name r) ["Margherita"]) /\
    sublist (rows view) (rows Scenario.dataset) /\
    ((forall r, In r (rows Scenario.dataset) -> In (pizza_name r) ["Margherita"]) ->
     view = Scenario.dataset).
Proof. apply (comparison_data_exact_stable Scenario.dataset ["Margherita"]). reflexivity. Defined.

Lemma grouped_table_entries_witness :
  exists table,
    groupby_total_price Scenario.dataset col_pizza_name = Ok table /\
    ascending (map fst table) /\
    (forall k v, In (k, v) table <->
                 In k (map (cell col_pizza_name) (rows Scenario.dataset)) /\
                 v = key_total (cell col_pizza_name) k (rows Scenario.dataset)).
Proof. apply (grouped_table_entries Scenario.dataset col_pizza_name); reflexivity. Defined.

Lemma chart_tables_witness :
  exists by_pizza by_size over_time total,
    total_sales_by_pizza Scenario.dataset = Ok by_pizza /\
    sales_by_size Scenario.dataset = Ok by_size /\
    sales_over_time Scenario.dataset = Ok over_time /\
    total_sales Scenario.dataset = Ok total /\
    Series_sum (map snd by_pizza) = total /\
    Series_sum (map snd by_size) = total /\
    Series_sum (map snd over_time) = total.
Proof. apply (chart_tables_share_the_total Scenario.dataset). reflexivity. Defined.

(** X9: On a non-empty view the top-selling pizza and its sales are one of
    the bars of the sales-by-pizza chart, and no bar is higher: on an
    [int64] column always, and whatever the number type when the
    comparison orders the sums of the bars (as it does on [float64] unless
    a sum is NaN). *)
Theorem top_pizza_is_the_highest_bar :
  (forall fd : @DataFrame Z,
     has_column fd "pizza_name" = true ->
     has_column fd "total_price" = true ->
     rows fd <> [] ->
     exists top sales bars,
       top_selling_pizza fd = Ok top /\
       top_pizza_sales fd = Ok (Val sales) /\
       total_sales_by_pizza fd = Ok bars /\
       In (top, sales) bars /\
       (forall n v, In (n, v) bars -> v <= sales)) /\
  (forall (num : Type) (number : Number num) (fd : @DataFrame num),
     has_column fd "pizza_name" = true ->
     has_column fd "total_price" = true ->
     rows fd <> [] ->
     ordered_on (map snd (grouped_totals pizza_name (rows fd))) ->
     exists top sales bars,
       top_selling_pizza fd = Ok top /\
       top_pizza_sales fd = Ok (Val sales) /\
       total_sales_by_pizza fd = Ok bars /\
       In (top, sales) bars /\
       (forall n v, In (n, v) bars -> num_ltb sales v = false)).
Proof.
  split.
  - intros fd En Et Hne.
    destruct (top_pizza_highest fd En Et Hne (int64_ordered_on _))
      as (top & sales & bars & E1 & E2 & E3 & I & M).
    exists top, sales, bars. repeat (split; [assumption |]).
    intros n v Inv. apply Z.ltb_ge. exact (M n v Inv).
  - intros num number fd. apply top_pizza_highest.
Qed.

Lemma top_pizza_is_the_highest_bar_witness :
  exists top sales bars,
    top_selling_pizza Scenario.tie = Ok top /\
    top_pizza_sales Scenario.tie = Ok (Val sales) /\
    total_sales_by_pizza Scenario.tie = Ok bars /\
    In (top, sales) bars /\
    (forall n v, In (n, v) bars -> v <= sales).
Proof.
  apply (proj1 top_pizza_is_the_highest_bar Scenario.tie);
    [reflexivity | reflexivity | discriminate].
Defined.

Lemma visualization_page_renders_witness :
  data_visualization 0%nat Scenario.visualization_ui (Scenario.loaded Scenario.no_rows) =
    (Ok tt,
     mkState (<[fresh (dom (heap (Scenario.loaded Scenario.no_rows))) :=
                  selected_view Scenario.no_rows Scenario.visualization_ui]>
                (heap (Scenario.loaded Scenario.no_rows)))
             (out (Scenario.loaded Scenario.no_rows) ++
              visualization_widgets Scenario.no_rows Scenario.visualization_ui)).
Proof.
  apply (visualization_page_renders 0%nat Scenario.visualization_ui
           (Scenario.loaded Scenario.no_rows) Scenario.no_rows); reflexivity.
Defined.

Lemma analysis_page_renders_witness :
  exists top sales,
    top_selling_pizza (selected_view Scenario.dataset Scenario.analysis_ui) = Ok top /\
    top_pizza_sales (selected_view Scenario.dataset Scenario.analysis_ui) = Ok (Val sales) /\
    data_analysis 0%nat Scenario.analysis_ui (Scenario.loaded Scenario.dataset) =
      (Ok tt,
       mkState (analysis_store Scenario.dataset Scenario.analysis_ui
                  (heap (Scenario.loaded Scenario.dataset)))
               (out (Scenario.loaded Scenario.dataset) ++
                analysis_widgets Scenario.dataset Scenario.analysis_ui top (Val sales))).
Proof.
  apply (analysis_page_renders 0%nat Scenario.analysis_ui
           (Scenario.loaded Scenario.dataset) Scenario.dataset);
    [reflexivity | reflexivity | discriminate].
Defined.

Lemma analysis_page_all_or_nothing_witness :
  out (snd (data_analysis 0%nat Scenario.analysis_ui (Scenario.loaded Scenario.no_rows))) =
  out (Scenario.loaded Scenario.no_rows) ++ [Title "Data Analysis"; Markdown].
Proof.
  apply (analysis_page_all_or_nothing 0%nat Scenario.analysis_ui
           (Scenario.loaded Scenario.no_rows) Scenario.no_rows); reflexivity.
Defined.

Lemma analysis_page_returns_iff_rows_witness :
  (fst (data_analysis 0%nat Scenario.analysis_ui (Scenario.loaded Scenario.tie)) = Ok tt <->
   rows Scenario.tie <> []) /\
  (rows Scenario.tie = [] ->
   fst (data_analysis 0%nat Scenario.analysis_ui (Scenario.loaded Scenario.tie)) =
     Raise (ValueError "attempt to get argmax of an empty sequence")).
Proof.
  apply (analysis_page_returns_iff_rows 0%nat Scenario.analysis_ui
           (Scenario.loaded Scenario.tie) Scenario.tie); reflexivity.
Defined.

Lemma script_returns_witness :
  (fst (script Scenario.csv Scenario.analysis_ui empty_state) = Ok tt <->
   dates_parse Scenario.csv = true /\
   (ui_page Scenario.analysis_ui = DataAnalysis -> csv_rows Scenario.csv <> [])) /\
  (fst (script Scenario.csv_bad_date Scenario.visualization_ui empty_state) = Ok tt <->
   dates_parse Scenario.csv_bad_date = true /\
   (ui_page Scenario.visualization_ui = DataAnalysis ->
    csv_rows Scenario.csv_bad_date <> [])).
Proof.
  split.
  - apply (script_returns Scenario.csv Scenario.analysis_ui empty_state). reflexivity.
  - apply (script_returns Scenario.csv_bad_date Scenario.visualization_ui empty_state).
    reflexivity.
Defined.

Lemma visualization_page_stops_witness :
  data_visualization 0%nat Scenario.visualization_ui (Scenario.loaded Cases.no_pizza_size) =
    (Raise (KeyError "pizza_size"),
     mkState (<[fresh (dom (heap (Scenario.loaded Cases.no_pizza_size))) :=
                  selected_view Cases.no_pizza_size Scenario.visualization_ui]>
                (heap (Scenario.loaded Cases.no_pizza_size)))
             (out (Scenario.loaded Cases.no_pizza_size) ++
              [Title "Data Visualization"; Markdown; Markdown;
               PlotlyChart
                 (Bar (grouped_totals pizza_name
                         (rows (selected_view Cases.no_pizza_size
                                  Scenario.visualization_ui))))])).
Proof.
  apply (visualization_page_stops_after_bar_chart 0%nat Scenario.visualization_ui
           (Scenario.loaded Cases.no_pizza_size) Cases.no_pizza_size); reflexivity.
Defined.

Lemma page_outcome_after_session_witness :
  fst (run_page 0%nat Scenario.analysis_ui
         (session 0%nat [Scenario.visualization_ui; Scenario.analysis_ui]
            (Scenario.loaded Scenario.no_rows))) =
  fst (run_page 0%nat Scenario.analysis_ui (Scenario.loaded Scenario.no_rows)).
Proof.
  apply (page_outcome_after_session 0%nat
           [Scenario.visualization_ui; Scenario.analysis_ui] Scenario.analysis_ui
           (Scenario.loaded Scenario.no_rows) Scenario.no_rows).
  reflexivity.
Defined.

